(** * Booking, settlement and doctor-wallet accounting

    A shallow embedding of the appointment-booking, payment-settlement and
    wallet handlers of the backend ([api/appointments.py], [api/payments.py],
    [api/doctor_management.py]) as they run against the schema declared in
    [database/models.py], together with the properties stated for them.

    Modelling conventions, shared by the whole development:
    - a table is the list of its rows in insertion order; [query.first()]
      returns the first matching row of that list, [db.add] appends at the
      next commit;
    - a row is a record of the columns of [database/models.py] that the
      handlers read and write; free-text columns that are only written
      (descriptions, message bodies) are left out and notification titles
      are kept without their emoji.  Rows carry a value in every column
      that has a default or that every insert of the code base sets, and
      they satisfy the foreign keys; NULL is modelled ([option]) where the
      code itself leaves a column unset;
    - the schema is part of the program: the attributes of each mapped
      class, the members of [PaymentStatus], the NOT NULL and UNIQUE
      constraints, the length of the [String(n)] columns and the range of
      the [Integer] columns are embedded as data, and a handler that passes
      an unknown keyword to a constructor, reads a missing enum member or
      commits a row the tables (created from the models by [main.py]) refuse
      raises as it does in Python; the database is PostgreSQL
      ([database/connection.py]), which takes no NUL character in a text
      value or in a query parameter;
    - the session is created with [autoflush=False]: a query sees the
      committed rows, not the pending writes of the request; a commit writes
      all pending changes or, when one of them is refused, none;
    - a handler maps the committed store to a new committed store, an HTTP
      outcome and the background tasks it enqueued; the tasks of a
      successful response run afterwards, in order, and stop at the first
      one that raises;
    - what the outside world decides (clock readings, the random booking id,
      the gateway's answers, the HMAC function, the parse of a time of day)
      is an explicit argument;
    - Python [int] is [Z]; Python [float] is IEEE binary64, modelled exactly
      on the finite values the fee computation meets; a Python [str] is the
      [string] of its UTF-8 bytes. *)

From Stdlib Require Import ZArith List String Ascii Bool Lia.
From Stdlib Require Import DecimalString DecimalZ Sorted Permutation.
Import ListNotations.
Local Open Scope string_scope.
Local Open Scope list_scope.
Local Open Scope Z_scope.

(* ================================================================== *)
(** ** IEEE binary64 arithmetic used by the fee split *)
(* ================================================================== *)

Module Binary64.

(** A finite double: [(-1)^neg * mant * 2^expo].  The exponent range is not
    modelled (no overflow to infinity, no subnormals): the amounts handled
    are integers far below [2^1023]. *)
Record float := mk { neg : bool; mant : Z; expo : Z }.

Definition prec : Z := 53.

(** Round the magnitude [m * 2^e] to at most 53 significant bits, to
    nearest, ties to even. *)
Definition rne (m e : Z) : Z * Z :=
  if m <? 2 ^ prec then (m, e)
  else
    let s := Z.log2 m - (prec - 1) in
    let q := m / 2 ^ s in
    let r := m mod 2 ^ s in
    let half := 2 ^ (s - 1) in
    let q' := if (half <? r) || ((r =? half) && Z.odd q) then q + 1 else q in
    (q', e + s).

(** [float(n)] for a Python [int]. *)
Definition of_int (n : Z) : float :=
  let '(m, e) := rne (Z.abs n) 0 in mk (n <? 0) m e.

(** The correctly rounded product. *)
Definition mul (a b : float) : float :=
  let '(m, e) := rne (mant a * mant b) (expo a + expo b) in
  mk (xorb (neg a) (neg b)) m e.

(** [int(x)]: truncation toward zero. *)
Definition to_int (x : float) : Z :=
  let mag := if 0 <=? expo x then mant x * 2 ^ expo x
             else mant x / 2 ^ (- expo x) in
  if neg x then - mag else mag.

(** The literal [0.20]: the double nearest to 1/5, 0x3FC999999999999A. *)
Definition lit_0_20 : float := mk false 3602879701896397 (-54).

(** The literal [0.80]: the double nearest to 4/5, 0x3FE999999999999A. *)
Definition lit_0_80 : float := mk false 3602879701896397 (-52).

(** [int(n * c)] for an [int] [n] and a [float] [c]. *)
Definition int_of_product (n : Z) (c : float) : Z := to_int (mul (of_int n) c).

End Binary64.

(* ================================================================== *)
(** ** Fee split *)
(* ================================================================== *)

Record Breakdown := {
  bd_total_amount : Z;
  bd_platform_fee : Z;
  bd_doctor_share : Z
}.

(** [appointments.py], [calculate_payment_breakdown]. *)
Definition calculate_payment_breakdown (consultation_fee : Z) : Breakdown :=
  let total_amount := consultation_fee in
  let platform_fee := Binary64.int_of_product total_amount Binary64.lit_0_20 in
  let doctor_share := total_amount - platform_fee in
  {| bd_total_amount := total_amount;
     bd_platform_fee := platform_fee;
     bd_doctor_share := doctor_share |}.

(** [payments.py], module constants. *)
Definition PLATFORM_FEE_PERCENTAGE : Binary64.float := Binary64.lit_0_20.
Definition DOCTOR_SHARE_PERCENTAGE : Binary64.float := Binary64.lit_0_80.

(** [payments.py], [create_payment_order], lines 414-416: the three amounts
    computed as arguments of the [AppointmentPayment] constructor. *)
Definition payment_order_split (amount : Z) : Breakdown :=
  {| bd_total_amount := amount;
     bd_platform_fee := Binary64.int_of_product amount PLATFORM_FEE_PERCENTAGE;
     bd_doctor_share := Binary64.int_of_product amount DOCTOR_SHARE_PERCENTAGE |}.

(* ================================================================== *)
(** ** Python values *)
(* ================================================================== *)

(** A [str] is kept as its UTF-8 bytes: it is ASCII when no byte has the high
    bit, its length is the number of bytes that start a code point, and
    PostgreSQL refuses it when it holds the NUL character. *)
Definition byte_of (c : ascii) : Z := Z.of_N (N_of_ascii c).

Definition isascii (s : string) : bool :=
  forallb (fun c => byte_of c <? 128) (list_ascii_of_string s).

Definition len (s : string) : Z :=
  Z.of_nat
    (List.length
       (filter (fun c => negb ((128 <=? byte_of c) && (byte_of c <? 192)))
          (list_ascii_of_string s))).

Definition has_nul (s : string) : bool :=
  existsb (fun c => byte_of c =? 0) (list_ascii_of_string s).

Local Set Warnings "-register-all".

(** A document as [json.loads] returns it and as a JSONB column takes it.
    Numbers are kept as integers: no handler computes with a number read
    from a document. *)
Inductive json :=
| J_null
| J_bool (b : bool)
| J_number (n : Z)
| J_string (s : string)
| J_array (items : list json)
| J_object (members : list (string * json)).

(** A [dict] with string keys, as a list of its items (keys distinct). *)
Definition dict := list (string * json).

Fixpoint dict_get (key : string) (d : dict) : option json :=
  match d with
  | [] => None
  | (k, v) :: rest => if String.eqb k key then Some v else dict_get key rest
  end.

(** Truthiness of an optional [str] and of an optional [dict]. *)
Definition truthy_string (s : option string) : bool :=
  match s with
  | Some s => negb (String.eqb s EmptyString)
  | None => false
  end.

Definition truthy_dict (d : option dict) : bool :=
  match d with
  | Some (_ :: _) => true
  | _ => false
  end.

(** Python's [x or 0] on an integer. *)
Definition or_zero (x : Z) : Z := if x =? 0 then 0 else x.

(* ================================================================== *)
(** ** Exceptions and outcomes *)
(* ================================================================== *)

(** The exceptions other than [HTTPException] that the modelled code raises.
    [SQLError] stands for whatever is raised while a statement is sent to
    the database: [IntegrityError] (NOT NULL, UNIQUE, primary key),
    [DataError] (value too long, integer out of range, a NUL escape in a
    JSONB document), [ProgrammingError] (a parameter of a type the column
    cannot be compared with) and the driver's [ValueError] for a NUL
    character in a string.  [GatewayError] is an exception of the payment
    gateway's client other than its [BadRequestError]. *)
Inductive PyError :=
| TypeError
| AttributeError
| KeyError
| ValueError
| OverflowError
| ValidationError
| GatewayError
| SQLError.

(** The [HTTPException]s raised by the handlers, one constructor per raise
    site; those whose detail quotes a caught exception carry it. *)
Inductive HTTPException :=
| User_not_found
| Doctor_not_found_or_not_available
| Time_slot_not_found
| Slot_already_booked
| Slot_not_of_this_doctor
| Date_does_not_match_slot
| Cannot_book_in_the_past
| Cannot_book_within_minimum_time
| Doctor_reached_maximum_appointments
| Booking_failed (cause : PyError)
| Invalid_payment_signature
| Invalid_signature
| Appointment_not_found
| Payment_record_not_found
| Payment_verification_failed (cause : PyError)
| No_payment_to_refund
| Cannot_refund_within_24_hours
| Refund_failed
| Doctor_wallet_not_found
| Insufficient_wallet_balance (available : Z)
| Doctor_profile_not_found
| Wallet_not_found
| Minimum_withdrawal_amount
| Insufficient_balance (available : Z)
| Slot_not_found
| Cannot_block_booked_slot
| Payment_already_completed
| Payment_gateway_error
| Failed_to_create_payment_order
| Unprocessable_entity
| Doctor_not_found
| Not_authorized_to_cancel
| Appointment_already_cancelled
| Cannot_cancel_past_appointments
| Cannot_cancel_within_two_hours
| Cancellation_failed (cause : PyError)
| Not_authorized
| New_slot_not_found
| New_slot_already_booked
| Cannot_reschedule_to_different_doctor
| Rescheduling_failed (cause : PyError).

Definition http_status (e : HTTPException) : Z :=
  match e with
  | User_not_found | Doctor_not_found_or_not_available | Time_slot_not_found
  | Appointment_not_found | Payment_record_not_found | Doctor_wallet_not_found
  | Doctor_profile_not_found | Wallet_not_found | Slot_not_found
  | Doctor_not_found | New_slot_not_found => 404
  | Not_authorized_to_cancel | Not_authorized => 403
  | Booking_failed _ | Payment_verification_failed _
  | Failed_to_create_payment_order | Cancellation_failed _
  | Rescheduling_failed _ => 500
  | Unprocessable_entity => 422
  | _ => 400
  end.

(** What a handler or a task raises: an [HTTPException], answered with its
    status code, or another exception, which escapes the handler and is
    answered with 500. *)
Inductive Exception :=
| HTTP (e : HTTPException)
| Py (e : PyError).

Definition status_code (e : Exception) : Z :=
  match e with
  | HTTP e => http_status e
  | Py _ => 500
  end.

Inductive result (A : Type) :=
| Ok (a : A)
| Raise (e : Exception).
Arguments Ok {A} a.
Arguments Raise {A} e.

(* ================================================================== *)
(** ** The schema of [database/models.py] *)
(* ================================================================== *)

(** [PaymentStatus]: the members and their values.  The class is a [str]
    enumeration, so a member compares equal to its value. *)
Definition PaymentStatus : list (string * string) :=
  [ ("PENDING", "pending"); ("SUCCESS", "success"); ("FAILED", "failed");
    ("REFUNDED", "refunded"); ("PARTIALLY_REFUNDED", "partially_refunded") ].

(** [cls.NAME] on an enumeration: the member's value, or [AttributeError]. *)
Fixpoint enum_member (members : list (string * string)) (name : string)
  : result string :=
  match members with
  | [] => Raise (Py AttributeError)
  | (n, v) :: rest => if String.eqb n name then Ok v else enum_member rest name
  end.

(** The attributes of the mapped classes: columns, relationships and the
    attributes every declarative class inherits from [Base]. *)
Definition Base_attributes : list string := ["metadata"; "registry"].

Definition Appointment_attributes : list string :=
  [ "id"; "user_id"; "doctor_id"; "slot_id"; "date"; "time"; "reason";
    "symptoms"; "is_emergency"; "consultation_type"; "status";
    "consultation_fee"; "payment_id"; "prescription"; "notes"; "qr_code";
    "cancellation_reason"; "cancelled_at"; "created_at"; "updated_at";
    "user"; "doctor"; "payment"; "prescription_obj"; "appointment_payment";
    "qr_code_obj"; "uploaded_files" ] ++ Base_attributes.

Definition AppointmentPayment_attributes : list string :=
  [ "id"; "appointment_id"; "total_amount"; "platform_fee"; "doctor_share";
    "razorpay_order_id"; "razorpay_payment_id"; "razorpay_signature";
    "payment_status"; "created_at"; "updated_at"; "appointment" ]
  ++ Base_attributes.

Definition DoctorWallet_attributes : list string :=
  [ "id"; "doctor_id"; "current_balance"; "total_earned"; "total_withdrawn";
    "pending_withdrawal"; "last_updated"; "doctor"; "transactions" ]
  ++ Base_attributes.

Definition WalletTransaction_attributes : list string :=
  [ "id"; "doctor_id"; "wallet_id"; "amount"; "transaction_type";
    "description"; "appointment_id"; "balance_before"; "balance_after";
    "created_at"; "doctor"; "wallet" ] ++ Base_attributes.

Definition QRCode_attributes : list string :=
  [ "id"; "appointment_id"; "qr_data"; "verification_token"; "is_used";
    "used_at"; "created_at"; "appointment" ] ++ Base_attributes.

Definition Notification_attributes : list string :=
  [ "id"; "user_id"; "title"; "message"; "is_read"; "type";
    "notification_type"; "related_entity_type"; "related_entity_id";
    "created_at"; "user" ] ++ Base_attributes.

Definition AuditLog_attributes : list string :=
  [ "id"; "user_id"; "action"; "entity_type"; "entity_id"; "details";
    "created_at"; "user" ] ++ Base_attributes.

Definition Prescription_attributes : list string :=
  [ "id"; "user_id"; "appointment_id"; "doctor_id"; "medicines";
    "instructions"; "valid_until"; "doctor_name"; "issue_date"; "image_url";
    "diagnosis"; "follow_up_required"; "created_at"; "user"; "appointment";
    "doctor" ] ++ Base_attributes.

Definition DoctorSlot_attributes : list string :=
  [ "id"; "doctor_id"; "date"; "start_time"; "end_time"; "is_booked";
    "is_blocked"; "block_reason"; "appointment_id"; "created_at"; "doctor" ]
  ++ Base_attributes.

(** The keywords of the constructor calls that pass something else than
    columns: [WalletTransaction(...)] in [credit_doctor_wallet]
    ([payments.py], line 167) and in [complete_appointment] and
    [withdraw_earnings] ([doctor_management.py], lines 885 and 1013),
    [Appointment(...)] in [book_appointment] ([appointments.py], line 653),
    [AppointmentPayment(...)] in [create_payment_order] ([payments.py],
    line 412) and [QRCode(...)] in [verify_payment] ([payments.py],
    line 567). *)
Definition credit_transaction_kwargs : list string :=
  [ "wallet_id"; "appointment_id"; "amount"; "transaction_type";
    "description"; "balance_before"; "balance_after"; "metadata" ].

Definition doctor_transaction_kwargs : list string :=
  [ "wallet_id"; "amount"; "transaction_type"; "description";
    "balance_before"; "balance_after"; "metadata" ].

Definition booking_kwargs : list string :=
  [ "id"; "user_id"; "doctor_id"; "slot_id"; "date"; "time"; "reason";
    "symptoms"; "status"; "is_emergency"; "consultation_type";
    "total_amount"; "platform_fee"; "doctor_share" ].

Definition payment_order_kwargs : list string :=
  [ "appointment_id"; "total_amount"; "platform_fee"; "doctor_share";
    "razorpay_order_id"; "payment_status"; "payment_gateway";
    "payment_method" ].

Definition verified_qr_kwargs : list string :=
  [ "appointment_id"; "qr_data"; "verification_token"; "expires_at" ].

(** The constructor that [declarative_base] gives every mapped class: it
    raises [TypeError] for a keyword that is not an attribute of the class
    and sets the others. *)
Definition declarative_constructor (attributes kwargs : list string)
  : result unit :=
  if forallb (fun k => existsb (String.eqb k) attributes) kwargs
  then Ok tt
  else Raise (Py TypeError).

(** What the tables take: an [Integer] column holds a 32-bit integer, a
    [String(n)] column at most [n] characters, and no text holds NUL; a
    JSONB document holds no string with NUL. *)
Definition int4 (z : Z) : bool := (- 2147483648 <=? z) && (z <=? 2147483647).

Definition text_ok (s : string) : bool := negb (has_nul s).

Definition varchar_ok (n : Z) (s : string) : bool :=
  (len s <=? n) && negb (has_nul s).

Fixpoint jsonb_ok (j : json) : bool :=
  match j with
  | J_string s => text_ok s
  | J_array items => forallb jsonb_ok items
  | J_object members =>
      forallb (fun kv => text_ok (fst kv) && jsonb_ok (snd kv)) members
  | _ => true
  end.

(** A [str] bound as a parameter of a query: the driver refuses it when it
    holds NUL, before the statement reaches the database. *)
Definition bound (s : string) : result unit :=
  if has_nul s then Raise (Py SQLError) else Ok tt.

(* ================================================================== *)
(** ** Dates, times and the store *)
(* ================================================================== *)

(** A [date] is its proleptic Gregorian ordinal ([date.toordinal()]), a
    [time] the microseconds since midnight, a [datetime] the microseconds
    since the start of day 0; a [timedelta] is a number of microseconds. *)
Definition date := Z.
Definition time := Z.
Definition datetime := Z.
Definition timedelta := Z.

(** [date.max], 9999-12-31. *)
Definition date_max : date := 3652059.

Definition microseconds_per_day : Z := 86400000000.
Definition microseconds_per_hour : Z := 3600000000.
Definition timedelta_hours (h : Z) : timedelta := h * 3600000000.
Definition timedelta_minutes (m : Z) : timedelta := m * 60000000.

(** [datetime.combine(d, t)], [dt.date()], [dt.time()] and [t.hour]. *)
Definition datetime_combine (d : date) (t : time) : datetime :=
  d * microseconds_per_day + t.
Definition datetime_date (dt : datetime) : date := dt / microseconds_per_day.
Definition datetime_time (dt : datetime) : time := dt mod microseconds_per_day.
Definition time_hour (t : time) : Z := t / microseconds_per_hour.

(** [appointments.py], [PaymentMethod]. *)
Inductive PaymentMethod := ADVANCE | PAY_AT_CLINIC.

Record User := {
  user_id : Z;
  user_name : string
}.

(** [doctor_clinic_id] is the nullable foreign key behind [doctor.clinic]. *)
Record Doctor := {
  doctor_id : Z;
  doctor_user_id : Z;
  doctor_name : string;
  doctor_clinic_id : option string;
  is_available : bool;
  consultation_fee : Z;
  total_consultations : Z;
  next_available_slot : option datetime
}.

Record DoctorSlot := {
  slot_id : Z;
  slot_doctor_id : Z;
  slot_date : date;
  start_time : time;
  end_time : time;
  is_booked : bool;
  is_blocked : bool;
  block_reason : option string
}.

(** The columns [reason], [symptoms], [consultation_type] and
    [is_emergency] are written once and never read by the handlers below;
    they are left out.  [apt_consultation_fee] is the NOT NULL column
    [consultation_fee]: it is [None] only on an object that was built
    without it and not yet flushed. *)
Record Appointment := {
  apt_id : string;
  apt_user_id : Z;
  apt_doctor_id : Z;
  apt_slot_id : Z;
  apt_date : date;
  apt_time : time;
  apt_status : string;
  apt_consultation_fee : option Z;
  cancellation_reason : option string;
  cancelled_at : option datetime
}.

(** [payment_status] is a [String(20)] column.  [paid_at], [refund_id] and
    [refunded_at], which [payments.py] assigns, are not columns: the
    assignment sets a plain attribute on the object and nothing is stored. *)
Record AppointmentPayment := {
  pay_appointment_id : string;
  pay_total_amount : Z;
  pay_platform_fee : Z;
  pay_doctor_share : Z;
  razorpay_order_id : option string;
  razorpay_payment_id : option string;
  razorpay_signature : option string;
  payment_status : string
}.

Record DoctorWallet := {
  wallet_id : Z;
  wallet_doctor_id : Z;
  current_balance : Z;
  total_earned : Z;
  total_withdrawn : Z;
  pending_withdrawal : Z
}.

(** [tx_doctor_id] is the NOT NULL column [doctor_id]: [None] only on an
    object that was built without it and not yet flushed. *)
Record WalletTransaction := {
  tx_doctor_id : option Z;
  tx_wallet_id : Z;
  tx_appointment_id : option string;
  tx_amount : Z;
  transaction_type : string;
  balance_before : Z;
  balance_after : Z
}.

Record QRCode := { qr_appointment_id : string }.

(** The label of a notification is stored in the column [type] by
    [appointments.py] and [payments.py] and in the column
    [notification_type] by [doctor_management.py]; the model keeps one
    field for the two. *)
Record Notification := {
  notif_user_id : Z;
  notif_type : string;
  notif_title : string
}.

Record AuditLog := {
  audit_user_id : Z;
  audit_action : string;
  audit_entity_id : string
}.

Record Prescription := {
  presc_appointment_id : string;
  presc_doctor_id : Z
}.

(** The committed contents of the tables the handlers touch. *)
Record DB := {
  users : list User;
  doctors : list Doctor;
  slots : list DoctorSlot;
  appointments : list Appointment;
  payments : list AppointmentPayment;
  wallets : list DoctorWallet;
  wallet_transactions : list WalletTransaction;
  qr_codes : list QRCode;
  notifications : list Notification;
  audit_logs : list AuditLog;
  prescriptions : list Prescription
}.

Definition set_doctors (db : DB) (v : list Doctor) : DB :=
  {| users := users db; doctors := v; slots := slots db;
     appointments := appointments db; payments := payments db;
     wallets := wallets db; wallet_transactions := wallet_transactions db;
     qr_codes := qr_codes db; notifications := notifications db;
     audit_logs := audit_logs db; prescriptions := prescriptions db |}.

Definition set_slots (db : DB) (v : list DoctorSlot) : DB :=
  {| users := users db; doctors := doctors db; slots := v;
     appointments := appointments db; payments := payments db;
     wallets := wallets db; wallet_transactions := wallet_transactions db;
     qr_codes := qr_codes db; notifications := notifications db;
     audit_logs := audit_logs db; prescriptions := prescriptions db |}.

Definition set_appointments (db : DB) (v : list Appointment) : DB :=
  {| users := users db; doctors := doctors db; slots := slots db;
     appointments := v; payments := payments db;
     wallets := wallets db; wallet_transactions := wallet_transactions db;
     qr_codes := qr_codes db; notifications := notifications db;
     audit_logs := audit_logs db; prescriptions := prescriptions db |}.

Definition set_payments (db : DB) (v : list AppointmentPayment) : DB :=
  {| users := users db; doctors := doctors db; slots := slots db;
     appointments := appointments db; payments := v;
     wallets := wallets db; wallet_transactions := wallet_transactions db;
     qr_codes := qr_codes db; notifications := notifications db;
     audit_logs := audit_logs db; prescriptions := prescriptions db |}.

Definition set_wallets (db : DB) (v : list DoctorWallet) : DB :=
  {| users := users db; doctors := doctors db; slots := slots db;
     appointments := appointments db; payments := payments db;
     wallets := v; wallet_transactions := wallet_transactions db;
     qr_codes := qr_codes db; notifications := notifications db;
     audit_logs := audit_logs db; prescriptions := prescriptions db |}.

Definition set_wallet_transactions (db : DB) (v : list WalletTransaction) : DB :=
  {| users := users db; doctors := doctors db; slots := slots db;
     appointments := appointments db; payments := payments db;
     wallets := wallets db; wallet_transactions := v;
     qr_codes := qr_codes db; notifications := notifications db;
     audit_logs := audit_logs db; prescriptions := prescriptions db |}.

Definition set_qr_codes (db : DB) (v : list QRCode) : DB :=
  {| users := users db; doctors := doctors db; slots := slots db;
     appointments := appointments db; payments := payments db;
     wallets := wallets db; wallet_transactions := wallet_transactions db;
     qr_codes := v; notifications := notifications db;
     audit_logs := audit_logs db; prescriptions := prescriptions db |}.

Definition set_notifications (db : DB) (v : list Notification) : DB :=
  {| users := users db; doctors := doctors db; slots := slots db;
     appointments := appointments db; payments := payments db;
     wallets := wallets db; wallet_transactions := wallet_transactions db;
     qr_codes := qr_codes db; notifications := v;
     audit_logs := audit_logs db; prescriptions := prescriptions db |}.

Definition set_audit_logs (db : DB) (v : list AuditLog) : DB :=
  {| users := users db; doctors := doctors db; slots := slots db;
     appointments := appointments db; payments := payments db;
     wallets := wallets db; wallet_transactions := wallet_transactions db;
     qr_codes := qr_codes db; notifications := notifications db;
     audit_logs := v; prescriptions := prescriptions db |}.

Definition set_prescriptions (db : DB) (v : list Prescription) : DB :=
  {| users := users db; doctors := doctors db; slots := slots db;
     appointments := appointments db; payments := payments db;
     wallets := wallets db; wallet_transactions := wallet_transactions db;
     qr_codes := qr_codes db; notifications := notifications db;
     audit_logs := audit_logs db; prescriptions := v |}.

(** [query.filter(p).first()]. *)
Definition first {A} (p : A -> bool) (rows : list A) : option A := find p rows.

(** Writing through the object that [first] returned: the first row that
    satisfies [p] is replaced by its image under [f]. *)
Fixpoint update_first {A} (p : A -> bool) (f : A -> A) (rows : list A) : list A :=
  match rows with
  | [] => []
  | r :: rest => if p r then f r :: rest else r :: update_first p f rest
  end.

(** [query.filter(p).count()]. *)
Definition count {A} (p : A -> bool) (rows : list A) : Z :=
  Z.of_nat (List.length (filter p rows)).

(** Comparison of a nullable column with a possibly absent value:
    [column == None] selects the rows where the column is NULL. *)
Definition option_string_eqb (a b : option string) : bool :=
  match a, b with
  | Some x, Some y => String.eqb x y
  | None, None => true
  | _, _ => false
  end.

(** An unused value for an auto-increment key: the model takes the
    successor of the largest key in the table (the sequence of the
    database may skip values). *)
Definition next_id {A} (key : A -> Z) (rows : list A) : Z :=
  fold_right (fun r m => Z.max (key r) m) 0 rows + 1.

(** Work handed to [BackgroundTasks.add_task]. *)
Inductive BackgroundTask :=
| Task_credit_doctor_wallet (doctor : Z) (amount : Z) (appointment : string)
| Task_debit_doctor_wallet (doctor : Z) (amount : Z) (appointment : string)
    (reason : string)
| Task_send_payment_notification (user : Z) (title type_ : string)
| Task_send_booking_notifications (appointment : string).

(** What a handler leaves behind: the committed store, the response or the
    exception, and the tasks to run once the response is sent. *)
Record Reply (R : Type) := {
  store : DB;
  outcome : result R;
  tasks : list BackgroundTask
}.
Arguments store {R} _.
Arguments outcome {R} _.
Arguments tasks {R} _.

Definition reply {R} (db : DB) (o : result R) (ts : list BackgroundTask) : Reply R :=
  {| store := db; outcome := o; tasks := ts |}.

(** The handler raised with nothing committed (or after a rollback): the
    store is as it was, and the tasks added so far are dropped with the
    response they were attached to. *)
Definition abort {R} (db : DB) (e : Exception) : Reply R := reply db (Raise e) [].

(* ================================================================== *)
(** ** Doctor wallet ledger *)
(* ================================================================== *)

(** A constructor call is written out ([declarative_constructor]) where one
    of its keywords is not a column of the class; the other calls pass
    columns only and cannot raise. *)

Definition wallet_of_doctor (doctor : Z) (w : DoctorWallet) : bool :=
  wallet_doctor_id w =? doctor.

(** What [wallet_transactions] requires of a new row: [doctor_id] is NOT
    NULL, [appointment_id] is UNIQUE among the rows that have one, and the
    integer columns are 32-bit. *)
Definition same_appointment (t r : WalletTransaction) : bool :=
  match tx_appointment_id t, tx_appointment_id r with
  | Some a, Some b => String.eqb a b
  | _, _ => false
  end.

Definition insert_wallet_transaction
    (rows : list WalletTransaction) (t : WalletTransaction)
  : result (list WalletTransaction) :=
  match tx_doctor_id t with
  | None => Raise (Py SQLError)
  | Some _ =>
    if existsb (same_appointment t) rows then Raise (Py SQLError)
    else if int4 (tx_amount t) && int4 (balance_before t) && int4 (balance_after t)
    then Ok (rows ++ [t])
    else Raise (Py SQLError)
  end.

(** What [doctor_wallets] requires of an updated row. *)
Definition wallet_ok (w : DoctorWallet) : bool :=
  int4 (current_balance w) && int4 (total_earned w)
  && int4 (total_withdrawn w) && int4 (pending_withdrawal w).

(** [payments.py], [credit_doctor_wallet]: get the wallet or add and flush a
    new one, build a credit transaction, raise the balance and the lifetime
    earnings, commit.  The flush and the commit belong to one database
    transaction: when the commit is refused, nothing of the call is kept. *)
Definition credit_doctor_wallet
    (db : DB) (doctor amount : Z) (appointment : string) : result DB :=
  let created :=
    {| wallet_id := next_id wallet_id (wallets db); wallet_doctor_id := doctor;
       current_balance := 0; total_earned := 0; total_withdrawn := 0;
       pending_withdrawal := 0 |} in
  let '(wallet, rows) :=
    match first (wallet_of_doctor doctor) (wallets db) with
    | Some w => (w, wallets db)
    | None => (created, wallets db ++ [created])
    end in
  match declarative_constructor WalletTransaction_attributes
          credit_transaction_kwargs with
  | Raise e => Raise e
  | Ok _ =>
    let transaction :=
      {| tx_doctor_id := None;
         tx_wallet_id := wallet_id wallet;
         tx_appointment_id := Some appointment;
         tx_amount := amount;
         transaction_type := "credit";
         balance_before := current_balance wallet;
         balance_after := current_balance wallet + amount |} in
    let credited (w : DoctorWallet) :=
      {| wallet_id := wallet_id w; wallet_doctor_id := wallet_doctor_id w;
         current_balance := current_balance w + amount;
         total_earned := total_earned w + amount;
         total_withdrawn := total_withdrawn w;
         pending_withdrawal := pending_withdrawal w |} in
    match insert_wallet_transaction (wallet_transactions db) transaction with
    | Raise e => Raise e
    | Ok transactions =>
      if wallet_ok (credited wallet)
      then Ok (set_wallets (set_wallet_transactions db transactions)
                 (update_first (wallet_of_doctor doctor) credited rows))
      else Raise (Py SQLError)
    end
  end.

(** [payments.py], [debit_doctor_wallet]: raises when the wallet is missing
    or holds less than [amount]; otherwise builds a debit transaction,
    lowers the balance and commits. *)
Definition debit_doctor_wallet
    (db : DB) (doctor amount : Z) (appointment reason : string) : result DB :=
  match first (wallet_of_doctor doctor) (wallets db) with
  | None => Raise (HTTP Doctor_wallet_not_found)
  | Some wallet =>
    if current_balance wallet <? amount
    then Raise (HTTP (Insufficient_wallet_balance (current_balance wallet)))
    else
      let transaction :=
        {| tx_doctor_id := None;
           tx_wallet_id := wallet_id wallet;
           tx_appointment_id := Some appointment;
           tx_amount := amount;
           transaction_type := "debit";
           balance_before := current_balance wallet;
           balance_after := current_balance wallet - amount |} in
      let debited (w : DoctorWallet) :=
        {| wallet_id := wallet_id w; wallet_doctor_id := wallet_doctor_id w;
           current_balance := current_balance w - amount;
           total_earned := total_earned w;
           total_withdrawn := total_withdrawn w;
           pending_withdrawal := pending_withdrawal w |} in
      match insert_wallet_transaction (wallet_transactions db) transaction with
      | Raise e => Raise e
      | Ok transactions =>
        if wallet_ok (debited wallet)
        then Ok (set_wallets (set_wallet_transactions db transactions)
                   (update_first (wallet_of_doctor doctor) debited (wallets db)))
        else Raise (Py SQLError)
      end
  end.

Definition add_notification (db : DB) (user : Z) (type_ title : string) : DB :=
  set_notifications db
    (notifications db ++
       [{| notif_user_id := user; notif_type := type_; notif_title := title |}]).

Definition add_audit (db : DB) (user : Z) (action entity : string) : DB :=
  set_audit_logs db
    (audit_logs db ++
       [{| audit_user_id := user; audit_action := action;
           audit_entity_id := entity |}]).

Record WithdrawResponse := {
  withdraw_amount : Z;
  new_balance : Z
}.

(** [doctor_management.py], [withdraw_earnings].  [WithdrawRequest] declares
    [amount >= 100]; a smaller amount is refused before the handler runs.
    The transaction, the wallet update and the notification are committed
    together at the end; the commit is not guarded by a [try]. *)
Definition withdraw_earnings
    (db : DB) (current_user amount : Z) (bank_account : string)
  : Reply WithdrawResponse :=
  if amount <? 100 then abort db (HTTP Unprocessable_entity) else
  match first (fun d => doctor_user_id d =? current_user) (doctors db) with
  | None => abort db (HTTP Doctor_profile_not_found)
  | Some doctor =>
    match first (wallet_of_doctor (doctor_id doctor)) (wallets db) with
    | None => abort db (HTTP Wallet_not_found)
    | Some wallet =>
      if amount <? 500 then abort db (HTTP Minimum_withdrawal_amount)
      else if current_balance wallet <? amount
      then abort db (HTTP (Insufficient_balance (current_balance wallet)))
      else
        match declarative_constructor WalletTransaction_attributes
                doctor_transaction_kwargs with
        | Raise e => abort db e
        | Ok _ =>
          let transaction :=
            {| tx_doctor_id := None;
               tx_wallet_id := wallet_id wallet;
               tx_appointment_id := None;
               tx_amount := amount;
               transaction_type := "withdrawal";
               balance_before := current_balance wallet;
               balance_after := current_balance wallet - amount |} in
          let withdrawn (w : DoctorWallet) :=
            {| wallet_id := wallet_id w; wallet_doctor_id := wallet_doctor_id w;
               current_balance := current_balance w - amount;
               total_earned := total_earned w;
               total_withdrawn := total_withdrawn w + amount;
               pending_withdrawal := or_zero (pending_withdrawal w) + amount |} in
          match insert_wallet_transaction (wallet_transactions db) transaction with
          | Raise e => abort db e
          | Ok transactions =>
            if wallet_ok (withdrawn wallet)
            then
              let db1 :=
                set_wallets (set_wallet_transactions db transactions)
                  (update_first (wallet_of_doctor (doctor_id doctor)) withdrawn
                     (wallets db)) in
              let db2 :=
                add_notification db1 current_user "wallet"
                  "Withdrawal Request Submitted" in
              reply db2
                (Ok {| withdraw_amount := amount;
                       new_balance := current_balance wallet - amount |})
                []
            else abort db (Py SQLError)
          end
        end
    end
  end.

Record CompleteResponse := {
  completed_appointment : string;
  fee_credited : Z
}.

(** What [prescriptions] requires of a new row: [appointment_id] is UNIQUE,
    and the diagnosis and the medicines can be stored. *)
Definition insert_prescription
    (rows : list Prescription) (p : Prescription) (diagnosis : option string)
    (medicines : option dict)
  : result (list Prescription) :=
  if existsb (fun r => String.eqb (presc_appointment_id r) (presc_appointment_id p))
       rows
  then Raise (Py SQLError)
  else if match diagnosis with Some d => text_ok d | None => true end
          && match medicines with Some m => jsonb_ok (J_object m) | None => true end
  then Ok (rows ++ [p])
  else Raise (Py SQLError).

(** [doctor_management.py], [complete_appointment].  The status, the
    counter, the prescription, the wallet credit and the notification are
    pending until the one commit at the end, which is not guarded by a
    [try]: when the database refuses one of them the exception escapes and
    nothing is kept. *)
Definition complete_appointment
    (db : DB) (current_user : Z) (appointment_id : string)
    (diagnosis : option string) (prescription : option dict)
  : Reply CompleteResponse :=
  match first (fun d => doctor_user_id d =? current_user) (doctors db) with
  | None => abort db (HTTP Doctor_profile_not_found)
  | Some doctor =>
    let mine (a : Appointment) :=
      String.eqb (apt_id a) appointment_id && (apt_doctor_id a =? doctor_id doctor) in
    match bound appointment_id with
    | Raise e => abort db e
    | Ok _ =>
    match first mine (appointments db) with
    | None => abort db (HTTP Appointment_not_found)
    | Some appointment =>
      let completed (a : Appointment) :=
        {| apt_id := apt_id a; apt_user_id := apt_user_id a;
           apt_doctor_id := apt_doctor_id a; apt_slot_id := apt_slot_id a;
           apt_date := apt_date a; apt_time := apt_time a;
           apt_status := "completed";
           apt_consultation_fee := apt_consultation_fee a;
           cancellation_reason := cancellation_reason a;
           cancelled_at := cancelled_at a |} in
      let counted (d : Doctor) :=
        {| doctor_id := doctor_id d; doctor_user_id := doctor_user_id d;
           doctor_name := doctor_name d;
           doctor_clinic_id := doctor_clinic_id d;
           is_available := is_available d;
           consultation_fee := consultation_fee d;
           total_consultations := total_consultations d + 1;
           next_available_slot := next_available_slot d |} in
      let db1 := set_appointments db (update_first mine completed (appointments db)) in
      let db2 :=
        set_doctors db1
          (update_first (fun d => doctor_user_id d =? current_user) counted
             (doctors db1)) in
      let with_prescription : result DB :=
        if truthy_string diagnosis || truthy_dict prescription
        then
          match insert_prescription (prescriptions db2)
                  {| presc_appointment_id := apt_id appointment;
                     presc_doctor_id := doctor_id doctor |}
                  diagnosis prescription with
          | Raise e => Raise e
          | Ok rows => Ok (set_prescriptions db2 rows)
          end
        else Ok db2 in
      let wallet := first (wallet_of_doctor (doctor_id doctor)) (wallets db) in
      let with_credit (db3 : DB) : result DB :=
        match wallet with
        | Some wallet =>
          let credit_amount := consultation_fee doctor in
          match declarative_constructor WalletTransaction_attributes
                  doctor_transaction_kwargs with
          | Raise e => Raise e
          | Ok _ =>
            let credit_tx :=
              {| tx_doctor_id := None;
                 tx_wallet_id := wallet_id wallet;
                 tx_appointment_id := None;
                 tx_amount := credit_amount;
                 transaction_type := "credit";
                 balance_before := current_balance wallet;
                 balance_after := current_balance wallet + credit_amount |} in
            let credited (w : DoctorWallet) :=
              {| wallet_id := wallet_id w; wallet_doctor_id := wallet_doctor_id w;
                 current_balance := current_balance w + credit_amount;
                 total_earned := total_earned w + credit_amount;
                 total_withdrawn := total_withdrawn w;
                 pending_withdrawal := pending_withdrawal w |} in
            match insert_wallet_transaction (wallet_transactions db3) credit_tx with
            | Raise e => Raise e
            | Ok transactions =>
              if wallet_ok (credited wallet)
              then Ok (set_wallets (set_wallet_transactions db3 transactions)
                         (update_first (wallet_of_doctor (doctor_id doctor))
                            credited (wallets db3)))
              else Raise (Py SQLError)
            end
          end
        | None => Ok db3
        end in
      match with_prescription with
      | Raise e => abort db e
      | Ok db3 =>
        match with_credit db3 with
        | Raise e => abort db e
        | Ok db4 =>
          if int4 (total_consultations doctor + 1)
          then
            let db5 :=
              add_notification db4 (apt_user_id appointment) "appointment"
                "Consultation Completed" in
            reply db5
              (Ok {| completed_appointment := appointment_id;
                     fee_credited :=
                       match wallet with
                       | Some _ => consultation_fee doctor
                       | None => 0
                       end |})
              []
          else abort db (Py SQLError)
        end
      end
    end
    end
  end.

(* ================================================================== *)
(** ** Background tasks *)
(* ================================================================== *)

(** [payments.py], [send_payment_notification]. *)
Definition send_payment_notification
    (db : DB) (user : Z) (title notification_type : string) : DB :=
  add_notification db user notification_type title.

(** [appointments.py], [send_booking_notifications]: the patient, then the
    doctor's user account; silent when the appointment is gone. *)
Definition send_booking_notifications (db : DB) (appointment_id : string) : DB :=
  match first (fun a => String.eqb (apt_id a) appointment_id) (appointments db) with
  | None => db
  | Some apt =>
    let db1 := add_notification db (apt_user_id apt) "appointment_booked"
                 "Appointment Booked" in
    match first (fun d => doctor_id d =? apt_doctor_id apt) (doctors db1) with
    | Some doc => add_notification db1 (doctor_user_id doc) "new_appointment"
                    "New Appointment"
    | None => db1
    end
  end.

Definition run_task (db : DB) (t : BackgroundTask) : result DB :=
  match t with
  | Task_credit_doctor_wallet doctor amount appointment =>
      credit_doctor_wallet db doctor amount appointment
  | Task_debit_doctor_wallet doctor amount appointment reason =>
      debit_doctor_wallet db doctor amount appointment reason
  | Task_send_payment_notification user title type_ =>
      Ok (send_payment_notification db user title type_)
  | Task_send_booking_notifications appointment =>
      Ok (send_booking_notifications db appointment)
  end.

(** The tasks run one after the other; a task that raises ends the run, and
    the exception is returned with the store as the earlier tasks left it. *)
Fixpoint run_background (db : DB) (ts : list BackgroundTask)
  : DB * option Exception :=
  match ts with
  | [] => (db, None)
  | t :: rest =>
    match run_task db t with
    | Ok db' => run_background db' rest
    | Raise e => (db, Some e)
    end
  end.

(** A request served to the end: the handler, then its background tasks. *)
Definition serve {R} (r : Reply R) : DB := fst (run_background (store r) (tasks r)).

(* ================================================================== *)
(** ** Payment settlement *)
(* ================================================================== *)

(** The request models of [payments.py]; the handlers are modelled for
    [order_type == APPOINTMENT] (the medicine and lab-test branches work on
    other tables). *)
Record VerifyPaymentRequest := {
  vr_razorpay_order_id : string;
  vr_razorpay_payment_id : string;
  vr_razorpay_signature : string;
  vr_order_id : string
}.

Record VerifyResponse := {
  verified_appointment : string;
  doctor_credited : Z
}.

(** The webhook request: the raw body, the signature header, and the value
    of [json.loads(body.decode())] ([None] when it raises). *)
Record WebhookRequest := {
  wh_body : string;
  wh_signature : option string;
  wh_data : option json
}.

Record RefundRequest := {
  rf_order_id : string;
  rf_reason : string;
  rf_refund_amount : option Z
}.

Record RefundResponse := {
  refund_response_id : string;
  refund_response_amount : Z
}.

(** The answer of the gateway to [payment.refund]. *)
Inductive GatewayRefund :=
| Refund_created (id : string)
| Refund_bad_request
| Refund_other_error.

(** The answer of the gateway to [order.create]. *)
Inductive GatewayOrder :=
| Order_created (id : string)
| Order_bad_request
| Order_other_error.

Definition set_payment_status (st : string) (p : AppointmentPayment)
  : AppointmentPayment :=
  {| pay_appointment_id := pay_appointment_id p;
     pay_total_amount := pay_total_amount p;
     pay_platform_fee := pay_platform_fee p;
     pay_doctor_share := pay_doctor_share p;
     razorpay_order_id := razorpay_order_id p;
     razorpay_payment_id := razorpay_payment_id p;
     razorpay_signature := razorpay_signature p;
     payment_status := st |}.

Definition set_apt_status (st : string) (a : Appointment) : Appointment :=
  {| apt_id := apt_id a; apt_user_id := apt_user_id a;
     apt_doctor_id := apt_doctor_id a; apt_slot_id := apt_slot_id a;
     apt_date := apt_date a; apt_time := apt_time a;
     apt_status := st;
     apt_consultation_fee := apt_consultation_fee a;
     cancellation_reason := cancellation_reason a;
     cancelled_at := cancelled_at a |}.

Definition payment_of_appointment (id : string) (p : AppointmentPayment) : bool :=
  String.eqb (pay_appointment_id p) id.

Definition appointment_of_user (id : string) (user : Z) (a : Appointment) : bool :=
  String.eqb (apt_id a) id && (apt_user_id a =? user).

Definition appointment_with_id (id : string) (a : Appointment) : bool :=
  String.eqb (apt_id a) id.

Definition qr_of_appointment (id : string) (q : QRCode) : bool :=
  String.eqb (qr_appointment_id q) id.

(** [hmac.compare_digest] on two [str]: [TypeError] unless both are ASCII. *)
Definition compare_digest (a b : string) : result bool :=
  if isascii a && isascii b then Ok (String.eqb a b) else Raise (Py TypeError).

(** [d.get(key, default)]: [AttributeError] when [d] is not a [dict]. *)
Definition py_get (d : json) (key : string) (default : json) : result json :=
  match d with
  | J_object members =>
      Ok (match dict_get key members with Some v => v | None => default end)
  | _ => Raise (Py AttributeError)
  end.

Definition json_is (j : json) (s : string) : bool :=
  match j with
  | J_string x => String.eqb x s
  | _ => false
  end.

(** [AppointmentPayment.razorpay_order_id == order_id] for the value read
    from the webhook document: [None] selects the rows where the column is
    NULL, a [str] the rows that hold it; the empty list reaches the database
    as the literal ['{}']; any other value cannot be compared with the
    column and the query raises. *)
Definition payment_with_order (order_id : option string) (p : AppointmentPayment)
  : bool :=
  option_string_eqb (razorpay_order_id p) order_id.

Definition payment_of_order (order_id : json)
  : result (AppointmentPayment -> bool) :=
  match order_id with
  | J_null => Ok (payment_with_order None)
  | J_string s =>
      if has_nul s then Raise (Py SQLError)
      else Ok (payment_with_order (Some s))
  | J_array [] => Ok (payment_with_order (Some "{}"))
  | _ => Raise (Py SQLError)
  end.

(** A value assigned to a nullable [String(n)] column. *)
Definition varchar_of_json (n : Z) (j : json) : result (option string) :=
  match j with
  | J_null => Ok None
  | J_string s => if varchar_ok n s then Ok (Some s) else Raise (Py SQLError)
  | _ => Raise (Py SQLError)
  end.

Section Settlement.

(** [hmac.new(key, msg, hashlib.sha256).hexdigest()] and the two secrets
    read from the environment. *)
Variable hmac_sha256_hexdigest : string -> string -> string.
Variable RAZORPAY_KEY_SECRET : string.
Variable RAZORPAY_WEBHOOK_SECRET : string.

(** [payments.py], [verify_razorpay_signature]. *)
Definition verify_razorpay_signature (order_id payment_id signature : string)
  : result bool :=
  let body := (order_id ++ "|" ++ payment_id)%string in
  let expected_signature := hmac_sha256_hexdigest RAZORPAY_KEY_SECRET body in
  compare_digest expected_signature signature.

(** [payments.py], [verify_payment].  The signature check and the audit row
    of a failed check come before the [try]; inside it an [HTTPException]
    is re-raised and any other exception is answered, after a rollback,
    with 500 "Payment verification failed". *)
Definition verify_payment
    (db : DB) (request : VerifyPaymentRequest) (current_user : Z) (now : datetime)
  : Reply VerifyResponse :=
  match verify_razorpay_signature (vr_razorpay_order_id request)
          (vr_razorpay_payment_id request) (vr_razorpay_signature request) with
  | Raise e => abort db e
  | Ok false =>
    if varchar_ok 50 (vr_razorpay_payment_id request)
       && text_ok (vr_order_id request)
    then reply
           (add_audit db current_user "PAYMENT_VERIFICATION_FAILED"
              (vr_razorpay_payment_id request))
           (Raise (HTTP Invalid_payment_signature)) []
    else abort db (Py SQLError)
  | Ok true =>
    let failed (at_ : DB) (e : Exception) : Reply VerifyResponse :=
      match e with
      | HTTP _ => reply at_ (Raise e) []
      | Py cause => reply at_ (Raise (HTTP (Payment_verification_failed cause))) []
      end in
    let mine := appointment_of_user (vr_order_id request) current_user in
    match bound (vr_order_id request) with
    | Raise e => failed db e
    | Ok _ =>
    match first mine (appointments db) with
    | None => abort db (HTTP Appointment_not_found)
    | Some appointment =>
      let its := payment_of_appointment (vr_order_id request) in
      match first its (payments db) with
      | None => abort db (HTTP Payment_record_not_found)
      | Some payment =>
        match enum_member PaymentStatus "PAID" with
        | Raise e => failed db e
        | Ok paid_ =>
          let paid (p : AppointmentPayment) :=
            {| pay_appointment_id := pay_appointment_id p;
               pay_total_amount := pay_total_amount p;
               pay_platform_fee := pay_platform_fee p;
               pay_doctor_share := pay_doctor_share p;
               razorpay_order_id := razorpay_order_id p;
               razorpay_payment_id := Some (vr_razorpay_payment_id request);
               razorpay_signature := Some (vr_razorpay_signature request);
               payment_status := paid_ |} in
          match declarative_constructor QRCode_attributes verified_qr_kwargs with
          | Raise e => failed db e
          | Ok _ =>
            if existsb (qr_of_appointment (apt_id appointment)) (qr_codes db)
               || negb (varchar_ok 100 (vr_razorpay_payment_id request))
               || negb (varchar_ok 255 (vr_razorpay_signature request))
            then failed db (Py SQLError)
            else
              let db1 := set_payments db (update_first its paid (payments db)) in
              let db2 :=
                set_appointments db1
                  (update_first mine (set_apt_status "confirmed")
                     (appointments db1)) in
              let db3 :=
                set_qr_codes db2
                  (qr_codes db2 ++ [{| qr_appointment_id := apt_id appointment |}]) in
              if varchar_ok 50 (vr_razorpay_payment_id request)
                 && text_ok (vr_order_id request)
                 && text_ok (vr_razorpay_order_id request)
              then
                reply
                  (add_audit db3 current_user "PAYMENT_SUCCESS"
                     (vr_razorpay_payment_id request))
                  (Ok {| verified_appointment := apt_id appointment;
                         doctor_credited := pay_doctor_share payment |})
                  [ Task_credit_doctor_wallet (apt_doctor_id appointment)
                      (pay_doctor_share payment) (vr_order_id request);
                    Task_send_payment_notification current_user
                      "Payment Successful" "payment_success" ]
              else failed db3 (Py SQLError)
          end
        end
      end
    end
    end
  end.

(** [payments.py], [razorpay_webhook].  Nothing in the handler is guarded by
    a [try]: an exception escapes and is answered with 500. *)
Definition razorpay_webhook (db : DB) (request : WebhookRequest) (now : datetime)
  : Reply unit :=
  let expected_signature :=
    hmac_sha256_hexdigest RAZORPAY_WEBHOOK_SECRET (wh_body request) in
  match wh_signature request with
  | None => abort db (Py TypeError)
  | Some signature =>
  match compare_digest expected_signature signature with
  | Raise e => abort db e
  | Ok false => abort db (HTTP Invalid_signature)
  | Ok true =>
  match wh_data request with
  | None => abort db (Py ValueError)
  | Some data =>
  match py_get data "event" J_null with
  | Raise e => abort db e
  | Ok event =>
  match py_get data "payload" (J_object []) with
  | Raise e => abort db e
  | Ok payload_ =>
  match py_get payload_ "payment" (J_object []) with
  | Raise e => abort db e
  | Ok payment_ =>
  match py_get payment_ "entity" (J_object []) with
  | Raise e => abort db e
  | Ok payload =>
  match py_get payload "id" J_null with
  | Raise e => abort db e
  | Ok payment_id =>
  match py_get payload "order_id" J_null with
  | Raise e => abort db e
  | Ok order_id =>
    if json_is event "payment.captured" then
      match payment_of_order order_id with
      | Raise e => abort db e
      | Ok its =>
        match first its (payments db) with
        | None => reply db (Ok tt) []
        | Some payment =>
          match enum_member PaymentStatus "PAID" with
          | Raise e => abort db e
          | Ok paid_ =>
            if String.eqb (payment_status payment) paid_ then reply db (Ok tt) []
            else
              match varchar_of_json 100 payment_id with
              | Raise e => abort db e
              | Ok payment_id =>
                let paid (p : AppointmentPayment) :=
                  {| pay_appointment_id := pay_appointment_id p;
                     pay_total_amount := pay_total_amount p;
                     pay_platform_fee := pay_platform_fee p;
                     pay_doctor_share := pay_doctor_share p;
                     razorpay_order_id := razorpay_order_id p;
                     razorpay_payment_id := payment_id;
                     razorpay_signature := razorpay_signature p;
                     payment_status := paid_ |} in
                let db1 := set_payments db (update_first its paid (payments db)) in
                let same := appointment_with_id (pay_appointment_id payment) in
                match first same (appointments db) with
                | Some appointment =>
                  let db2 :=
                    set_appointments db1
                      (update_first same (set_apt_status "confirmed")
                         (appointments db1)) in
                  let db3 :=
                    match first (qr_of_appointment (apt_id appointment))
                            (qr_codes db) with
                    | Some _ => db2
                    | None =>
                      set_qr_codes db2
                        (qr_codes db2
                           ++ [{| qr_appointment_id := apt_id appointment |}])
                    end in
                  reply db3 (Ok tt)
                    [ Task_credit_doctor_wallet (apt_doctor_id appointment)
                        (pay_doctor_share payment) (apt_id appointment) ]
                | None => reply db1 (Ok tt) []
                end
              end
          end
        end
      end
    else if json_is event "payment.failed" then
      match payment_of_order order_id with
      | Raise e => abort db e
      | Ok its =>
        match first its (payments db) with
        | Some _ =>
          match enum_member PaymentStatus "FAILED" with
          | Raise e => abort db e
          | Ok failed_ =>
            reply (set_payments db
                     (update_first its (set_payment_status failed_) (payments db)))
              (Ok tt) []
          end
        | None => reply db (Ok tt) []
        end
      end
    else reply db (Ok tt) []
  end end end end end end end end end.

End Settlement.

(** [payments.py], [initiate_refund].  [RefundRequest] declares a reason of
    5 to 200 characters; another one is refused before the handler runs.
    The two lookups and the status test come before the [try], which
    catches the gateway's [BadRequestError] only. *)
Definition initiate_refund
    (db : DB) (request : RefundRequest) (current_user : Z) (now : datetime)
    (gateway : GatewayRefund)
  : Reply RefundResponse :=
  if (len (rf_reason request) <? 5) || (200 <? len (rf_reason request))
  then abort db (HTTP Unprocessable_entity) else
  let mine := appointment_of_user (rf_order_id request) current_user in
  match bound (rf_order_id request) with
  | Raise e => abort db e
  | Ok _ =>
  match first mine (appointments db) with
  | None => abort db (HTTP Appointment_not_found)
  | Some appointment =>
    let its := payment_of_appointment (rf_order_id request) in
    match first its (payments db) with
    | None => abort db (HTTP No_payment_to_refund)
    | Some payment =>
      match enum_member PaymentStatus "PAID" with
      | Raise e => abort db e
      | Ok paid_ =>
        if negb (String.eqb (payment_status payment) paid_)
        then abort db (HTTP No_payment_to_refund)
        else
          let appointment_time :=
            datetime_combine (apt_date appointment) (apt_time appointment) in
          let time_until := appointment_time - now in
          if time_until <? timedelta_hours 24
          then abort db (HTTP Cannot_refund_within_24_hours)
          else
            let refund_amount :=
              match rf_refund_amount request with
              | Some a => if a =? 0 then pay_total_amount payment else a
              | None => pay_total_amount payment
              end in
            match gateway with
            | Refund_bad_request => abort db (HTTP Refund_failed)
            | Refund_other_error => abort db (Py GatewayError)
            | Refund_created id =>
              match enum_member PaymentStatus "REFUNDED" with
              | Raise e => abort db e
              | Ok refunded_ =>
                let cancelled (a : Appointment) :=
                  {| apt_id := apt_id a; apt_user_id := apt_user_id a;
                     apt_doctor_id := apt_doctor_id a;
                     apt_slot_id := apt_slot_id a;
                     apt_date := apt_date a; apt_time := apt_time a;
                     apt_status := "cancelled";
                     apt_consultation_fee := apt_consultation_fee a;
                     cancellation_reason := Some (rf_reason request);
                     cancelled_at := Some now |} in
                if varchar_ok 100 (rf_reason request)
                then
                  let db1 :=
                    set_payments db
                      (update_first its (set_payment_status refunded_)
                         (payments db)) in
                  let db2 :=
                    set_appointments db1
                      (update_first mine cancelled (appointments db1)) in
                  reply db2
                    (Ok {| refund_response_id := id;
                           refund_response_amount := refund_amount |})
                    [ Task_debit_doctor_wallet (apt_doctor_id appointment)
                        (pay_doctor_share payment) (rf_order_id request)
                        (rf_reason request);
                      Task_send_payment_notification current_user
                        "Refund Initiated" "refund_initiated" ]
                else abort db (Py SQLError)
              end
            end
      end
    end
  end
  end.

Record CreateOrderResponse := {
  created_razorpay_order_id : string;
  created_amount_paise : Z
}.

(** [payments.py], [create_payment_order] with [get_order_details].  The
    description of the order reads [order.doctor.clinic.name], which raises
    when the doctor has no clinic; the gateway call is the only guarded
    statement. *)
Definition create_payment_order
    (db : DB) (order_id : string) (current_user : Z) (gateway : GatewayOrder)
  : Reply CreateOrderResponse :=
  match bound order_id with
  | Raise e => abort db e
  | Ok _ =>
  match first (appointment_of_user order_id current_user) (appointments db) with
  | None => abort db (HTTP Appointment_not_found)
  | Some order =>
    let its := payment_of_appointment order_id in
    let existing := first its (payments db) in
    let already_paid : result bool :=
      match existing with
      | Some p =>
        match enum_member PaymentStatus "PAID" with
        | Raise e => Raise e
        | Ok paid_ => Ok (String.eqb (payment_status p) paid_)
        end
      | None => Ok false
      end in
    match already_paid with
    | Raise e => abort db e
    | Ok true => abort db (HTTP Payment_already_completed)
    | Ok false =>
    match first (fun d => doctor_id d =? apt_doctor_id order) (doctors db) with
    | None => abort db (Py AttributeError)
    | Some doctor =>
    match doctor_clinic_id doctor with
    | None => abort db (Py AttributeError)
    | Some _ =>
      let amount := consultation_fee doctor in
      match gateway with
      | Order_bad_request => abort db (HTTP Payment_gateway_error)
      | Order_other_error => abort db (HTTP Failed_to_create_payment_order)
      | Order_created id =>
        let stored : result DB :=
          match existing with
          | Some _ =>
            match enum_member PaymentStatus "PENDING" with
            | Raise e => Raise e
            | Ok pending_ =>
              let reopened (p : AppointmentPayment) :=
                {| pay_appointment_id := pay_appointment_id p;
                   pay_total_amount := pay_total_amount p;
                   pay_platform_fee := pay_platform_fee p;
                   pay_doctor_share := pay_doctor_share p;
                   razorpay_order_id := Some id;
                   razorpay_payment_id := razorpay_payment_id p;
                   razorpay_signature := razorpay_signature p;
                   payment_status := pending_ |} in
              if varchar_ok 100 id
              then Ok (set_payments db (update_first its reopened (payments db)))
              else Raise (Py SQLError)
            end
          | None =>
            let split := payment_order_split amount in
            match enum_member PaymentStatus "PENDING" with
            | Raise e => Raise e
            | Ok pending_ =>
              match declarative_constructor AppointmentPayment_attributes
                      payment_order_kwargs with
              | Raise e => Raise e
              | Ok _ =>
                if varchar_ok 100 id
                then Ok (set_payments db
                           (payments db ++
                              [{| pay_appointment_id := order_id;
                                  pay_total_amount := bd_total_amount split;
                                  pay_platform_fee := bd_platform_fee split;
                                  pay_doctor_share := bd_doctor_share split;
                                  razorpay_order_id := Some id;
                                  razorpay_payment_id := None;
                                  razorpay_signature := None;
                                  payment_status := pending_ |}]))
                else Raise (Py SQLError)
              end
            end
          end in
        match stored with
        | Raise e => abort db e
        | Ok db1 =>
          if varchar_ok 50 id
          then reply (add_audit db1 current_user "PAYMENT_ORDER_CREATED" id)
                 (Ok {| created_razorpay_order_id := id;
                        created_amount_paise := amount * 100 |})
                 []
          else reply db1 (Raise (Py SQLError)) []
        end
      end
    end end end
  end
  end.

(* ================================================================== *)
(** ** Slots and booking *)
(* ================================================================== *)

(** [doctor_management.py], [block_slot].  The commit is not guarded: a
    reason the column refuses makes the handler answer 500. *)
Definition block_slot
    (db : DB) (current_user slot : Z) (blocked : option bool) (reason : option string)
  : Reply bool :=
  match first (fun d => doctor_user_id d =? current_user) (doctors db) with
  | None => abort db (HTTP Doctor_profile_not_found)
  | Some doctor =>
    let mine (s : DoctorSlot) :=
      (slot_id s =? slot) && (slot_doctor_id s =? doctor_id doctor) in
    match first mine (slots db) with
    | None => abort db (HTTP Slot_not_found)
    | Some found =>
      if is_booked found then abort db (HTTP Cannot_block_booked_slot)
      else
        let flag := match blocked with Some b => b | None => true end in
        let marked (s : DoctorSlot) :=
          {| slot_id := slot_id s; slot_doctor_id := slot_doctor_id s;
             slot_date := slot_date s; start_time := start_time s;
             end_time := end_time s; is_booked := is_booked s;
             is_blocked := flag; block_reason := reason |} in
        if match reason with Some r => text_ok r | None => true end
        then reply (set_slots db (update_first mine marked (slots db))) (Ok flag) []
        else abort db (Py SQLError)
    end
  end.

Record AppointmentBookRequest := {
  req_user_id : Z;
  req_doctor_id : Z;
  req_slot_id : Z;
  req_date : date;
  req_payment_method : PaymentMethod
}.

(** [appointments.py], [AppointmentResponse]: the three fields are
    required. *)
Record AppointmentResponse := {
  resp_appointment_id : string;
  resp_status : string;
  resp_details : dict
}.

Definition AppointmentResponse_fields : list string :=
  ["appointment_id"; "status"; "details"].

(** A pydantic model built from the keys of a [dict]: [ValidationError]
    when a required field is missing (keys that are not fields are
    ignored). *)
Definition pydantic_constructor (required keys : list string) : result unit :=
  if forallb (fun f => existsb (String.eqb f) keys) required
  then Ok tt
  else Raise (Py ValidationError).

Definition decimal (z : Z) : string := NilZero.string_of_int (Z.to_int z).

(** [appointments.py], [generate_booking_id]; [rand] is the draw of
    [secrets.randbelow(900000)]. *)
Definition generate_booking_id (rand : Z) : string :=
  ("APT" ++ decimal (rand + 100000))%string.

(** The row [order_by(date, start_time).first()] returns. *)
Definition earlier_slot (a b : DoctorSlot) : bool :=
  (slot_date a <? slot_date b) ||
  ((slot_date a =? slot_date b) && (start_time a <? start_time b)).

Definition earliest_slot (rows : list DoctorSlot) : option DoctorSlot :=
  fold_left
    (fun best s =>
       match best with
       | None => Some s
       | Some b => if earlier_slot s b then Some s else Some b
       end)
    rows None.

Definition set_next_available (v : option datetime) (d : Doctor) : Doctor :=
  {| doctor_id := doctor_id d; doctor_user_id := doctor_user_id d;
     doctor_name := doctor_name d; doctor_clinic_id := doctor_clinic_id d;
     is_available := is_available d;
     consultation_fee := consultation_fee d;
     total_consultations := total_consultations d;
     next_available_slot := v |}.

(** The row [order_by(date, start_time).first()] returns among the doctor's
    unbooked slots from [today] on. *)
Definition next_free_slot (visible : list DoctorSlot) (doctor : Z) (today : date)
  : option DoctorSlot :=
  earliest_slot
    (filter (fun s => (slot_doctor_id s =? doctor) && (today <=? slot_date s)
                      && negb (is_booked s))
       visible).

(** [appointments.py], [update_doctor_next_available_slot], without its
    commit.  [visible] are the slot rows the query sees: the committed rows,
    without the caller's pending writes. *)
Definition update_doctor_next_available_slot
    (visible : list DoctorSlot) (db : DB) (doctor : Z) (now : datetime) : DB :=
  let next_slot := next_free_slot visible doctor (datetime_date now) in
  let value :=
    match next_slot with
    | Some s => Some (datetime_combine (slot_date s) (start_time s))
    | None => None
    end in
  set_doctors db
    (update_first (fun d => doctor_id d =? doctor) (set_next_available value)
       (doctors db)).

Definition max_daily_appointments : Z := 20.

(** The appointments counted against the daily limit. *)
Definition counts_for_day (doctor : Z) (day : date) (a : Appointment) : bool :=
  (apt_doctor_id a =? doctor) && (apt_date a =? day) &&
  (String.eqb (apt_status a) "confirmed"
   || String.eqb (apt_status a) "payment_pending").

(** [appointments.py], [book_appointment], validations 1 to 6.  [now 0] and
    [now 1] are the two readings of [datetime.now()] taken by validations 5
    and 6. *)
Definition slot_validations
    (db : DB) (request : AppointmentBookRequest) (now : nat -> datetime)
  : result (User * Doctor * DoctorSlot) :=
  match first (fun u => user_id u =? req_user_id request) (users db) with
  | None => Raise (HTTP User_not_found)
  | Some user =>
    match first (fun d => (doctor_id d =? req_doctor_id request) && is_available d)
            (doctors db) with
    | None => Raise (HTTP Doctor_not_found_or_not_available)
    | Some doctor =>
      match first (fun s => slot_id s =? req_slot_id request) (slots db) with
      | None => Raise (HTTP Time_slot_not_found)
      | Some slot =>
        if is_booked slot then Raise (HTTP Slot_already_booked)
        else if negb (slot_doctor_id slot =? req_doctor_id request)
        then Raise (HTTP Slot_not_of_this_doctor)
        else if negb (slot_date slot =? req_date request)
        then Raise (HTTP Date_does_not_match_slot)
        else
          let appointment_datetime :=
            datetime_combine (req_date request) (start_time slot) in
          if appointment_datetime <=? now 0%nat
          then Raise (HTTP Cannot_book_in_the_past)
          else
            let min_booking_time := timedelta_hours 1 in
            let time_until_appointment := appointment_datetime - now 1%nat in
            if time_until_appointment <? min_booking_time
            then Raise (HTTP Cannot_book_within_minimum_time)
            else Ok (user, doctor, slot)
      end
    end
  end.

(** Validations 1 to 7: everything before the [try] block. *)
Definition booking_validations
    (db : DB) (request : AppointmentBookRequest) (now : nat -> datetime)
  : result (User * Doctor * DoctorSlot) :=
  match slot_validations db request now with
  | Raise e => Raise e
  | Ok found =>
    let daily_appointments :=
      count (counts_for_day (req_doctor_id request) (req_date request))
        (appointments db) in
    if daily_appointments >=? max_daily_appointments
    then Raise (HTTP Doctor_reached_maximum_appointments)
    else Ok found
  end.

(** What [appointments] requires of a new row: the primary key is unused
    and [consultation_fee] is NOT NULL. *)
Definition insert_appointment (rows : list Appointment) (a : Appointment)
  : result (list Appointment) :=
  if existsb (appointment_with_id (apt_id a)) rows then Raise (Py SQLError)
  else
    match apt_consultation_fee a with
    | None => Raise (Py SQLError)
    | Some _ => Ok (rows ++ [a])
    end.

(** [appointments.py], [book_appointment].  [rand] is the random draw of the
    booking id, [gateway] the id of the order the gateway created ([None]
    when the call failed and the handler falls back to a local order id,
    stamped with the reading [now 2]); [now 3] is the reading taken by
    [update_doctor_next_available_slot].  Everything after the validations
    is inside the [try]: an exception is answered, after a rollback, with
    500 "Booking failed".  The pending rows are first written by the commit
    of [update_doctor_next_available_slot]. *)
Definition book_appointment
    (db : DB) (request : AppointmentBookRequest) (now : nat -> datetime)
    (rand : Z) (gateway : option string)
  : Reply AppointmentResponse :=
  match booking_validations db request now with
  | Raise e => abort db e
  | Ok (user, doctor, slot) =>
    let failed (at_ : DB) (e : Exception) : Reply AppointmentResponse :=
      match e with
      | HTTP _ => reply at_ (Raise e) []
      | Py cause => reply at_ (Raise (HTTP (Booking_failed cause))) []
      end in
    let booking_id := generate_booking_id rand in
    let breakdown := calculate_payment_breakdown (consultation_fee doctor) in
    let '(razorpay_order, appointment_status) :=
      match req_payment_method request with
      | ADVANCE =>
        let order :=
          match gateway with
          | Some id => id
          | None =>
            ("order_" ++ booking_id ++ "_" ++ decimal (now 2%nat / 1000000))%string
          end in
        (Some order, "payment_pending")
      | PAY_AT_CLINIC => (None, "confirmed")
      end in
    match enum_member PaymentStatus "PENDING" with
    | Raise e => failed db e
    | Ok payment_status_ =>
    match declarative_constructor Appointment_attributes booking_kwargs with
    | Raise e => failed db e
    | Ok _ =>
      let appointment :=
        {| apt_id := booking_id;
           apt_user_id := req_user_id request;
           apt_doctor_id := req_doctor_id request;
           apt_slot_id := req_slot_id request;
           apt_date := req_date request;
           apt_time := start_time slot;
           apt_status := appointment_status;
           apt_consultation_fee := None;
           cancellation_reason := None;
           cancelled_at := None |} in
      let booked (s : DoctorSlot) :=
        {| slot_id := slot_id s; slot_doctor_id := slot_doctor_id s;
           slot_date := slot_date s; start_time := start_time s;
           end_time := end_time s; is_booked := true;
           is_blocked := is_blocked s; block_reason := block_reason s |} in
      let payment :=
        {| pay_appointment_id := booking_id;
           pay_total_amount := bd_total_amount breakdown;
           pay_platform_fee := bd_platform_fee breakdown;
           pay_doctor_share := bd_doctor_share breakdown;
           razorpay_order_id := razorpay_order;
           razorpay_payment_id := None;
           razorpay_signature := None;
           payment_status := payment_status_ |} in
      let counted (d : Doctor) :=
        {| doctor_id := doctor_id d; doctor_user_id := doctor_user_id d;
           doctor_name := doctor_name d;
           doctor_clinic_id := doctor_clinic_id d;
           is_available := is_available d;
           consultation_fee := consultation_fee d;
           total_consultations := total_consultations d + 1;
           next_available_slot := next_available_slot d |} in
      match insert_appointment (appointments db) appointment with
      | Raise e => failed db e
      | Ok appointments1 =>
        if negb (int4 (total_consultations doctor + 1))
        then failed db (Py SQLError)
        else
          let db1 := set_appointments db appointments1 in
          let db2 :=
            set_slots db1
              (update_first (fun s => slot_id s =? req_slot_id request) booked
                 (slots db1)) in
          let db3 := set_payments db2 (payments db2 ++ [payment]) in
          let db4 :=
            match req_payment_method request with
            | PAY_AT_CLINIC =>
              match first (wallet_of_doctor (doctor_id doctor)) (wallets db) with
              | Some _ => db3
              | None =>
                set_wallets db3
                  (wallets db3 ++
                     [{| wallet_id := next_id wallet_id (wallets db3);
                         wallet_doctor_id := doctor_id doctor;
                         current_balance := 0; total_earned := 0;
                         total_withdrawn := 0; pending_withdrawal := 0 |}])
              end
            | ADVANCE => db3
            end in
          let db5 :=
            match req_payment_method request with
            | ADVANCE =>
              set_qr_codes db4
                (qr_codes db4 ++ [{| qr_appointment_id := booking_id |}])
            | PAY_AT_CLINIC => db4
            end in
          let db6 :=
            set_doctors db5
              (update_first
                 (fun d => (doctor_id d =? req_doctor_id request) && is_available d)
                 counted (doctors db5)) in
          let db7 :=
            update_doctor_next_available_slot (slots db) db6 (doctor_id doctor)
              (now 3%nat) in
          let db8 :=
            add_audit db7 (req_user_id request) "APPOINTMENT_BOOKED" booking_id in
          let response_data :=
            [ "appointment_id"; "status"; "message"; "payment_required" ]
            ++ match req_payment_method request with
               | ADVANCE => [ "next_step"; "payment_details" ]
               | PAY_AT_CLINIC => [ "appointment_details" ]
               end in
          match req_payment_method request, doctor_clinic_id doctor with
          | PAY_AT_CLINIC, None => failed db8 (Py AttributeError)
          | _, _ =>
            match pydantic_constructor AppointmentResponse_fields response_data with
            | Raise e => failed db8 e
            | Ok _ =>
              reply db8
                (Ok {| resp_appointment_id := booking_id;
                       resp_status := appointment_status;
                       resp_details := [] |})
                [ Task_send_booking_notifications booking_id ]
            end
          end
      end
    end end
  end.

(* ================================================================== *)
(** ** Listing, cancelling, rescheduling, leave and slot creation *)
(* ================================================================== *)

(** [appointments.py], [filter_slots_by_time_preference]. *)
Definition filter_slots_by_time_preference
    (slots_ : list DoctorSlot) (preference : option string) : list DoctorSlot :=
  match preference with
  | None => slots_
  | Some preference =>
    if String.eqb preference EmptyString || String.eqb preference "any"
    then slots_
    else
      filter
        (fun slot =>
           let hour := time_hour (start_time slot) in
           if String.eqb preference "morning" && ((6 <=? hour) && (hour <? 12))
           then true
           else if String.eqb preference "afternoon"
                   && ((12 <=? hour) && (hour <? 17))
           then true
           else String.eqb preference "evening" && ((17 <=? hour) && (hour <? 22)))
        slots_
  end.

(** [order_by(DoctorSlot.start_time)]: a sort on the start time; rows with
    the same start time, whose order the database chooses, keep their table
    order. *)
Fixpoint insert_by_start_time (s : DoctorSlot) (sorted : list DoctorSlot)
  : list DoctorSlot :=
  match sorted with
  | [] => [s]
  | x :: rest =>
    if start_time s <? start_time x then s :: x :: rest
    else x :: insert_by_start_time s rest
  end.

Definition order_by_start_time (rows : list DoctorSlot) : list DoctorSlot :=
  fold_right insert_by_start_time [] rows.

(** The rows [get_doctor_slots] selects: the doctor's unbooked slots of the
    date, and for today only those that start after the current time. *)
Definition listed_slot (doctor : Z) (day : date) (now : nat -> datetime)
    (s : DoctorSlot) : bool :=
  (slot_doctor_id s =? doctor) && (slot_date s =? day) && negb (is_booked s)
  && (if day =? datetime_date (now 0%nat)
      then datetime_time (now 1%nat) <? start_time s
      else true).

(** [appointments.py], [get_doctor_slots]; the response lists the rows
    returned here (id and formatted times). *)
Definition get_doctor_slots
    (db : DB) (doctor : Z) (day : date) (time_preference : option string)
    (now : nat -> datetime)
  : result (list DoctorSlot) :=
  match first (fun d => doctor_id d =? doctor) (doctors db) with
  | None => Raise (HTTP Doctor_not_found)
  | Some _ =>
    let slots_ := order_by_start_time (filter (listed_slot doctor day now) (slots db)) in
    let slots_ :=
      if truthy_string time_preference
      then filter_slots_by_time_preference slots_ time_preference
      else slots_ in
    Ok slots_
  end.

Record CancellationRequest := {
  cancel_appointment_id : string;
  cancel_user_id : Z;
  cancel_reason : option string
}.

Definition set_is_booked (b : bool) (s : DoctorSlot) : DoctorSlot :=
  {| slot_id := slot_id s; slot_doctor_id := slot_doctor_id s;
     slot_date := slot_date s; start_time := start_time s;
     end_time := end_time s; is_booked := b;
     is_blocked := is_blocked s; block_reason := block_reason s |}.

(** [appointments.py], [cancel_appointment].  The clock is read for the date
    check ([now 0]), the two-hour check ([now 1]), the cancellation stamp
    ([now 2]) and the next-slot query ([now 3]); that query sees the
    committed slot rows.  Inside the [try] an exception is answered, after a
    rollback, with 500 "Cancellation failed".  The handler reads
    [appointment.doctor] before the commit when a next slot was found and
    after it (for the notification text) in any case; [cancellation_reason]
    is a [String(100)] column. *)
Definition cancel_appointment
    (db : DB) (request : CancellationRequest) (now : nat -> datetime)
  : Reply string :=
  let its := appointment_with_id (cancel_appointment_id request) in
  match bound (cancel_appointment_id request) with
  | Raise e => abort db e
  | Ok _ =>
  match first its (appointments db) with
  | None => abort db (HTTP Appointment_not_found)
  | Some appointment =>
    if negb (apt_user_id appointment =? cancel_user_id request)
    then abort db (HTTP Not_authorized_to_cancel)
    else if String.eqb (apt_status appointment) "cancelled"
    then abort db (HTTP Appointment_already_cancelled)
    else if apt_date appointment <? datetime_date (now 0%nat)
    then abort db (HTTP Cannot_cancel_past_appointments)
    else
      let appointment_datetime :=
        datetime_combine (apt_date appointment) (apt_time appointment) in
      let time_until_appointment := appointment_datetime - now 1%nat in
      if time_until_appointment <? timedelta_hours 2
      then abort db (HTTP Cannot_cancel_within_two_hours)
      else
        let failed (at_ : DB) (cause : PyError) : Reply string :=
          reply at_ (Raise (HTTP (Cancellation_failed cause))) [] in
        let cancelled (a : Appointment) :=
          {| apt_id := apt_id a; apt_user_id := apt_user_id a;
             apt_doctor_id := apt_doctor_id a; apt_slot_id := apt_slot_id a;
             apt_date := apt_date a; apt_time := apt_time a;
             apt_status := "cancelled";
             apt_consultation_fee := apt_consultation_fee a;
             cancellation_reason := cancel_reason request;
             cancelled_at := Some (now 2%nat) |} in
        let db1 := set_appointments db (update_first its cancelled (appointments db)) in
        let db2 :=
          set_slots db1
            (update_first (fun s => slot_id s =? apt_slot_id appointment)
               (set_is_booked false) (slots db1)) in
        let next_slot :=
          next_free_slot (slots db) (apt_doctor_id appointment)
            (datetime_date (now 3%nat)) in
        let of_appointment (d : Doctor) := doctor_id d =? apt_doctor_id appointment in
        let doctor := first of_appointment (doctors db) in
        let storable :=
          match cancel_reason request with
          | Some r => varchar_ok 100 r
          | None => true
          end in
        match next_slot, doctor with
        | Some _, None => failed db AttributeError
        | _, _ =>
          if negb storable then failed db SQLError
          else
            match doctor with
            | None => failed db2 AttributeError
            | Some _ =>
              let db3 :=
                match next_slot with
                | Some s =>
                  set_doctors db2
                    (update_first of_appointment
                       (set_next_available
                          (Some (datetime_combine (slot_date s) (start_time s))))
                       (doctors db2))
                | None => db2
                end in
              let db4 :=
                add_notification db3 (cancel_user_id request)
                  "appointment_cancelled" "Appointment Cancelled" in
              let db5 :=
                add_audit db4 (cancel_user_id request) "APPOINTMENT_CANCELLED"
                  (cancel_appointment_id request) in
              reply db5 (Ok (cancel_appointment_id request)) []
            end
        end
  end
  end.

(** [appointments.py], [reschedule_appointment].  [updated_at] is not part of
    the modelled row. *)
Definition reschedule_appointment
    (db : DB) (appointment_id : string) (new_slot_id : Z) (new_date : date)
    (user : Z)
  : Reply string :=
  let its := appointment_with_id appointment_id in
  match bound appointment_id with
  | Raise e => abort db e
  | Ok _ =>
  match first its (appointments db) with
  | None => abort db (HTTP Appointment_not_found)
  | Some appointment =>
    if negb (apt_user_id appointment =? user)
    then abort db (HTTP Not_authorized)
    else
      match first (fun s => slot_id s =? new_slot_id) (slots db) with
      | None => abort db (HTTP New_slot_not_found)
      | Some new_slot =>
        if is_booked new_slot
        then abort db (HTTP New_slot_already_booked)
        else if negb (slot_doctor_id new_slot =? apt_doctor_id appointment)
        then abort db (HTTP Cannot_reschedule_to_different_doctor)
        else
          let slots1 :=
            update_first (fun s => slot_id s =? apt_slot_id appointment)
              (set_is_booked false) (slots db) in
          let slots2 :=
            update_first (fun s => slot_id s =? new_slot_id)
              (set_is_booked true) slots1 in
          let moved (a : Appointment) :=
            {| apt_id := apt_id a; apt_user_id := apt_user_id a;
               apt_doctor_id := apt_doctor_id a; apt_slot_id := new_slot_id;
               apt_date := new_date; apt_time := start_time new_slot;
               apt_status := apt_status a;
               apt_consultation_fee := apt_consultation_fee a;
               cancellation_reason := cancellation_reason a;
               cancelled_at := cancelled_at a |} in
          let db1 :=
            set_appointments (set_slots db slots2)
              (update_first its moved (appointments db)) in
          let db2 :=
            add_notification db1 user "appointment_rescheduled"
              "Appointment Rescheduled" in
          let db3 := add_audit db2 user "APPOINTMENT_RESCHEDULED" appointment_id in
          reply db3 (Ok appointment_id) []
      end
  end
  end.

Record LeaveRequest := {
  leave_start_date : date;
  leave_end_date : date;
  leave_reason : string
}.

Record LeaveResponse := {
  slots_blocked : Z;
  patients_notified : Z
}.

(** [doctor_management.py], [apply_leave].  The notifications, the blocked
    slots and the doctor's flag are committed together; the commit is not
    guarded, and the reason is written only when a slot is blocked. *)
Definition apply_leave (db : DB) (request : LeaveRequest) (current_user : Z)
  : Reply LeaveResponse :=
  match first (fun d => doctor_user_id d =? current_user) (doctors db) with
  | None => abort db (HTTP Doctor_profile_not_found)
  | Some doctor =>
    let in_range (d : date) :=
      (leave_start_date request <=? d) && (d <=? leave_end_date request) in
    let booked_appointments :=
      filter (fun a => (apt_doctor_id a =? doctor_id doctor)
                       && in_range (apt_date a)
                       && String.eqb (apt_status a) "confirmed")
        (appointments db) in
    let db1 :=
      fold_left
        (fun acc apt => add_notification acc (apt_user_id apt) "appointment"
                          "Doctor Leave Notice")
        booked_appointments db in
    let on_leave (s : DoctorSlot) :=
      (slot_doctor_id s =? doctor_id doctor) && in_range (slot_date s)
      && negb (is_booked s) in
    let blocked (s : DoctorSlot) :=
      {| slot_id := slot_id s; slot_doctor_id := slot_doctor_id s;
         slot_date := slot_date s; start_time := start_time s;
         end_time := end_time s; is_booked := is_booked s;
         is_blocked := true;
         block_reason := Some ("Leave: " ++ leave_reason request)%string |} in
    let db2 :=
      set_slots db1 (map (fun s => if on_leave s then blocked s else s) (slots db1)) in
    let unavailable (d : Doctor) :=
      {| doctor_id := doctor_id d; doctor_user_id := doctor_user_id d;
         doctor_name := doctor_name d; doctor_clinic_id := doctor_clinic_id d;
         is_available := false;
         consultation_fee := consultation_fee d;
         total_consultations := total_consultations d;
         next_available_slot := next_available_slot d |} in
    let db3 :=
      set_doctors db2
        (update_first (fun d => doctor_user_id d =? current_user) unavailable
           (doctors db2)) in
    if existsb on_leave (slots db) && negb (text_ok (leave_reason request))
    then abort db (Py SQLError)
    else
      reply db3
        (Ok {| slots_blocked := count on_leave (slots db);
               patients_notified :=
                 Z.of_nat (List.length booked_appointments) |})
        []
  end.

Definition slot_exists (rows : list DoctorSlot) (doctor : Z) (day : date)
    (start : time) : bool :=
  existsb
    (fun s => (slot_doctor_id s =? doctor) && (slot_date s =? day)
              && (start_time s =? start))
    rows.

Section SlotCreation.

(** [datetime.strptime(text, '%H:%M').time()] ([None] when it raises
    [ValueError]) and [d.strftime('%A').lower()]. *)
Variable strptime_HM : string -> option time.
Variable weekday_name : date -> string.

(** [datetime.strptime(slot[key], '%H:%M').time()]: [KeyError] without the
    key, [TypeError] when the value is not a [str]. *)
Definition slot_time (slot : dict) (key : string) : result time :=
  match dict_get key slot with
  | None => Raise (Py KeyError)
  | Some (J_string text) =>
    match strptime_HM text with
    | Some t => Ok t
    | None => Raise (Py ValueError)
    end
  | Some _ => Raise (Py TypeError)
  end.

(** The inner loop of [create_time_slots] for one date.  [committed] are the
    rows the existence query sees (the rows added earlier in the call are
    not among them), [pending] the rows added so far, [created] the
    counter. *)
Fixpoint create_slots_for_day
    (committed : list DoctorSlot) (doctor : Z) (current_date : date)
    (time_slots : list dict) (pending : list DoctorSlot) (created : Z)
  : result (list DoctorSlot * Z) :=
  match time_slots with
  | [] => Ok (pending, created)
  | slot :: rest =>
    match slot_time slot "start" with
    | Raise e => Raise e
    | Ok start =>
      match slot_time slot "end" with
      | Raise e => Raise e
      | Ok finish =>
        if slot_exists committed doctor current_date start
        then create_slots_for_day committed doctor current_date rest
               pending created
        else
          let new_slot :=
            {| slot_id := next_id slot_id (committed ++ pending);
               slot_doctor_id := doctor; slot_date := current_date;
               start_time := start; end_time := finish;
               is_booked := false; is_blocked := false;
               block_reason := None |} in
          create_slots_for_day committed doctor current_date rest
            (pending ++ [new_slot]) (created + 1)
      end
    end
  end.

(** The outer loop, over the dates still to visit. *)
Fixpoint create_slots_over
    (committed : list DoctorSlot) (doctor : Z) (dates : list date)
    (time_slots : list dict) (days : list string) (skip_dates : list date)
    (pending : list DoctorSlot) (created : Z)
  : result (list DoctorSlot * Z) :=
  match dates with
  | [] => Ok (pending, created)
  | current_date :: later =>
    if existsb (String.eqb (weekday_name current_date)) days
       && negb (existsb (Z.eqb current_date) skip_dates)
    then
      match create_slots_for_day committed doctor current_date time_slots
              pending created with
      | Raise e => Raise e
      | Ok (pending', created') =>
        create_slots_over committed doctor later time_slots days skip_dates
          pending' created'
      end
    else
      create_slots_over committed doctor later time_slots days skip_dates
        pending created
  end.

(** The dates [start_date], [start_date + 1], ..., [end_date]. *)
Definition date_range (start_date end_date : date) : list date :=
  map (fun i => start_date + Z.of_nat i)
    (seq 0 (Z.to_nat (end_date - start_date + 1))).

(** [doctor_management.py], [create_time_slots]: the rows added to the
    session and the number returned.  The loop steps past [end_date] before
    it stops, which overflows when [end_date] is [date.max]. *)
Definition create_time_slots
    (committed : list DoctorSlot) (doctor : Z) (start_date end_date : date)
    (time_slots : list dict) (days : list string) (skip_dates : list date)
  : result (list DoctorSlot * Z) :=
  match create_slots_over committed doctor (date_range start_date end_date)
          time_slots days skip_dates [] 0 with
  | Raise e => Raise e
  | Ok made =>
    if (start_date <=? end_date) && (end_date =? date_max)
    then Raise (Py OverflowError)
    else Ok made
  end.

Record CreateSlotBatchRequest := {
  batch_start_date : date;
  batch_end_date : date;
  batch_time_slots : list dict;
  batch_days : list string;
  batch_skip_dates : list date
}.

(** [doctor_management.py], [create_slots_batch]; the response carries the
    number of slots created.  Nothing is guarded by a [try]. *)
Definition create_slots_batch
    (db : DB) (request : CreateSlotBatchRequest) (current_user : Z)
  : Reply Z :=
  match first (fun d => doctor_user_id d =? current_user) (doctors db) with
  | None => abort db (HTTP Doctor_profile_not_found)
  | Some doctor =>
    match create_time_slots (slots db) (doctor_id doctor)
            (batch_start_date request) (batch_end_date request)
            (batch_time_slots request) (batch_days request)
            (batch_skip_dates request) with
    | Raise e => abort db e
    | Ok (pending, slots_created) =>
      reply (set_slots db (slots db ++ pending)) (Ok slots_created) []
    end
  end.

End SlotCreation.

(* ================================================================== *)
(** ** Wallet operations in sequence *)
(* ================================================================== *)










(** No slot of the store is booked and blocked at once. *)
Definition booked_xor_blocked (db : DB) : Prop :=
  forall s, In s (slots db) -> is_booked s = true -> is_blocked s = false.


(** The document of a gateway event about a payment: the name of the event
    and, under [payload.payment.entity], the gateway's payment id and the
    order id. *)
Definition gateway_event (event : string) (payment_id : json) (order_id : string)
  : json :=
  J_object
    [ ("event", J_string event);
      ("payload",
       J_object
         [ ("payment",
            J_object
              [ ("entity",
                 J_object [ ("id", payment_id);
                            ("order_id", J_string order_id) ]) ]) ]) ].

(** The order of a slot listing. *)
Definition starts_no_later (a b : DoctorSlot) : Prop := start_time a <= start_time b.

(** A slot that counts for the doctor's next available slot on [today]. *)
Definition free_from (visible : list DoctorSlot) (doctor : Z) (today : date)
    (s : DoctorSlot) : Prop :=
  In s visible /\ slot_doctor_id s = doctor /\ today <= slot_date s /\
  is_booked s = false.

(** The date is one on which [create_time_slots] creates slots. *)
Definition active_date (weekday_name : date -> string) (days : list string)
    (skip_dates : list date) (d : date) : bool :=
  existsb (String.eqb (weekday_name d)) days
  && negb (existsb (Z.eqb d) skip_dates).

(* ================================================================== *)
(** ** The handlers as one system *)
(* ================================================================== *)

Section System.

Variable hmac_sha256_hexdigest : string -> string -> string.
Variable RAZORPAY_KEY_SECRET : string.
Variable RAZORPAY_WEBHOOK_SECRET : string.
Variable strptime_HM : string -> option time.
Variable weekday_name : date -> string.

(** A request to one of the endpoints that write a slot, an appointment, a
    payment record, a wallet or a wallet transaction, with what the outside
    world decides while it is handled.  (Doctor registration, the one other
    endpoint that would write slots and a wallet, reads [request.password],
    a field its request model does not have, before its first write.) *)
Inductive Request :=
| Book (request : AppointmentBookRequest) (now : nat -> datetime) (rand : Z)
    (gateway : option string)
| Cancel (request : CancellationRequest) (now : nat -> datetime)
| Reschedule (appointment_id : string) (new_slot_id : Z) (new_date : date)
    (user : Z)
| Complete (current_user : Z) (appointment_id : string)
    (diagnosis : option string) (prescription : option dict)
| Create_order (order_id : string) (current_user : Z) (gateway : GatewayOrder)
| Verify (request : VerifyPaymentRequest) (current_user : Z) (now : datetime)
| Webhook (request : WebhookRequest) (now : datetime)
| Refund (request : RefundRequest) (current_user : Z) (now : datetime)
    (gateway : GatewayRefund)
| Withdraw (current_user amount : Z) (bank_account : string)
| Block (current_user slot : Z) (blocked : option bool) (reason : option string)
| Leave (request : LeaveRequest) (current_user : Z)
| Create_slots (request : CreateSlotBatchRequest) (current_user : Z).

(** The store after the request and its background tasks. *)
Definition handle (db : DB) (r : Request) : DB :=
  match r with
  | Book request now rand gateway =>
      serve (book_appointment db request now rand gateway)
  | Cancel request now => serve (cancel_appointment db request now)
  | Reschedule appointment_id new_slot_id new_date user =>
      serve (reschedule_appointment db appointment_id new_slot_id new_date user)
  | Complete current_user appointment_id diagnosis prescription =>
      serve (complete_appointment db current_user appointment_id diagnosis
               prescription)
  | Create_order order_id current_user gateway =>
      serve (create_payment_order db order_id current_user gateway)
  | Verify request current_user now =>
      serve (verify_payment hmac_sha256_hexdigest RAZORPAY_KEY_SECRET db request
               current_user now)
  | Webhook request now =>
      serve (razorpay_webhook hmac_sha256_hexdigest RAZORPAY_WEBHOOK_SECRET db
               request now)
  | Refund request current_user now gateway =>
      serve (initiate_refund db request current_user now gateway)
  | Withdraw current_user amount bank_account =>
      serve (withdraw_earnings db current_user amount bank_account)
  | Block current_user slot blocked reason =>
      serve (block_slot db current_user slot blocked reason)
  | Leave request current_user => serve (apply_leave db request current_user)
  | Create_slots request current_user =>
      serve (create_slots_batch strptime_HM weekday_name db request current_user)
  end.

(** The store after a sequence of requests. *)
Definition run (db : DB) (requests : list Request) : DB :=
  fold_left handle requests db.

End System.

(* ================================================================== *)
(** ** Worked inputs *)
(* ================================================================== *)

Module Scenario.

(** A stand-in for HMAC-SHA256 and the default secrets of [payments.py];
    the general statements below hold for every such function. *)
Definition hmac (key msg : string) : string := (key ++ ":" ++ msg)%string.
Definition key_secret : string := "xxx".
Definition webhook_secret : string := "whsec_xxx".

Definition patient : User := {| user_id := 1; user_name := "Asha" |}.
Definition doctor_user : User := {| user_id := 2; user_name := "Rao" |}.

Definition rao (fee : Z) : Doctor :=
  {| doctor_id := 10; doctor_user_id := 2; doctor_name := "Rao";
     doctor_clinic_id := Some "CLI101";
     is_available := true; consultation_fee := fee;
     total_consultations := 0; next_available_slot := None |}.

(** 2025-06-01, ten o'clock. *)
Definition day : date := 739403.
Definition ten_o_clock : time := 10 * 3600000000.

Definition free_slot : DoctorSlot :=
  {| slot_id := 100; slot_doctor_id := 10; slot_date := day;
     start_time := ten_o_clock; end_time := ten_o_clock + 1800000000;
     is_booked := false; is_blocked := false; block_reason := None |}.

Definition blocked_slot : DoctorSlot :=
  {| slot_id := 101; slot_doctor_id := 10; slot_date := day;
     start_time := ten_o_clock + 1800000000;
     end_time := ten_o_clock + 3600000000;
     is_booked := false; is_blocked := true; block_reason := Some "Lunch" |}.

(** A store with one patient, one doctor charging [fee] and two slots on
    [day], the second one blocked; no appointment was ever booked. *)
Definition clinic (fee : Z) : DB :=
  {| users := [patient; doctor_user]; doctors := [rao fee];
     slots := [free_slot; blocked_slot];
     appointments := []; payments := []; wallets := [];
     wallet_transactions := []; qr_codes := []; notifications := [];
     audit_logs := []; prescriptions := [] |}.

(** Every clock reading is [minutes] before the start of [free_slot]. *)
Definition minutes_before (minutes : Z) : nat -> datetime :=
  fun _ => datetime_combine day ten_o_clock - timedelta_minutes minutes.

Definition book (method : PaymentMethod) (slot : Z) : AppointmentBookRequest :=
  {| req_user_id := 1; req_doctor_id := 10; req_slot_id := slot;
     req_date := day; req_payment_method := method |}.

(** Rows as the handlers would find them in the tables: an appointment of
    the patient on [free_slot], its payment record with a gateway order, the
    doctor's wallet and the credit of the doctor's share.  No handler of the
    code base writes such rows (see [book_appointment_reply] and
    [credit_doctor_wallet_raises] below); they stand for table contents that
    were loaded otherwise. *)
Definition appointment (status : string) : Appointment :=
  {| apt_id := "APT482913"; apt_user_id := 1; apt_doctor_id := 10;
     apt_slot_id := 100; apt_date := day; apt_time := ten_o_clock;
     apt_status := status; apt_consultation_fee := Some 1000;
     cancellation_reason := None; cancelled_at := None |}.

Definition payment (status : string) : AppointmentPayment :=
  {| pay_appointment_id := "APT482913"; pay_total_amount := 1000;
     pay_platform_fee := 200; pay_doctor_share := 800;
     razorpay_order_id := Some "order_N1";
     razorpay_payment_id := Some "pay_N1";
     razorpay_signature := Some (hmac key_secret "order_N1|pay_N1");
     payment_status := status |}.

Definition wallet (balance : Z) : DoctorWallet :=
  {| wallet_id := 1; wallet_doctor_id := 10; current_balance := balance;
     total_earned := balance; total_withdrawn := 0; pending_withdrawal := 0 |}.

Definition credit_row : WalletTransaction :=
  {| tx_doctor_id := Some 10; tx_wallet_id := 1;
     tx_appointment_id := Some "APT482913"; tx_amount := 800;
     transaction_type := "credit"; balance_before := 0; balance_after := 800 |}.

(** The store in which the appointment is confirmed, its payment record has
    the status [status] and the doctor's wallet holds the share of 800. *)
Definition settled (status : string) : DB :=
  {| users := [patient; doctor_user]; doctors := [rao 1000];
     slots := [set_is_booked true free_slot; blocked_slot];
     appointments := [appointment "confirmed"];
     payments := [payment status];
     wallets := [wallet 800];
     wallet_transactions := [credit_row];
     qr_codes := [{| qr_appointment_id := "APT482913" |}];
     notifications := []; audit_logs := []; prescriptions := [] |}.

(** The same appointment awaiting payment, with no payment record, of a
    doctor charging [fee]. *)
Definition unpaid (fee : Z) : DB :=
  {| users := [patient; doctor_user]; doctors := [rao fee];
     slots := [set_is_booked true free_slot; blocked_slot];
     appointments := [appointment "payment_pending"];
     payments := []; wallets := []; wallet_transactions := [];
     qr_codes := []; notifications := []; audit_logs := [];
     prescriptions := [] |}.


Definition verify_request : VerifyPaymentRequest :=
  {| vr_razorpay_order_id := "order_N1";
     vr_razorpay_payment_id := "pay_N1";
     vr_razorpay_signature := hmac key_secret "order_N1|pay_N1";
     vr_order_id := "APT482913" |}.

(** Two days before the appointment. *)
Definition two_days_before : datetime := datetime_combine (day - 2) ten_o_clock.

Definition verify (db : DB) : Reply VerifyResponse :=
  verify_payment hmac key_secret db verify_request 1 two_days_before.

(** The document of a gateway event for the order [order_N1], and its text
    (strings without escapes). *)
Definition event_document (event : string) : json :=
  gateway_event event (J_string "pay_N1") "order_N1".

Definition quoted (s : string) : string :=
  String (ascii_of_nat 34) (s ++ String (ascii_of_nat 34) EmptyString).

Definition event_text (event : string) : string :=
  ("{" ++ quoted "event" ++ ":" ++ quoted event ++ ","
   ++ quoted "payload" ++ ":{" ++ quoted "payment" ++ ":{"
   ++ quoted "entity" ++ ":{" ++ quoted "id" ++ ":" ++ quoted "pay_N1" ++ ","
   ++ quoted "order_id" ++ ":" ++ quoted "order_N1" ++ "}}}}")%string.

Definition webhook_request (event : string) : WebhookRequest :=
  {| wh_body := event_text event;
     wh_signature := Some (hmac webhook_secret (event_text event));
     wh_data := Some (event_document event) |}.

Definition webhook (event : string) (db : DB) : Reply unit :=
  razorpay_webhook hmac webhook_secret db (webhook_request event) two_days_before.

Definition refund_request : RefundRequest :=
  {| rf_order_id := "APT482913"; rf_reason := "Travelling";
     rf_refund_amount := None |}.

Definition refund (db : DB) : Reply RefundResponse :=
  initiate_refund db refund_request 1 two_days_before (Refund_created "rfnd_N1").

(** Twenty appointments of the doctor on [day], all with [status]. *)
Definition past_appointment (status : string) (n : nat) : Appointment :=
  {| apt_id := ("OLD" ++ decimal (Z.of_nat n))%string;
     apt_user_id := 1; apt_doctor_id := 10; apt_slot_id := 0;
     apt_date := day; apt_time := 0; apt_status := status;
     apt_consultation_fee := Some 1000;
     cancellation_reason := None; cancelled_at := None |}.

Definition busy_day (status : string) : DB :=
  set_appointments (clinic 1000) (map (past_appointment status) (seq 0 20)).

(** The day of twenty confirmed appointments, with [free_slot] taken. *)
Definition full_day : DB :=
  set_slots (busy_day "confirmed") [set_is_booked true free_slot; blocked_slot].


(** Stand-ins for [strptime] on the form [HH:MM] and for the weekday name
    of a date (ordinals divisible by 7 are Sundays). *)
Definition digit (c : ascii) : option Z :=
  let n := byte_of c - 48 in
  if (0 <=? n) && (n <=? 9) then Some n else None.

Definition strptime_HM (text : string) : option time :=
  match text with
  | String a (String b (String colon (String c (String d EmptyString)))) =>
    match digit a, digit b, digit c, digit d with
    | Some a, Some b, Some c, Some d =>
      let hour := 10 * a + b in
      let minute := 10 * c + d in
      if (byte_of colon =? 58) && (hour <? 24) && (minute <? 60)
      then Some (timedelta_hours hour + timedelta_minutes minute)
      else None
    | _, _, _, _ => None
    end
  | _ => None
  end.

Definition weekday_name (d : date) : string :=
  nth (Z.to_nat (d mod 7))
    ["sunday"; "monday"; "tuesday"; "wednesday"; "thursday"; "friday"; "saturday"]
    "sunday".

(** A week of requests against the clinic: the doctor blocks a slot, applies
    for leave, creates slots; the patient tries to book and to cancel. *)
Definition batch_request : CreateSlotBatchRequest :=
  {| batch_start_date := day; batch_end_date := day + 6;
     batch_time_slots :=
       [ [("start", J_string "09:00"); ("end", J_string "09:30")];
         [("start", J_string "10:00"); ("end", J_string "10:30")] ];
     batch_days := ["monday"; "wednesday"];
     batch_skip_dates := [day + 3] |}.


End Scenario.

(* ================================================================== *)
(** * Properties *)
(* ================================================================== *)


(* ------------------------------------------------------------------ *)
(** *** Properties of the binary64 products *)

Section FloatFacts.
Import Binary64.

Lemma rne_small m e : 0 <= m < 2 ^ 53 -> rne m e = (m, e).
Proof.
  intros H. unfold rne, prec.
  destruct (Z.ltb_spec m (2 ^ 53)); [reflexivity | lia].
Qed.

Lemma of_int_small n : 0 <= n < 2 ^ 53 -> of_int n = mk false n 0.
Proof.
  intros H. unfold of_int.
  rewrite Z.abs_eq by lia. rewrite rne_small by lia.
  destruct (Z.ltb_spec n 0); [lia | reflexivity].
Qed.

(** The rounded mantissa, scaled back, stays between the two multiples of
    [2^w] that enclose [A * 2^w + d] when the excess [d] leaves room for
    half a unit in the last place. *)
Lemma rne_window w A d m e q' e' :
  52 <= w -> 0 <= A -> 0 <= d ->
  m = A * 2 ^ w + d ->
  2 ^ 53 <= m < 2 ^ (w + 52) ->
  2 * d + (A + 1) * 2 ^ (w - 52) <= 2 * 2 ^ w ->
  rne m e = (q', e') ->
  exists s, 0 < s <= w /\ e' = e + s /\
    A * 2 ^ w <= q' * 2 ^ s < (A + 1) * 2 ^ w.
Proof.
  intros Hw HA Hd Hm [Hbig Hmlt] Hroom Hr.
  unfold rne, prec in Hr.
  destruct (Z.ltb_spec m (2 ^ 53)); [lia|].
  set (s := Z.log2 m - (53 - 1)) in *.
  assert (Hlog : 2 ^ Z.log2 m <= m < 2 ^ Z.succ (Z.log2 m))
    by (apply Z.log2_spec; lia).
  assert (Hl53 : 53 <= Z.log2 m) by (apply Z.log2_le_pow2; lia).
  assert (Hlw : Z.log2 m < w + 52) by (apply Z.log2_lt_pow2; lia).
  assert (Hs : 0 < s <= w) by (unfold s; lia).
  assert (HWV : 2 ^ (w - 52) * 2 ^ 52 = 2 ^ w).
  { rewrite <- Z.pow_add_r by lia. f_equal. lia. }
  assert (HXK : 2 ^ s * 2 ^ (w - s) = 2 ^ w).
  { rewrite <- Z.pow_add_r by lia. f_equal. lia. }
  assert (HX52 : 2 ^ s * 2 ^ 52 = 2 ^ Z.log2 m).
  { rewrite <- Z.pow_add_r by lia. f_equal. unfold s. lia. }
  assert (Hhalf : 2 * 2 ^ (s - 1) = 2 ^ s).
  { replace s with (Z.succ (s - 1)) at 2 by lia.
    rewrite Z.pow_succ_r by lia. reflexivity. }
  assert (HX : 0 < 2 ^ s) by (apply Z.pow_pos_nonneg; lia).
  assert (HK : 0 < 2 ^ (w - s)) by (apply Z.pow_pos_nonneg; lia).
  assert (HV : 0 < 2 ^ (w - 52)) by (apply Z.pow_pos_nonneg; lia).
  pose proof (Z.div_mod m (2 ^ s) ltac:(lia)) as Hdm.
  pose proof (Z.mod_pos_bound m (2 ^ s) HX) as Hmod.
  set (X := 2 ^ s) in *. set (q := m / X) in *. set (r := m mod X) in *.
  set (K := 2 ^ (w - s)) in *. set (h := 2 ^ (s - 1)) in *.
  set (W := 2 ^ w) in *. set (V := 2 ^ (w - 52)) in *.
  exists s. split; [exact Hs|].
  assert (HAW : X * (A * K) = A * W) by (rewrite <- HXK; ring).
  assert (Hlow : A * K <= q).
  { apply Z.div_le_lower_bound; [lia|]. rewrite HAW. lia. }
  assert (HqX : A * W <= q * X).
  { rewrite <- HAW, (Z.mul_comm X). apply Z.mul_le_mono_nonneg_r; lia. }
  assert (HXa : X < (A + 1) * V).
  { apply Z.mul_lt_mono_pos_r with (p := 2 ^ 52); [lia|].
    replace ((A + 1) * V * 2 ^ 52) with ((A + 1) * W) by (rewrite <- HWV; ring).
    lia. }
  assert (HqX' : q * X = m - r) by lia.
  destruct ((h <? r) || ((r =? h) && Z.odd q)) eqn:Hup.
  - (* rounded up: the remainder is at least one half *)
    assert (Hr2 : h <= r).
    { apply orb_true_iff in Hup as [Hup | Hup].
      - apply Z.ltb_lt in Hup. lia.
      - apply andb_true_iff in Hup as [Hup _]. apply Z.eqb_eq in Hup. lia. }
    inversion Hr; subst q' e'. split; [reflexivity|].
    replace ((q + 1) * X) with (q * X + X) by ring.
    lia.
  - inversion Hr; subst q' e'. split; [reflexivity|]. lia.
Qed.

(** Truncating a product by a constant [M * 2^-w] yields [A] as soon as the
    exact product lies in the window of [A]. *)
Lemma int_of_product_window w M A d n :
  52 <= w -> 0 <= n < 2 ^ 53 -> 0 <= M -> 0 <= A -> 0 <= d ->
  n * M = A * 2 ^ w + d ->
  2 ^ 53 <= n * M < 2 ^ (w + 52) ->
  2 * d + (A + 1) * 2 ^ (w - 52) <= 2 * 2 ^ w ->
  int_of_product n (mk false M (- w)) = A.
Proof.
  intros Hw Hn HM HA Hd Hm Hrange Hroom.
  unfold int_of_product. rewrite of_int_small by exact Hn.
  unfold mul. cbn [mant expo neg].
  destruct (rne (n * M) (0 + - w)) as [q' e'] eqn:Hr.
  destruct (rne_window w A d (n * M) (0 + - w) q' e' Hw HA Hd Hm Hrange Hroom Hr)
    as (s & Hs & He & Hlo & Hhi).
  unfold to_int. cbn [mant expo neg xorb]. subst e'.
  assert (HXK : 2 ^ s * 2 ^ (w - s) = 2 ^ w).
  { rewrite <- Z.pow_add_r by lia. f_equal. lia. }
  assert (HX : 0 < 2 ^ s) by (apply Z.pow_pos_nonneg; lia).
  assert (HK : 0 < 2 ^ (w - s)) by (apply Z.pow_pos_nonneg; lia).
  destruct (Z.leb_spec 0 (0 + - w + s)) as [Hge | Hlt].
  - assert (s = w) by lia. subst s.
    replace (0 + - w + w) with 0 by lia. rewrite Z.pow_0_r.
    assert (0 < 2 ^ w) by (apply Z.pow_pos_nonneg; lia).
    replace ((A + 1) * 2 ^ w) with (A * 2 ^ w + 2 ^ w) in Hhi by ring.
    assert (A <= q') by (apply Z.mul_le_mono_pos_r with (p := 2 ^ w); lia).
    assert (q' < A + 1); [|lia].
    apply Z.mul_lt_mono_pos_r with (p := 2 ^ w); lia.
  - replace (- (0 + - w + s)) with (w - s) by lia.
    set (K := 2 ^ (w - s)) in *. set (X := 2 ^ s) in *. set (W := 2 ^ w) in *.
    assert (HlK : A * K <= q').
    { apply Z.mul_le_mono_pos_r with (p := X); [lia|].
      replace (A * K * X) with (A * W) by (rewrite <- HXK; ring). lia. }
    assert (HhK : q' < (A + 1) * K).
    { apply Z.mul_lt_mono_pos_r with (p := X); [lia|].
      replace ((A + 1) * K * X) with ((A + 1) * W) by (rewrite <- HXK; ring).
      lia. }
    symmetry. apply Z.div_unique with (r := q' - A * K); lia.
Qed.

(** [int(n * 0.20)] is the integer quotient by five. *)
Lemma int_product_0_20 n :
  0 <= n < 2 ^ 50 -> int_of_product n lit_0_20 = n / 5.
Proof.
  intros Hn.
  destruct (Z.ltb_spec n 3) as [Hs | Hb].
  - assert (n = 0 \/ n = 1 \/ n = 2) as [-> | [-> | ->]] by lia; reflexivity.
  - pose proof (Z.div_mod n 5 ltac:(lia)) as Hdm.
    pose proof (Z.mod_pos_bound n 5 ltac:(lia)) as Hmod.
    unfold lit_0_20.
    apply int_of_product_window
      with (w := 54) (d := n / 5 + (n mod 5) * 3602879701896397);
      try lia; apply Z.div_pos; lia.
Qed.

(** [int(n * 0.80)] is the integer quotient of [4 * n] by five. *)
Lemma int_product_0_80 n :
  0 <= n < 2 ^ 50 -> int_of_product n lit_0_80 = (4 * n) / 5.
Proof.
  intros Hn.
  destruct (Z.ltb_spec n 3) as [Hs | Hb].
  - assert (n = 0 \/ n = 1 \/ n = 2) as [-> | [-> | ->]] by lia; reflexivity.
  - pose proof (Z.div_mod (4 * n) 5 ltac:(lia)) as Hdm.
    pose proof (Z.mod_pos_bound (4 * n) 5 ltac:(lia)) as Hmod.
    unfold lit_0_80.
    apply int_of_product_window
      with (w := 52) (d := n * 3602879701896397 - (4 * n) / 5 * 2 ^ 52);
      try lia; apply Z.div_pos; lia.
Qed.

End FloatFacts.

(** The booking-time breakdown: the platform fee is the integer fifth of the
    total and the two parts add up to the total. *)
Lemma calculate_payment_breakdown_exact total :
  0 <= total < 2 ^ 50 ->
  bd_platform_fee (calculate_payment_breakdown total) = total / 5 /\
  bd_doctor_share (calculate_payment_breakdown total) = total - total / 5 /\
  bd_platform_fee (calculate_payment_breakdown total)
    + bd_doctor_share (calculate_payment_breakdown total) = total.
Proof.
  intros H. unfold calculate_payment_breakdown. cbn [bd_platform_fee bd_doctor_share].
  rewrite int_product_0_20 by exact H. lia.
Qed.

(** The split written by payment-order creation: both parts are rounded
    down separately. *)
Lemma payment_order_split_value amount :
  0 <= amount < 2 ^ 50 ->
  bd_platform_fee (payment_order_split amount) = amount / 5 /\
  bd_doctor_share (payment_order_split amount) = (4 * amount) / 5.
Proof.
  intros H. unfold payment_order_split, PLATFORM_FEE_PERCENTAGE,
    DOCTOR_SHARE_PERCENTAGE. cbn [bd_platform_fee bd_doctor_share].
  rewrite int_product_0_20, int_product_0_80 by exact H. split; reflexivity.
Qed.

(** Payment-order creation loses one rupee exactly when the amount is not a
    multiple of five. *)
Lemma payment_order_split_sum amount :
  0 <= amount < 2 ^ 50 ->
  bd_platform_fee (payment_order_split amount)
    + bd_doctor_share (payment_order_split amount)
  = if amount mod 5 =? 0 then amount else amount - 1.
Proof.
  intros H. destruct (payment_order_split_value amount H) as [-> ->].
  pose proof (Z.div_mod amount 5 ltac:(lia)) as Hd.
  pose proof (Z.mod_pos_bound amount 5 ltac:(lia)) as Hm.
  pose proof (Z.div_mod (4 * amount) 5 ltac:(lia)) as Hd4.
  pose proof (Z.mod_pos_bound (4 * amount) 5 ltac:(lia)) as Hm4.
  destruct (Z.eqb_spec (amount mod 5) 0); lia.
Qed.

(** C2. The split computed by payment-order creation does not add up: for an
    amount of 1001 rupees the arguments that [create_payment_order] computes
    for the payment record are a platform fee of [int(1001 * 0.20) = 200]
    and a doctor share of [int(1001 * 0.80) = 800], one rupee short of the
    total, while the booking-time breakdown of the same fee gives 200 and
    [1001 - 200 = 801]. *)
Theorem payment_order_split_loses_a_rupee :
  payment_order_split 1001 =
    {| bd_total_amount := 1001; bd_platform_fee := 200; bd_doctor_share := 800 |}
  /\ bd_platform_fee (payment_order_split 1001)
       + bd_doctor_share (payment_order_split 1001) <> 1001
  /\ calculate_payment_breakdown 1001 =
    {| bd_total_amount := 1001; bd_platform_fee := 200; bd_doctor_share := 801 |}.
Proof.
  repeat split; try reflexivity.
  vm_compute. discriminate.
Qed.

(* ------------------------------------------------------------------ *)
(** *** Rows and queries *)

Arguments first : simpl never.
Arguments calculate_payment_breakdown : simpl never.
Arguments generate_booking_id : simpl never.
Arguments decimal : simpl never.

Lemma first_some {A} (p : A -> bool) rows x :
  first p rows = Some x -> In x rows /\ p x = true.
Proof. unfold first. apply find_some. Qed.

Lemma update_first_none {A} (p : A -> bool) f rows :
  first p rows = None -> update_first p f rows = rows.
Proof.
  unfold first. induction rows as [|r rest IH]; cbn; [reflexivity|].
  destruct (p r); [discriminate|]. intros H. f_equal. apply IH, H.
Qed.

Lemma first_update_first {A} (p : A -> bool) f rows x :
  first p rows = Some x -> p (f x) = true ->
  first p (update_first p f rows) = Some (f x).
Proof.
  unfold first. induction rows as [|r rest IH]; cbn; [discriminate|].
  destruct (p r) eqn:Hp; intros Hx Hf.
  - injection Hx as <-. cbn. rewrite Hf. reflexivity.
  - cbn. rewrite Hp. apply IH; assumption.
Qed.

Lemma in_update_first {A} (p : A -> bool) f rows y :
  In y (update_first p f rows) -> In y rows \/ exists x, In x rows /\ y = f x.
Proof.
  induction rows as [|r rest IH]; cbn; [tauto|].
  destruct (p r); cbn.
  - intros [<- | H]; [right; exists r; tauto | tauto].
  - intros [<- | H]; [tauto|].
    destruct (IH H) as [H' | (x & Hx & ->)]; [tauto|].
    right. exists x. tauto.
Qed.

(* ------------------------------------------------------------------ *)
(** *** The schema *)

(** [PaymentStatus] has no member [PAID]. *)
Lemma PaymentStatus_has_no_PAID :
  enum_member PaymentStatus "PAID" = Raise (Py AttributeError).
Proof. reflexivity. Qed.

Lemma PaymentStatus_PENDING : enum_member PaymentStatus "PENDING" = Ok "pending".
Proof. reflexivity. Qed.

Lemma PaymentStatus_FAILED : enum_member PaymentStatus "FAILED" = Ok "failed".
Proof. reflexivity. Qed.

(** [Appointment] has no attribute [total_amount], [AppointmentPayment] none
    called [payment_gateway], [QRCode] none called [expires_at]: the three
    constructor calls raise. *)
Lemma booking_constructor_raises :
  declarative_constructor Appointment_attributes booking_kwargs
  = Raise (Py TypeError).
Proof. reflexivity. Qed.

Lemma payment_order_constructor_raises :
  declarative_constructor AppointmentPayment_attributes payment_order_kwargs
  = Raise (Py TypeError).
Proof. reflexivity. Qed.

Lemma verified_qr_constructor_raises :
  declarative_constructor QRCode_attributes verified_qr_kwargs
  = Raise (Py TypeError).
Proof. reflexivity. Qed.

(** The keyword [metadata] of the wallet transactions names an attribute that
    every mapped class inherits: these constructor calls succeed. *)
Lemma credit_transaction_constructor :
  declarative_constructor WalletTransaction_attributes credit_transaction_kwargs
  = Ok tt.
Proof. reflexivity. Qed.

Lemma doctor_transaction_constructor :
  declarative_constructor WalletTransaction_attributes doctor_transaction_kwargs
  = Ok tt.
Proof. reflexivity. Qed.

(** A parameter without NUL is accepted. *)
Lemma bound_ok s : has_nul s = false -> bound s = Ok tt.
Proof. intros H. unfold bound. rewrite H. reflexivity. Qed.

(** A wallet transaction built without [doctor_id] is refused. *)
Lemma insert_wallet_transaction_without_doctor rows t :
  tx_doctor_id t = None -> insert_wallet_transaction rows t = Raise (Py SQLError).
Proof. intros H. unfold insert_wallet_transaction. rewrite H. reflexivity. Qed.

(* ------------------------------------------------------------------ *)
(** *** Booking *)

(** Every booking is refused and nothing is written: a request that fails a
    validation gets that validation's error, and a request that passes them
    all runs into the [Appointment] constructor, which raises. *)
Lemma book_appointment_reply db request now rand gateway :
  book_appointment db request now rand gateway =
  abort db
    match booking_validations db request now with
    | Raise e => e
    | Ok _ => HTTP (Booking_failed TypeError)
    end.
Proof.
  unfold book_appointment.
  destruct (booking_validations db request now) as [[[user doctor] slot]|e];
    [|reflexivity].
  rewrite PaymentStatus_PENDING, booking_constructor_raises.
  destruct (req_payment_method request); reflexivity.
Qed.

Lemma book_appointment_serve db request now rand gateway :
  serve (book_appointment db request now rand gateway) = db.
Proof. rewrite book_appointment_reply. reflexivity. Qed.

Ltac step_validation :=
  match goal with
  | |- context [match first ?p ?rows with Some _ => _ | None => _ end] =>
      destruct (first p rows) eqn:?
  | |- context [if is_booked ?s then _ else _] => destruct (is_booked s) eqn:?
  | |- context [if negb (?a =? ?b) then _ else _] => destruct (Z.eqb_spec a b)
  | |- context [if ?a <=? ?b then _ else _] => destruct (Z.leb_spec a b)
  | |- context [if ?a <? ?b then _ else _] => destruct (Z.ltb_spec a b)
  | |- context [if ?a >=? ?b then _ else _] => destruct (Z.geb_spec a b)
  end; cbn [negb].

(** A slot that starts in the past or less than an hour ahead fails the
    validations. *)
Lemma validations_lead_time db request now slot :
  first (fun s => slot_id s =? req_slot_id request) (slots db) = Some slot ->
  datetime_combine (req_date request) (start_time slot) <= now 0%nat \/
  datetime_combine (req_date request) (start_time slot) - now 1%nat
    < timedelta_hours 1 ->
  exists e, booking_validations db request now = Raise e.
Proof.
  intros Hslot Hlate. unfold booking_validations, slot_validations.
  do 2 (step_validation; [|eexists; reflexivity]).
  rewrite Hslot.
  repeat (step_validation; try (eexists; reflexivity)).
  lia.
Qed.

(** The validations before the capacity check pass when every check does. *)
Lemma slot_validations_pass db request now user doctor slot :
  first (fun u => user_id u =? req_user_id request) (users db) = Some user ->
  first (fun d => (doctor_id d =? req_doctor_id request) && is_available d)
    (doctors db) = Some doctor ->
  first (fun s => slot_id s =? req_slot_id request) (slots db) = Some slot ->
  is_booked slot = false ->
  slot_doctor_id slot = req_doctor_id request ->
  slot_date slot = req_date request ->
  now 0%nat < datetime_combine (req_date request) (start_time slot) ->
  timedelta_hours 1
    <= datetime_combine (req_date request) (start_time slot) - now 1%nat ->
  slot_validations db request now = Ok (user, doctor, slot).
Proof.
  intros Hu Hd Hs Hfree Hdoc Hdate Hfuture Hlead. unfold slot_validations.
  rewrite Hu, Hd, Hs, Hfree.
  repeat (step_validation; try lia; try reflexivity).
Qed.

(** The capacity check: it refuses a request that passed the earlier
    validations when twenty appointments are counted, and lets the result of
    the earlier validations through otherwise. *)
Lemma booking_validations_capacity db request now :
  booking_validations db request now =
  match slot_validations db request now with
  | Raise e => Raise e
  | Ok found =>
    if max_daily_appointments
         <=? count (counts_for_day (req_doctor_id request) (req_date request))
               (appointments db)
    then Raise (HTTP Doctor_reached_maximum_appointments)
    else Ok found
  end.
Proof.
  unfold booking_validations.
  destruct (slot_validations db request now); [|reflexivity].
  rewrite Z.geb_leb. reflexivity.
Qed.

(** More than an hour ahead on a clock that does not run backwards, the
    validations never answer with one of the two lead-time errors. *)
Lemma validations_above_lead_time db request now slot :
  first (fun s => slot_id s =? req_slot_id request) (slots db) = Some slot ->
  now 0%nat <= now 1%nat ->
  timedelta_hours 1
    <= datetime_combine (req_date request) (start_time slot) - now 1%nat ->
  booking_validations db request now <> Raise (HTTP Cannot_book_in_the_past) /\
  booking_validations db request now
    <> Raise (HTTP Cannot_book_within_minimum_time).
Proof.
  intros Hslot Hclock Hlead.
  unfold booking_validations, slot_validations. unfold timedelta_hours in *.
  split.
  all: do 2 (step_validation; [|discriminate]).
  all: rewrite Hslot.
  all: repeat (step_validation; try discriminate; try lia).
Qed.

Lemma book_appointment_raise_inv db request now rand gateway e :
  outcome (book_appointment db request now rand gateway) = Raise e ->
  booking_validations db request now = Raise e \/
  e = HTTP (Booking_failed TypeError).
Proof.
  rewrite book_appointment_reply. cbn [outcome abort reply].
  destruct (booking_validations db request now); intros H; injection H as <-;
    [right | left]; reflexivity.
Qed.

(* ------------------------------------------------------------------ *)
(** *** The wallet ledger *)

(** The credit never commits: the transaction is built without [doctor_id],
    and with the refused commit the wallet that was flushed before it is
    gone as well. *)
Lemma credit_doctor_wallet_raises db doctor amount appointment :
  credit_doctor_wallet db doctor amount appointment = Raise (Py SQLError).
Proof.
  unfold credit_doctor_wallet.
  destruct (first (wallet_of_doctor doctor) (wallets db));
    rewrite credit_transaction_constructor;
    rewrite insert_wallet_transaction_without_doctor by reflexivity;
    reflexivity.
Qed.

(** The debit never commits either: it raises for a missing wallet, for a
    balance below the amount, and at the commit otherwise. *)
Lemma debit_doctor_wallet_reply db doctor amount appointment reason :
  debit_doctor_wallet db doctor amount appointment reason =
  Raise
    match first (wallet_of_doctor doctor) (wallets db) with
    | None => HTTP Doctor_wallet_not_found
    | Some wallet =>
      if current_balance wallet <? amount
      then HTTP (Insufficient_wallet_balance (current_balance wallet))
      else Py SQLError
    end.
Proof.
  unfold debit_doctor_wallet.
  destruct (first (wallet_of_doctor doctor) (wallets db)) as [wallet|];
    [|reflexivity].
  destruct (current_balance wallet <? amount); [reflexivity|].
  rewrite insert_wallet_transaction_without_doctor by reflexivity.
  reflexivity.
Qed.

(** A withdrawal is always refused, and nothing is written. *)
Lemma withdraw_earnings_reply db current_user amount bank_account :
  withdraw_earnings db current_user amount bank_account =
  abort db
    (if amount <? 100 then HTTP Unprocessable_entity
     else
       match first (fun d => doctor_user_id d =? current_user) (doctors db) with
       | None => HTTP Doctor_profile_not_found
       | Some doctor =>
         match first (wallet_of_doctor (doctor_id doctor)) (wallets db) with
         | None => HTTP Wallet_not_found
         | Some wallet =>
           if amount <? 500 then HTTP Minimum_withdrawal_amount
           else if current_balance wallet <? amount
           then HTTP (Insufficient_balance (current_balance wallet))
           else Py SQLError
         end
       end).
Proof.
  unfold withdraw_earnings.
  destruct (amount <? 100); [reflexivity|].
  destruct (first (fun d => doctor_user_id d =? current_user) (doctors db))
    as [doctor|]; [|reflexivity].
  destruct (first (wallet_of_doctor (doctor_id doctor)) (wallets db))
    as [wallet|]; [|reflexivity].
  destruct (amount <? 500); [reflexivity|].
  destruct (current_balance wallet <? amount); [reflexivity|].
  rewrite doctor_transaction_constructor.
  rewrite insert_wallet_transaction_without_doctor by reflexivity.
  reflexivity.
Qed.

(** With a wallet row of the doctor the completion is refused at its commit,
    and nothing is written. *)
Lemma complete_appointment_with_wallet
    db current_user appointment_id diagnosis prescription doctor appointment wallet :
  first (fun d => doctor_user_id d =? current_user) (doctors db) = Some doctor ->
  first (fun a => String.eqb (apt_id a) appointment_id
                  && (apt_doctor_id a =? doctor_id doctor))
    (appointments db) = Some appointment ->
  first (wallet_of_doctor (doctor_id doctor)) (wallets db) = Some wallet ->
  complete_appointment db current_user appointment_id diagnosis prescription
  = abort db (Py SQLError).
Proof.
  intros Hd Ha Hw. unfold complete_appointment.
  rewrite Hd. destruct (bound appointment_id) as [[]|e] eqn:Hb.
  2:{ unfold bound in Hb. destruct (has_nul appointment_id); [|discriminate].
      injection Hb as <-. reflexivity. }
  rewrite Ha, Hw. rewrite doctor_transaction_constructor.
  set (db2 := set_doctors _ _).
  destruct (truthy_string diagnosis || truthy_dict prescription).
  - unfold insert_prescription.
    destruct (existsb _ (prescriptions db2)); [reflexivity|].
    destruct (_ && _); [|reflexivity].
    rewrite insert_wallet_transaction_without_doctor by reflexivity.
    reflexivity.
  - rewrite insert_wallet_transaction_without_doctor by reflexivity.
    reflexivity.
Qed.

(** Without a wallet row the completion writes no wallet and no
    transaction, and reports a credit of zero. *)
Lemma complete_appointment_without_wallet
    db current_user appointment_id diagnosis prescription doctor :
  first (fun d => doctor_user_id d =? current_user) (doctors db) = Some doctor ->
  first (wallet_of_doctor (doctor_id doctor)) (wallets db) = None ->
  let r := complete_appointment db current_user appointment_id diagnosis
             prescription in
  wallets (store r) = wallets db /\
  wallet_transactions (store r) = wallet_transactions db /\
  payments (store r) = payments db /\
  tasks r = [] /\
  forall resp, outcome r = Ok resp -> fee_credited resp = 0.
Proof.
  intros Hd Hw r. subst r. unfold complete_appointment.
  rewrite Hd, Hw.
  destruct (bound appointment_id); [|cbn; repeat split; discriminate].
  destruct (first _ (appointments db)) as [appointment|];
    [|cbn; repeat split; discriminate].
  set (db2 := set_doctors _ _).
  destruct (truthy_string diagnosis || truthy_dict prescription).
  - destruct (insert_prescription _ _ _ _) as [rows|e];
      [|cbn; repeat split; discriminate].
    destruct (int4 _); cbn; repeat split; try discriminate.
    intros resp H. injection H as <-. reflexivity.
  - destruct (int4 _); cbn; repeat split; try discriminate.
    intros resp H. injection H as <-. reflexivity.
Qed.

(** Whatever the call, the completion leaves the wallets, the wallet
    transactions and the payment records as they were, and enqueues no
    task. *)
Lemma complete_appointment_ledger
    db current_user appointment_id diagnosis prescription :
  let r := complete_appointment db current_user appointment_id diagnosis
             prescription in
  wallets (store r) = wallets db /\
  wallet_transactions (store r) = wallet_transactions db /\
  payments (store r) = payments db /\
  tasks r = [].
Proof.
  intros r. subst r.
  destruct (first (fun d => doctor_user_id d =? current_user) (doctors db))
    as [doctor|] eqn:Hd.
  2:{ unfold complete_appointment. rewrite Hd. cbn. tauto. }
  destruct (first (wallet_of_doctor (doctor_id doctor)) (wallets db))
    as [wallet|] eqn:Hw.
  - destruct (first (fun a => String.eqb (apt_id a) appointment_id
                              && (apt_doctor_id a =? doctor_id doctor))
                (appointments db)) as [appointment|] eqn:Ha.
    + rewrite (complete_appointment_with_wallet _ _ _ _ _ _ _ _ Hd Ha Hw).
      cbn. tauto.
    + unfold complete_appointment. rewrite Hd, Ha.
      destruct (bound appointment_id); cbn; tauto.
  - pose proof (complete_appointment_without_wallet db current_user
                  appointment_id diagnosis prescription doctor Hd Hw) as H.
    cbv zeta in H. tauto.
Qed.






(** Without a wallet row, without prescription data and with the counter in
    range the completion commits: the appointment is marked completed and
    the response reports a credit of zero. *)
Lemma complete_appointment_commits_without_wallet
    db current_user appointment_id diagnosis prescription doctor appointment :
  first (fun d => doctor_user_id d =? current_user) (doctors db) = Some doctor ->
  first (fun a => String.eqb (apt_id a) appointment_id
                  && (apt_doctor_id a =? doctor_id doctor))
    (appointments db) = Some appointment ->
  first (wallet_of_doctor (doctor_id doctor)) (wallets db) = None ->
  has_nul appointment_id = false ->
  truthy_string diagnosis || truthy_dict prescription = false ->
  int4 (total_consultations doctor + 1) = true ->
  let r := complete_appointment db current_user appointment_id diagnosis
             prescription in
  outcome r = Ok {| completed_appointment := appointment_id; fee_credited := 0 |} /\
  first (fun a => String.eqb (apt_id a) appointment_id
                  && (apt_doctor_id a =? doctor_id doctor))
    (appointments (store r))
  = Some (set_apt_status "completed" appointment).
Proof.
  intros Hd Ha Hw Hn Hp Hc r. subst r. unfold complete_appointment.
  rewrite Hd, (bound_ok _ Hn), Ha, Hw, Hp, Hc. cbn [outcome store reply]. split; [reflexivity|].
  cbn [add_notification set_notifications set_doctors set_appointments
       appointments].
  apply (first_update_first _ _ _ _ Ha).
  cbn [apt_id apt_doctor_id]. apply (first_some _ _ _ Ha).
Qed.

(** C10. Marking an appointment completed credits nothing.  When the doctor
    has a wallet row the handler adds a credit of the doctor's current
    [consultation_fee], but the transaction is built without [doctor_id]:
    the commit is refused, the handler answers 500 and the store is left as
    it was (the appointment is not marked completed either).  When the
    doctor has no wallet row, no wallet is created, no transaction is
    written and the response reports a credit of zero; without prescription
    data the appointment is then marked completed. *)
Theorem complete_appointment_credit_is_refused
    db current_user appointment_id diagnosis prescription doctor appointment :
  first (fun d => doctor_user_id d =? current_user) (doctors db) = Some doctor ->
  first (fun a => String.eqb (apt_id a) appointment_id
                  && (apt_doctor_id a =? doctor_id doctor))
    (appointments db) = Some appointment ->
  let r := complete_appointment db current_user appointment_id diagnosis
             prescription in
  (forall wallet,
     first (wallet_of_doctor (doctor_id doctor)) (wallets db) = Some wallet ->
     r = abort db (Py SQLError)) /\
  (first (wallet_of_doctor (doctor_id doctor)) (wallets db) = None ->
   wallets (store r) = wallets db /\
   wallet_transactions (store r) = wallet_transactions db /\
   (forall resp, outcome r = Ok resp -> fee_credited resp = 0) /\
   (has_nul appointment_id = false ->
    truthy_string diagnosis || truthy_dict prescription = false ->
    int4 (total_consultations doctor + 1) = true ->
    outcome r
      = Ok {| completed_appointment := appointment_id; fee_credited := 0 |} /\
    first (fun a => String.eqb (apt_id a) appointment_id
                    && (apt_doctor_id a =? doctor_id doctor))
      (appointments (store r))
    = Some (set_apt_status "completed" appointment))).
Proof.
  intros Hd Ha r. subst r. split.
  - intros wallet Hw.
    exact (complete_appointment_with_wallet _ _ _ _ _ _ _ _ Hd Ha Hw).
  - intros Hw.
    pose proof (complete_appointment_without_wallet db current_user
                  appointment_id diagnosis prescription doctor Hd Hw) as H.
    cbv zeta in H. destruct H as (H1 & H2 & _ & _ & H5).
    split; [exact H1|]. split; [exact H2|]. split; [exact H5|].
    intros Hn Hp Hc.
    exact (complete_appointment_commits_without_wallet _ _ _ _ _ _ _
             Hd Ha Hw Hn Hp Hc).
Qed.

Lemma complete_appointment_credit_is_refused_witness :
  complete_appointment (Scenario.settled "paid") 2 "APT482913" None None
    = abort (Scenario.settled "paid") (Py SQLError) /\
  outcome (complete_appointment (Scenario.unpaid 1000) 2 "APT482913" None None)
    = Ok {| completed_appointment := "APT482913"; fee_credited := 0 |}.
Proof.
  split.
  - exact (proj1 (complete_appointment_credit_is_refused
                    (Scenario.settled "paid") 2 "APT482913" None None
                    (Scenario.rao 1000) (Scenario.appointment "confirmed")
                    eq_refl eq_refl) (Scenario.wallet 800) eq_refl).
  - exact (proj1 (proj2 (proj2 (proj2 (proj2
             (complete_appointment_credit_is_refused
                (Scenario.unpaid 1000) 2 "APT482913" None None
                (Scenario.rao 1000) (Scenario.appointment "payment_pending")
                eq_refl eq_refl) eq_refl))) eq_refl eq_refl eq_refl)).
Defined.

(* ------------------------------------------------------------------ *)
(** *** Settlement *)

(** The client's verification of a payment whose appointment and payment
    record exist: the handler reads [PaymentStatus.PAID], which does not
    exist, and answers 500 with nothing written and no task enqueued. *)
Lemma verify_payment_of_a_record
    hmac key_secret db request current_user now appointment payment :
  verify_razorpay_signature hmac key_secret (vr_razorpay_order_id request)
    (vr_razorpay_payment_id request) (vr_razorpay_signature request) = Ok true ->
  first (appointment_of_user (vr_order_id request) current_user) (appointments db)
    = Some appointment ->
  first (payment_of_appointment (vr_order_id request)) (payments db)
    = Some payment ->
  has_nul (vr_order_id request) = false ->
  verify_payment hmac key_secret db request current_user now
  = abort db (HTTP (Payment_verification_failed AttributeError)).
Proof.
  intros Hsig Ha Hp Hn. unfold verify_payment.
  rewrite Hsig, (bound_ok _ Hn), Ha, Hp, PaymentStatus_has_no_PAID. reflexivity.
Qed.

(** The verification writes at most the audit row of a failed signature
    check, and never enqueues a task. *)
Lemma verify_payment_frame hmac key_secret db request current_user now :
  let r := verify_payment hmac key_secret db request current_user now in
  tasks r = [] /\
  (store r = db \/
   store r = add_audit db current_user "PAYMENT_VERIFICATION_FAILED"
               (vr_razorpay_payment_id request)).
Proof.
  intros r. subst r. unfold verify_payment.
  destruct (verify_razorpay_signature _ _ _ _ _) as [[|]|e].
  - destruct (bound _) as [?|[|]]; [|cbn; tauto|cbn; tauto].
    destruct (first _ (appointments db)); [|cbn; tauto].
    destruct (first _ (payments db)); [|cbn; tauto].
    rewrite PaymentStatus_has_no_PAID. cbn. tauto.
  - destruct (_ && _); cbn; tauto.
  - cbn. tauto.
Qed.

(** The gateway's [payment.captured] event for an order that has a payment
    record: the handler reads [PaymentStatus.PAID] and the exception escapes;
    nothing is written and no credit is enqueued. *)
Lemma razorpay_webhook_captured
    hmac webhook_secret db body signature payment_id order_id payment now :
  compare_digest (hmac webhook_secret body) signature = Ok true ->
  has_nul order_id = false ->
  first (payment_with_order (Some order_id)) (payments db) = Some payment ->
  razorpay_webhook hmac webhook_secret db
    {| wh_body := body; wh_signature := Some signature;
       wh_data := Some (gateway_event "payment.captured" payment_id order_id) |}
    now
  = abort db (Py AttributeError).
Proof.
  intros Hsig Hnul Hp. unfold razorpay_webhook.
  cbn [wh_body wh_signature wh_data]. rewrite Hsig.
  cbn [gateway_event py_get dict_get String.eqb Ascii.eqb Bool.eqb json_is].
  cbn [payment_of_order]. rewrite Hnul.
  rewrite Hp, PaymentStatus_has_no_PAID. reflexivity.
Qed.

(** The gateway's [payment.failed] event for an order that has a payment
    record: the status of the record becomes [failed], whatever it was. *)
Lemma razorpay_webhook_failed
    hmac webhook_secret db body signature payment_id order_id payment now :
  compare_digest (hmac webhook_secret body) signature = Ok true ->
  has_nul order_id = false ->
  first (payment_with_order (Some order_id)) (payments db) = Some payment ->
  razorpay_webhook hmac webhook_secret db
    {| wh_body := body; wh_signature := Some signature;
       wh_data := Some (gateway_event "payment.failed" payment_id order_id) |}
    now
  = reply
      (set_payments db
         (update_first (payment_with_order (Some order_id)) (set_payment_status "failed")
            (payments db)))
      (Ok tt) [].
Proof.
  intros Hsig Hnul Hp. unfold razorpay_webhook.
  cbn [wh_body wh_signature wh_data]. rewrite Hsig.
  cbn [gateway_event py_get dict_get String.eqb Ascii.eqb Bool.eqb json_is].
  cbn [payment_of_order]. rewrite Hnul.
  rewrite Hp, PaymentStatus_FAILED. reflexivity.
Qed.

(** Whatever the event, the webhook leaves the appointments, the slots, the
    wallets and the wallet transactions as they were and enqueues no task:
    the only write that is reached is the one of [payment.failed]. *)
Lemma razorpay_webhook_frame hmac webhook_secret db request now :
  let r := razorpay_webhook hmac webhook_secret db request now in
  tasks r = [] /\
  appointments (store r) = appointments db /\
  slots (store r) = slots db /\
  wallets (store r) = wallets db /\
  wallet_transactions (store r) = wallet_transactions db.
Proof.
  intros r. subst r. unfold razorpay_webhook.
  rewrite PaymentStatus_has_no_PAID, PaymentStatus_FAILED.
  destruct (wh_signature request) as [signature|]; [|cbn; tauto].
  destruct (compare_digest _ signature) as [[|]|e]; [|cbn; tauto|cbn; tauto].
  destruct (wh_data request) as [data|]; [|cbn; tauto].
  repeat match goal with
         | |- context [match py_get ?d ?k ?v with _ => _ end] =>
             destruct (py_get d k v) as [?|?]; [|cbn; tauto]
         end.
  repeat match goal with
         | |- context [if json_is ?e ?s then _ else _] => destruct (json_is e s)
         | |- context [match payment_of_order ?o with _ => _ end] =>
             destruct (payment_of_order o) as [?|?]
         | |- context [match first ?p ?rows with _ => _ end] =>
             destruct (first p rows)
         end; cbn; tauto.
Qed.

(** A refund is always refused, and nothing is written: the handler reads
    [PaymentStatus.PAID] as soon as it has found a payment record. *)
Lemma initiate_refund_reply db request current_user now gateway :
  initiate_refund db request current_user now gateway =
  abort db
    (if (len (rf_reason request) <? 5) || (200 <? len (rf_reason request))
     then HTTP Unprocessable_entity
     else if has_nul (rf_order_id request) then Py SQLError
     else
       match first (appointment_of_user (rf_order_id request) current_user)
               (appointments db) with
       | None => HTTP Appointment_not_found
       | Some _ =>
         match first (payment_of_appointment (rf_order_id request))
                 (payments db) with
         | None => HTTP No_payment_to_refund
         | Some _ => Py AttributeError
         end
       end).
Proof.
  unfold initiate_refund. rewrite PaymentStatus_has_no_PAID.
  destruct (_ || _); [reflexivity|].
  unfold bound. destruct (has_nul _); [reflexivity|].
  destruct (first _ (appointments db)); [|reflexivity].
  destruct (first _ (payments db)); reflexivity.
Qed.

(** A payment order for an appointment without payment record: the split is
    computed and the constructor that receives it raises; for an appointment
    with a payment record the handler reads [PaymentStatus.PAID].  Nothing
    is written when there is no appointment. *)

Lemma create_payment_order_stores_nothing db order_id current_user gateway :
  let r := create_payment_order db order_id current_user gateway in
  store r = db /\ tasks r = [] /\ exists e, outcome r = Raise e.
Proof.
  intros r. subst r. unfold create_payment_order.
  rewrite PaymentStatus_has_no_PAID, PaymentStatus_PENDING,
    payment_order_constructor_raises.
  destruct (bound order_id); [|cbn; eauto].
  destruct (first _ (appointments db)) as [order|]; [|cbn; eauto].
  destruct (first _ (payments db)) as [payment|]; [cbn; eauto|].
  destruct (first _ (doctors db)) as [doctor|]; [|cbn; eauto].
  destruct (doctor_clinic_id doctor); [|cbn; eauto].
  destruct gateway; cbn; eauto.
Qed.

(* ------------------------------------------------------------------ *)
(** *** The states the handlers reach *)

Lemma serve_no_tasks {R} (r : Reply R) : tasks r = [] -> serve r = store r.
Proof. intros H. unfold serve. rewrite H. reflexivity. Qed.

Lemma serve_abort {R} db e : serve (@abort R db e) = db.
Proof. reflexivity. Qed.

(** Blocking a slot and applying for leave keep the [is_booked] flag of
    every slot and write no appointment. *)
Lemma block_slot_frame db current_user slot blocked reason :
  let r := block_slot db current_user slot blocked reason in
  tasks r = [] /\
  appointments (store r) = appointments db /\
  forall s, In s (slots (store r)) ->
    exists s0, In s0 (slots db) /\ is_booked s = is_booked s0.
Proof.
  intros r. subst r. unfold block_slot.
  assert (Hsame : forall s, In s (slots db) ->
            exists s0, In s0 (slots db) /\ is_booked s = is_booked s0)
    by (intros s Hs; exists s; tauto).
  destruct (first _ (doctors db)) as [doctor|]; [|cbn; tauto].
  destruct (first _ (slots db)) as [found|]; [|cbn; tauto].
  destruct (is_booked found); [cbn; tauto|].
  destruct (match reason with Some r => text_ok r | None => true end);
    [|cbn; tauto].
  cbn. repeat split. intros s Hs.
  apply in_update_first in Hs as [Hs | (x & Hx & ->)]; [exists s; tauto|].
  exists x. split; [exact Hx | reflexivity].
Qed.

Lemma fold_add_notification_frame {A} (f : A -> Z) type_ title rows : forall db,
  let db' := fold_left (fun acc a => add_notification acc (f a) type_ title)
               rows db in
  appointments db' = appointments db /\ slots db' = slots db /\
  doctors db' = doctors db.
Proof.
  induction rows as [|a rows IH]; intros db; cbn; [tauto|].
  destruct (IH (add_notification db (f a) type_ title)) as (H1 & H2 & H3).
  cbn in *. tauto.
Qed.

Lemma apply_leave_frame db request current_user :
  let r := apply_leave db request current_user in
  tasks r = [] /\
  appointments (store r) = appointments db /\
  forall s, In s (slots (store r)) ->
    exists s0, In s0 (slots db) /\ is_booked s = is_booked s0.
Proof.
  intros r. subst r. unfold apply_leave.
  assert (Hsame : forall s, In s (slots db) ->
            exists s0, In s0 (slots db) /\ is_booked s = is_booked s0)
    by (intros s Hs; exists s; tauto).
  destruct (first _ (doctors db)) as [doctor|]; [|cbn; tauto].
  destruct (_ && _); [cbn; tauto|].
  cbn [store tasks reply set_doctors set_slots appointments slots].
  match goal with
  | |- context [fold_left ?f ?rows db] =>
      destruct (fold_add_notification_frame apt_user_id "appointment"
                  "Doctor Leave Notice" rows db) as (Ha & Hs & _)
  end.
  cbv zeta in Ha, Hs. rewrite Ha, Hs.
  repeat split. intros s Hin.
  apply in_map_iff in Hin as (x & <- & Hx). exists x. split; [exact Hx|].
  destruct (_ && _); reflexivity.
Qed.

Section SlotCreationFacts.

Variable strptime_HM : string -> option time.
Variable weekday_name : date -> string.

(** The slots that [create_time_slots] adds are not booked. *)
Lemma create_slots_for_day_unbooked committed doctor day time_slots :
  forall pending created pending' created',
  create_slots_for_day strptime_HM committed doctor day time_slots pending created
    = Ok (pending', created') ->
  Forall (fun s => is_booked s = false) pending ->
  Forall (fun s => is_booked s = false) pending'.
Proof.
  induction time_slots as [|slot rest IH]; intros pending created pending' created';
    cbn [create_slots_for_day].
  - intros H. injection H as <- <-. tauto.
  - destruct (slot_time strptime_HM slot "start"); [|discriminate].
    destruct (slot_time strptime_HM slot "end"); [|discriminate].
    destruct (slot_exists committed doctor day _).
    + apply IH.
    + intros H Hp. apply (IH _ _ _ _ H).
      apply Forall_app. split; [exact Hp|]. constructor; [reflexivity|constructor].
Qed.

Lemma create_slots_over_unbooked committed doctor time_slots days skip_dates dates :
  forall pending created pending' created',
  create_slots_over strptime_HM weekday_name committed doctor dates time_slots
    days skip_dates pending created = Ok (pending', created') ->
  Forall (fun s => is_booked s = false) pending ->
  Forall (fun s => is_booked s = false) pending'.
Proof.
  induction dates as [|d later IH]; intros pending created pending' created';
    cbn [create_slots_over].
  - intros H. injection H as <- <-. tauto.
  - destruct (_ && _); [|apply IH].
    destruct (create_slots_for_day _ _ _ _ _ _ _) as [[p c]|e] eqn:Hday;
      [|discriminate].
    intros H Hp. apply (IH _ _ _ _ H).
    exact (create_slots_for_day_unbooked _ _ _ _ _ _ _ _ Hday Hp).
Qed.

Lemma create_slots_batch_frame db request current_user :
  let r := create_slots_batch strptime_HM weekday_name db request current_user in
  tasks r = [] /\
  appointments (store r) = appointments db /\
  forall s, In s (slots (store r)) ->
    In s (slots db) \/ is_booked s = false.
Proof.
  intros r. subst r. unfold create_slots_batch.
  destruct (first _ (doctors db)) as [doctor|]; [|cbn; tauto].
  unfold create_time_slots.
  destruct (create_slots_over _ _ _ _ _ _ _ _ _ _) as [[pending n]|e] eqn:Hover;
    [|cbn; tauto].
  destruct (_ && _); [cbn; tauto|].
  cbn. repeat split. intros s Hs. apply in_app_or in Hs as [Hs | Hs]; [tauto|].
  right.
  pose proof (create_slots_over_unbooked _ _ _ _ _ _ _ _ _ _ Hover
                (Forall_nil _)) as Hall.
  rewrite Forall_forall in Hall. exact (Hall s Hs).
Qed.

End SlotCreationFacts.



(* ------------------------------------------------------------------ *)
(** *** Booking: the claims *)



(** C6. A pay-at-clinic booking that passes every validation creates no
    payment record, but no appointment either: the handler answers 500
    "Booking failed" at the [Appointment] constructor and leaves the store
    as it was, so nothing is confirmed.  Completion creates no payment
    record and credits no wallet either. *)
Theorem pay_at_clinic_booking db request now rand gateway user doctor slot :
  req_payment_method request = PAY_AT_CLINIC ->
  booking_validations db request now = Ok (user, doctor, slot) ->
  let r := book_appointment db request now rand gateway in
  r = abort db (HTTP (Booking_failed TypeError)) /\
  payments (serve r) = payments db /\
  appointments (serve r) = appointments db /\
  forall db1 current_user appointment_id diagnosis prescription,
    let c := complete_appointment db1 current_user appointment_id diagnosis
               prescription in
    payments (serve c) = payments db1 /\ wallets (serve c) = wallets db1.
Proof.
  intros Hmethod Hval r. subst r.
  rewrite book_appointment_serve, book_appointment_reply, Hval.
  repeat split.
  all: destruct (complete_appointment_ledger db1 current_user appointment_id
                   diagnosis prescription) as (Hw & _ & Hp & Ht);
    cbv zeta in Hw, Hp, Ht; rewrite (serve_no_tasks _ Ht); assumption.
Qed.

Lemma pay_at_clinic_booking_witness :
  book_appointment (Scenario.clinic 1000) (Scenario.book PAY_AT_CLINIC 100)
    (Scenario.minutes_before 2880) 382913 None
  = abort (Scenario.clinic 1000) (HTTP (Booking_failed TypeError)).
Proof.
  exact (proj1 (pay_at_clinic_booking (Scenario.clinic 1000)
                  (Scenario.book PAY_AT_CLINIC 100)
                  (Scenario.minutes_before 2880) 382913 None
                  Scenario.patient (Scenario.rao 1000) Scenario.free_slot
                  eq_refl eq_refl)).
Defined.

(** C8, as the code has it. With twenty or more appointments of the doctor
    on the requested date in status confirmed or payment_pending the booking
    is refused and the store left as it was; the refusal is the error of the
    first failing earlier validation (user, doctor, slot found, free and
    matching, lead time) and the capacity error when they all pass; with
    fewer than twenty such appointments the capacity check lets the result
    of the earlier validations through and the capacity error is never
    raised. *)
Theorem daily_capacity_guard db request now rand gateway :
  let n := count (counts_for_day (req_doctor_id request) (req_date request))
             (appointments db) in
  let r := book_appointment db request now rand gateway in
  (max_daily_appointments <= n ->
   r = abort db
         match slot_validations db request now with
         | Raise e => e
         | Ok _ => HTTP Doctor_reached_maximum_appointments
         end) /\
  (max_daily_appointments <= n ->
   forall user doctor slot,
     first (fun u => user_id u =? req_user_id request) (users db) = Some user ->
     first (fun d => (doctor_id d =? req_doctor_id request) && is_available d)
       (doctors db) = Some doctor ->
     first (fun s => slot_id s =? req_slot_id request) (slots db) = Some slot ->
     is_booked slot = false ->
     slot_doctor_id slot = req_doctor_id request ->
     slot_date slot = req_date request ->
     now 0%nat < datetime_combine (req_date request) (start_time slot) ->
     timedelta_hours 1
       <= datetime_combine (req_date request) (start_time slot) - now 1%nat ->
     r = abort db (HTTP Doctor_reached_maximum_appointments)) /\
  (n < max_daily_appointments ->
   booking_validations db request now = slot_validations db request now /\
   outcome r <> Raise (HTTP Doctor_reached_maximum_appointments)).
Proof.
  intros n r. subst n r.
  rewrite book_appointment_reply, booking_validations_capacity.
  split; [|split].
  - intros Hfull. apply Z.leb_le in Hfull. rewrite Hfull.
    destruct (slot_validations db request now); reflexivity.
  - intros Hfull user doctor slot Hu Hd Hs Hfree Hdoc Hdate Hfuture Hlead.
    rewrite (slot_validations_pass db request now user doctor slot)
      by assumption.
    apply Z.leb_le in Hfull. rewrite Hfull. reflexivity.
  - intros Hroom. apply Z.leb_gt in Hroom. rewrite Hroom.
    destruct (slot_validations db request now) as [found|e] eqn:Hval.
    + split; [reflexivity | discriminate].
    + split; [reflexivity|]. cbn. intros H. injection H as ->.
      revert Hval. unfold slot_validations.
      repeat (step_validation; try discriminate).
Qed.

Lemma daily_capacity_guard_witness :
  book_appointment (Scenario.busy_day "confirmed")
    (Scenario.book PAY_AT_CLINIC 100) (Scenario.minutes_before 2880) 382913 None
  = abort (Scenario.busy_day "confirmed")
      (HTTP Doctor_reached_maximum_appointments) /\
  booking_validations (Scenario.clinic 1000) (Scenario.book PAY_AT_CLINIC 100)
    (Scenario.minutes_before 2880)
  = Ok (Scenario.patient, Scenario.rao 1000, Scenario.free_slot).
Proof.
  split.
  - refine (proj1 (proj2 (daily_capacity_guard (Scenario.busy_day "confirmed")
                            (Scenario.book PAY_AT_CLINIC 100)
                            (Scenario.minutes_before 2880) 382913 None))
              _ Scenario.patient (Scenario.rao 1000) Scenario.free_slot
              eq_refl eq_refl eq_refl eq_refl eq_refl eq_refl _ _).
    + vm_compute. discriminate.
    + vm_compute. reflexivity.
    + vm_compute. discriminate.
  - refine (eq_trans
              (proj1 (proj2 (proj2 (daily_capacity_guard (Scenario.clinic 1000)
                                      (Scenario.book PAY_AT_CLINIC 100)
                                      (Scenario.minutes_before 2880) 382913 None))
                        _)) _).
    + vm_compute. reflexivity.
    + vm_compute. reflexivity.
Defined.

(** C8, as stated, fails.  With twenty appointments of the doctor on the
    date, none of them cancelled (all completed), the capacity check lets a
    further request through, and the answer it gets is not the capacity
    error; and with twenty confirmed appointments a request for a slot that
    is already booked gets the error of that validation, not the capacity
    error. *)
Lemma completed_appointments_do_not_count :
  count (fun a => (apt_doctor_id a =? 10) && (apt_date a =? Scenario.day)
                  && negb (String.eqb (apt_status a) "cancelled"))
    (appointments (Scenario.busy_day "completed")) = 20 /\
  booking_validations (Scenario.busy_day "completed")
    (Scenario.book PAY_AT_CLINIC 100) (Scenario.minutes_before 2880)
  = Ok (Scenario.patient, Scenario.rao 1000, Scenario.free_slot) /\
  outcome (book_appointment (Scenario.busy_day "completed")
             (Scenario.book PAY_AT_CLINIC 100) (Scenario.minutes_before 2880)
             382913 None)
  = Raise (HTTP (Booking_failed TypeError)) /\
  count (counts_for_day 10 Scenario.day) (appointments Scenario.full_day) = 20 /\
  outcome (book_appointment Scenario.full_day
             (Scenario.book PAY_AT_CLINIC 100) (Scenario.minutes_before 2880)
             382913 None)
  = Raise (HTTP Slot_already_booked).
Proof. repeat split; vm_compute; reflexivity. Qed.

(** C9. With the slot's start less than 60 minutes after either clock
    reading of the booking call (in particular in the past), the booking is
    refused and the store is left as it was; with the start 60 minutes or
    more ahead, neither lead-time error is raised and, all other
    preconditions holding, every validation passes.  The booking is not
    accepted, though: the handler then answers 500 "Booking failed" at the
    [Appointment] constructor, and the store is left as it was. *)
Theorem lead_time_boundary db request now rand gateway slot :
  first (fun s => slot_id s =? req_slot_id request) (slots db) = Some slot ->
  now 0%nat <= now 1%nat ->
  let start := datetime_combine (req_date request) (start_time slot) in
  let r := book_appointment db request now rand gateway in
  (start - now 0%nat < timedelta_minutes 60 \/
   start - now 1%nat < timedelta_minutes 60 ->
   exists e, r = abort db e) /\
  (timedelta_minutes 60 <= start - now 1%nat ->
   outcome r <> Raise (HTTP Cannot_book_in_the_past) /\
   outcome r <> Raise (HTTP Cannot_book_within_minimum_time) /\
   forall user doctor,
     first (fun u => user_id u =? req_user_id request) (users db) = Some user ->
     first (fun d => (doctor_id d =? req_doctor_id request) && is_available d)
       (doctors db) = Some doctor ->
     is_booked slot = false ->
     slot_doctor_id slot = req_doctor_id request ->
     slot_date slot = req_date request ->
     count (counts_for_day (req_doctor_id request) (req_date request))
       (appointments db) < max_daily_appointments ->
     booking_validations db request now = Ok (user, doctor, slot) /\
     r = abort db (HTTP (Booking_failed TypeError))).
Proof.
  intros Hslot Hclock start r. subst start r.
  assert (Hh : timedelta_minutes 60 = timedelta_hours 1) by reflexivity.
  split.
  - intros Hlate.
    destruct (validations_lead_time db request now slot Hslot) as [e He].
    { rewrite <- Hh. unfold timedelta_minutes in *. lia. }
    exists e. rewrite book_appointment_reply, He. reflexivity.
  - intros Hlead. rewrite Hh in Hlead.
    destruct (validations_above_lead_time db request now slot Hslot Hclock Hlead)
      as [Hpast Hmin].
    split; [|split].
    + intros H. apply book_appointment_raise_inv in H as [H | H];
        [exact (Hpast H) | discriminate].
    + intros H. apply book_appointment_raise_inv in H as [H | H];
        [exact (Hmin H) | discriminate].
    + intros user doctor Hu Hd Hfree Hdoc Hdate Hroom.
      assert (Hval : booking_validations db request now = Ok (user, doctor, slot)).
      { rewrite booking_validations_capacity.
        rewrite (slot_validations_pass db request now user doctor slot)
          by (try assumption; unfold timedelta_hours in *; lia).
        apply Z.leb_gt in Hroom. rewrite Hroom. reflexivity. }
      split; [exact Hval|].
      rewrite book_appointment_reply, Hval. reflexivity.
Qed.

(** The boundary of the claim: 59 minutes ahead is refused by the lead-time
    check, 61 minutes ahead passes the validations and is refused with
    500. *)
Lemma lead_time_boundary_witness :
  (exists e,
     book_appointment (Scenario.clinic 1000) (Scenario.book ADVANCE 100)
       (Scenario.minutes_before 59) 382913 None
     = abort (Scenario.clinic 1000) e) /\
  book_appointment (Scenario.clinic 1000) (Scenario.book ADVANCE 100)
    (Scenario.minutes_before 61) 382913 None
  = abort (Scenario.clinic 1000) (HTTP (Booking_failed TypeError)).
Proof.
  split.
  - refine (proj1 (lead_time_boundary (Scenario.clinic 1000)
                     (Scenario.book ADVANCE 100) (Scenario.minutes_before 59)
                     382913 None Scenario.free_slot eq_refl _) _).
    + vm_compute. discriminate.
    + left. vm_compute. reflexivity.
  - refine (proj2 (proj2 (proj2 (proj2
              (lead_time_boundary (Scenario.clinic 1000)
                 (Scenario.book ADVANCE 100) (Scenario.minutes_before 61)
                 382913 None Scenario.free_slot eq_refl _) _))
              Scenario.patient (Scenario.rao 1000)
              eq_refl eq_refl eq_refl eq_refl eq_refl _)).
    + vm_compute. discriminate.
    + vm_compute. discriminate.
    + vm_compute. reflexivity.
Defined.

(** 59 minutes ahead the booking is refused by the lead-time check; 61 and
    60 minutes ahead it is refused with 500 at the constructor. *)
Example lead_time_59_61 :
  outcome (book_appointment (Scenario.clinic 1000) (Scenario.book ADVANCE 100)
             (Scenario.minutes_before 59) 382913 None)
    = Raise (HTTP Cannot_book_within_minimum_time) /\
  outcome (book_appointment (Scenario.clinic 1000) (Scenario.book ADVANCE 100)
             (Scenario.minutes_before 61) 382913 None)
    = Raise (HTTP (Booking_failed TypeError)) /\
  outcome (book_appointment (Scenario.clinic 1000) (Scenario.book ADVANCE 100)
             (Scenario.minutes_before 60) 382913 None)
    = Raise (HTTP (Booking_failed TypeError)).
Proof. repeat split; vm_compute; reflexivity. Qed.

(* ------------------------------------------------------------------ *)
(** *** Settlement: the claims *)

(** C1. Settling again a payment that is already paid is not a no-op that
    reports success.  Whenever the appointment and its payment record
    exist (whatever the status of the record), the client's verification
    reads [PaymentStatus.PAID], which the enumeration does not have, and
    answers 500 "Payment verification failed"; the gateway's
    [payment.captured] event for the order of a payment record fails on the
    same read and is answered with 500.  Neither call writes anything or
    enqueues the wallet credit; and the credit itself, whenever it runs, is
    refused at its commit, so the wallet is never credited. *)
Theorem settlement_of_a_paid_record_fails
    hmac key_secret webhook_secret db request current_user now appointment
    payment body signature payment_id order_id ordered :
  verify_razorpay_signature hmac key_secret (vr_razorpay_order_id request)
    (vr_razorpay_payment_id request) (vr_razorpay_signature request) = Ok true ->
  first (appointment_of_user (vr_order_id request) current_user) (appointments db)
    = Some appointment ->
  first (payment_of_appointment (vr_order_id request)) (payments db)
    = Some payment ->
  has_nul (vr_order_id request) = false ->
  compare_digest (hmac webhook_secret body) signature = Ok true ->
  has_nul order_id = false ->
  first (payment_with_order (Some order_id)) (payments db) = Some ordered ->
  let v := verify_payment hmac key_secret db request current_user now in
  let w := razorpay_webhook hmac webhook_secret db
             {| wh_body := body; wh_signature := Some signature;
                wh_data :=
                  Some (gateway_event "payment.captured" payment_id order_id) |}
             now in
  v = abort db (HTTP (Payment_verification_failed AttributeError)) /\
  w = abort db (Py AttributeError) /\
  serve v = db /\ serve w = db /\
  forall db1 doctor amount appointment_id,
    credit_doctor_wallet db1 doctor amount appointment_id = Raise (Py SQLError).
Proof.
  intros Hsig Ha Hp Hn Hwsig Hnul Ho v w. subst v w.
  rewrite (verify_payment_of_a_record _ _ _ _ _ _ _ _ Hsig Ha Hp Hn).
  rewrite (razorpay_webhook_captured _ _ _ _ _ _ _ _ _ Hwsig Hnul Ho).
  repeat split. intros. apply credit_doctor_wallet_raises.
Qed.

Lemma settlement_of_a_paid_record_fails_witness :
  Scenario.verify (Scenario.settled "paid")
    = abort (Scenario.settled "paid")
        (HTTP (Payment_verification_failed AttributeError)) /\
  Scenario.webhook "payment.captured" (Scenario.settled "paid")
    = abort (Scenario.settled "paid") (Py AttributeError).
Proof.
  pose proof (settlement_of_a_paid_record_fails
                Scenario.hmac Scenario.key_secret Scenario.webhook_secret
                (Scenario.settled "paid") Scenario.verify_request 1
                Scenario.two_days_before (Scenario.appointment "confirmed")
                (Scenario.payment "paid")
                (Scenario.event_text "payment.captured")
                (Scenario.hmac Scenario.webhook_secret
                   (Scenario.event_text "payment.captured"))
                (J_string "pay_N1") "order_N1" (Scenario.payment "paid")
                eq_refl eq_refl eq_refl eq_refl eq_refl eq_refl eq_refl) as H.
  cbv zeta in H. destruct H as (Hv & Hw & _).
  split; [exact Hv | exact Hw].
Defined.

(** C5. A refund never succeeds.  Whenever the appointment and its payment
    record exist (whatever their status and however far away the
    appointment is), the handler reads [PaymentStatus.PAID], which the
    enumeration does not have: the exception escapes, the answer is 500,
    nothing is written and no debit is enqueued, so the payment does not
    become refunded and the appointment is not cancelled.  The debit on its
    own raises the insufficient-balance error when the wallet holds less
    than the amount, and it leaves the store as it was in every case (with
    enough balance it is refused at its commit). *)
Theorem refund_is_refused
    db request current_user now gateway appointment payment :
  5 <= len (rf_reason request) <= 200 ->
  has_nul (rf_order_id request) = false ->
  first (appointment_of_user (rf_order_id request) current_user) (appointments db)
    = Some appointment ->
  first (payment_of_appointment (rf_order_id request)) (payments db)
    = Some payment ->
  let r := initiate_refund db request current_user now gateway in
  r = abort db (Py AttributeError) /\
  serve r = db /\
  (forall db1 doctor amount appointment_id reason wallet,
     first (wallet_of_doctor doctor) (wallets db1) = Some wallet ->
     current_balance wallet < amount ->
     run_background db1
       [Task_debit_doctor_wallet doctor amount appointment_id reason]
     = (db1, Some (HTTP (Insufficient_wallet_balance (current_balance wallet))))) /\
  (forall db1 doctor amount appointment_id reason,
     exists e,
       run_background db1
         [Task_debit_doctor_wallet doctor amount appointment_id reason]
       = (db1, Some e)).
Proof.
  intros Hlen Hn Ha Hp r. subst r. rewrite initiate_refund_reply, Hn, Ha, Hp.
  replace ((len (rf_reason request) <? 5) || (200 <? len (rf_reason request)))
    with false
    by (symmetry; apply orb_false_iff; split; apply Z.ltb_ge; lia).
  repeat split.
  - intros db1 doctor amount appointment_id reason wallet Hw Hlow.
    cbn [run_background run_task]. rewrite debit_doctor_wallet_reply, Hw.
    apply Z.ltb_lt in Hlow. rewrite Hlow. reflexivity.
  - intros db1 doctor amount appointment_id reason.
    cbn [run_background run_task]. rewrite debit_doctor_wallet_reply.
    eexists. reflexivity.
Qed.

Lemma refund_is_refused_witness :
  Scenario.refund (Scenario.settled "paid")
    = abort (Scenario.settled "paid") (Py AttributeError) /\
  run_background (Scenario.settled "paid")
    [Task_debit_doctor_wallet 10 801 "APT482913" "Travelling"]
  = (Scenario.settled "paid", Some (HTTP (Insufficient_wallet_balance 800))).
Proof.
  pose proof (refund_is_refused (Scenario.settled "paid")
                Scenario.refund_request 1 Scenario.two_days_before
                (Refund_created "rfnd_N1") (Scenario.appointment "confirmed")
                (Scenario.payment "paid")) as H.
  cbv zeta in H. destruct H as (Hr & _ & Hd & _).
  - vm_compute. split; discriminate.
  - reflexivity.
  - reflexivity.
  - reflexivity.
  - split; [exact Hr|].
    apply (Hd (Scenario.settled "paid") 10 801 "APT482913" "Travelling"
              (Scenario.wallet 800) eq_refl).
    vm_compute. reflexivity.
Defined.

(** C7. The status of a payment record does regress.  The gateway's
    [payment.failed] event sets the status of the record of its order to
    [failed] without looking at the current status: a record that is paid
    or refunded becomes failed. *)
Theorem payment_status_regresses
    hmac webhook_secret db body signature payment_id order_id payment now :
  compare_digest (hmac webhook_secret body) signature = Ok true ->
  has_nul order_id = false ->
  first (payment_with_order (Some order_id)) (payments db) = Some payment ->
  let r := razorpay_webhook hmac webhook_secret db
             {| wh_body := body; wh_signature := Some signature;
                wh_data :=
                  Some (gateway_event "payment.failed" payment_id order_id) |}
             now in
  r = reply
        (set_payments db
           (update_first (payment_with_order (Some order_id))
              (set_payment_status "failed") (payments db)))
        (Ok tt) [] /\
  first (payment_with_order (Some order_id)) (payments (serve r))
    = Some (set_payment_status "failed" payment).
Proof.
  intros Hsig Hnul Hp r. subst r.
  rewrite (razorpay_webhook_failed _ _ _ _ _ _ _ _ _ Hsig Hnul Hp).
  split; [reflexivity|].
  cbn [serve run_background store tasks reply fst set_payments payments].
  apply (first_update_first _ _ _ _ Hp).
  exact (proj2 (first_some _ _ _ Hp)).
Qed.

Lemma payment_status_regresses_witness :
  payments (serve (Scenario.webhook "payment.failed" (Scenario.settled "paid")))
    = [Scenario.payment "failed"] /\
  payments (serve (Scenario.webhook "payment.failed" (Scenario.settled "refunded")))
    = [Scenario.payment "failed"].
Proof.
  pose proof (payment_status_regresses
                Scenario.hmac Scenario.webhook_secret (Scenario.settled "paid")
                (Scenario.event_text "payment.failed")
                (Scenario.hmac Scenario.webhook_secret
                   (Scenario.event_text "payment.failed"))
                (J_string "pay_N1") "order_N1" (Scenario.payment "paid")
                Scenario.two_days_before eq_refl eq_refl eq_refl) as Hpaid.
  pose proof (payment_status_regresses
                Scenario.hmac Scenario.webhook_secret
                (Scenario.settled "refunded")
                (Scenario.event_text "payment.failed")
                (Scenario.hmac Scenario.webhook_secret
                   (Scenario.event_text "payment.failed"))
                (J_string "pay_N1") "order_N1" (Scenario.payment "refunded")
                Scenario.two_days_before eq_refl eq_refl eq_refl) as Hrefunded.
  cbv zeta in Hpaid, Hrefunded.
  destruct Hpaid as [Hpaid _]. destruct Hrefunded as [Hrefunded _].
  unfold Scenario.webhook, Scenario.webhook_request, Scenario.event_document.
  rewrite Hpaid, Hrefunded. split; reflexivity.
Defined.

(* ================================================================== *)
(** * Further properties *)
(* ================================================================== *)

(* ------------------------------------------------------------------ *)
(** *** More on rows and queries *)

Lemma first_app {A} (p : A -> bool) rows more :
  first p (rows ++ more) =
  match first p rows with Some x => Some x | None => first p more end.
Proof.
  unfold first. induction rows as [|r rest IH]; cbn; [reflexivity|].
  destruct (p r); [reflexivity | apply IH].
Qed.

Lemma filter_none {A} (p : A -> bool) rows :
  (forall x, p x = false) -> filter p rows = [].
Proof.
  intros H. induction rows as [|r rest IH]; cbn; [reflexivity|].
  rewrite H. exact IH.
Qed.

Lemma first_weaker_after_update {A} (p q : A -> bool) f rows x :
  first p rows = Some x ->
  q (f x) = true ->
  exists y, first q (update_first p f rows) = Some y /\ (y = f x \/ p y = false).
Proof.
  unfold first. intros Hx Hq. induction rows as [|r rest IH]; cbn in *; [discriminate|].
  destruct (p r) eqn:Hp.
  - injection Hx as <-. cbn. rewrite Hq. eauto.
  - cbn. destruct (q r) eqn:Hqr; [eauto|]. apply IH, Hx.
Qed.

(* ------------------------------------------------------------------ *)
(** *** Time preference and slot listing *)

(** X1. The three named time preferences keep exactly the slots that start
    in their window of hours: morning 6 to 12, afternoon 12 to 17, evening
    17 to 22 (the upper hour excluded). *)
Theorem time_preference_windows slots_ s :
  (In s (filter_slots_by_time_preference slots_ (Some "morning")) <->
   In s slots_ /\ 6 <= time_hour (start_time s) < 12) /\
  (In s (filter_slots_by_time_preference slots_ (Some "afternoon")) <->
   In s slots_ /\ 12 <= time_hour (start_time s) < 17) /\
  (In s (filter_slots_by_time_preference slots_ (Some "evening")) <->
   In s slots_ /\ 17 <= time_hour (start_time s) < 22).
Proof.
  unfold filter_slots_by_time_preference.
  cbn [String.eqb Ascii.eqb Bool.eqb orb andb].
  rewrite !filter_In. set (h := time_hour (start_time s)).
  destruct (Z.leb_spec 6 h), (Z.ltb_spec h 12), (Z.leb_spec 12 h),
    (Z.ltb_spec h 17), (Z.leb_spec 17 h), (Z.ltb_spec h 22); cbn;
    intuition (try lia; try discriminate).
Qed.

(** X2. A preference that is none of the three names and not [any] keeps no
    slot; no preference, the empty one and [any] keep them all. *)
Theorem time_preference_other_values slots_ preference :
  preference <> EmptyString -> preference <> "any" ->
  preference <> "morning" -> preference <> "afternoon" ->
  preference <> "evening" ->
  filter_slots_by_time_preference slots_ (Some preference) = [] /\
  filter_slots_by_time_preference slots_ None = slots_ /\
  filter_slots_by_time_preference slots_ (Some EmptyString) = slots_ /\
  filter_slots_by_time_preference slots_ (Some "any") = slots_.
Proof.
  intros He Ha Hm Hn Hv. split; [|repeat split].
  unfold filter_slots_by_time_preference.
  apply String.eqb_neq in He, Ha, Hm, Hn, Hv. rewrite He, Ha, Hm, Hn, Hv.
  cbn. apply filter_none. reflexivity.
Qed.

Lemma time_preference_other_values_witness :
  filter_slots_by_time_preference
    [Scenario.free_slot; Scenario.blocked_slot] (Some "night") = [].
Proof.
  refine (proj1 (time_preference_other_values
                   [Scenario.free_slot; Scenario.blocked_slot] "night"
                   _ _ _ _ _)); discriminate.
Defined.

Lemma filter_slots_by_time_preference_incl slots_ preference s :
  In s (filter_slots_by_time_preference slots_ preference) -> In s slots_.
Proof.
  unfold filter_slots_by_time_preference. destruct preference as [p|]; [|tauto].
  destruct (_ || _); [tauto|]. intros H. apply filter_In in H. tauto.
Qed.

Lemma insert_by_start_time_perm s rows :
  Permutation (insert_by_start_time s rows) (s :: rows).
Proof.
  induction rows as [|x rest IH]; cbn; [reflexivity|].
  destruct (start_time s <? start_time x); [reflexivity|].
  rewrite IH. apply perm_swap.
Qed.

Lemma order_by_start_time_perm rows : Permutation (order_by_start_time rows) rows.
Proof.
  induction rows as [|x rest IH]; cbn; [reflexivity|].
  rewrite insert_by_start_time_perm. apply perm_skip, IH.
Qed.

Lemma insert_by_start_time_sorted s rows :
  StronglySorted starts_no_later rows ->
  StronglySorted starts_no_later (insert_by_start_time s rows).
Proof.
  induction 1 as [|x rest Hrest IH Hx]; cbn; [repeat constructor|].
  destruct (Z.ltb_spec (start_time s) (start_time x)).
  - constructor; [constructor; assumption|].
    constructor; [unfold starts_no_later; lia|].
    eapply Forall_impl; [|exact Hx]. unfold starts_no_later. intros; lia.
  - constructor; [exact IH|].
    eapply Permutation_Forall;
      [symmetry; apply insert_by_start_time_perm|].
    constructor; [unfold starts_no_later; lia | exact Hx].
Qed.

Lemma order_by_start_time_sorted rows :
  StronglySorted starts_no_later (order_by_start_time rows).
Proof.
  induction rows as [|x rest IH]; cbn; [constructor|].
  apply insert_by_start_time_sorted, IH.
Qed.

Lemma StronglySorted_filter {A} (R : A -> A -> Prop) p rows :
  StronglySorted R rows -> StronglySorted R (filter p rows).
Proof.
  induction 1 as [|x rest Hrest IH Hx]; cbn; [constructor|].
  destruct (p x); [|exact IH]. constructor; [exact IH|].
  apply Forall_forall. intros y Hy. apply filter_In in Hy as [Hy _].
  exact (proj1 (Forall_forall _ _) Hx y Hy).
Qed.

Lemma time_preference_sorted slots_ preference :
  StronglySorted starts_no_later slots_ ->
  StronglySorted starts_no_later
    (filter_slots_by_time_preference slots_ preference).
Proof.
  intros H. unfold filter_slots_by_time_preference.
  destruct preference as [p|]; [|exact H].
  destruct (_ || _); [exact H | apply StronglySorted_filter, H].
Qed.

(** X3. For a doctor that exists, the slot listing answers with slots of
    that doctor on the requested date that are not booked and, when the
    date is today, start after the current time; the listing is ordered by
    start time, and without a time preference it holds every such slot. *)
Theorem get_doctor_slots_lists_free_slots db doctor day time_preference now d :
  first (fun d => doctor_id d =? doctor) (doctors db) = Some d ->
  exists listing,
    get_doctor_slots db doctor day time_preference now = Ok listing /\
    StronglySorted starts_no_later listing /\
    (forall s, In s listing ->
       In s (slots db) /\ slot_doctor_id s = doctor /\ slot_date s = day /\
       is_booked s = false /\
       (day = datetime_date (now 0%nat) ->
        datetime_time (now 1%nat) < start_time s)) /\
    (time_preference = None ->
     Permutation listing (filter (listed_slot doctor day now) (slots db))).
Proof.
  intros Hd. unfold get_doctor_slots. rewrite Hd.
  set (base := order_by_start_time (filter (listed_slot doctor day now) (slots db))).
  assert (Hsorted : StronglySorted starts_no_later base)
    by apply order_by_start_time_sorted.
  assert (Hperm : Permutation base (filter (listed_slot doctor day now) (slots db)))
    by apply order_by_start_time_perm.
  assert (Hin : forall s, In s base ->
            In s (slots db) /\ slot_doctor_id s = doctor /\ slot_date s = day /\
            is_booked s = false /\
            (day = datetime_date (now 0%nat) ->
             datetime_time (now 1%nat) < start_time s)).
  { intros s Hs. apply (Permutation_in _ Hperm) in Hs.
    apply filter_In in Hs as [Hs Hl]. unfold listed_slot in Hl.
    apply andb_true_iff in Hl as [Hl Htime].
    apply andb_true_iff in Hl as [Hl Hfree].
    apply andb_true_iff in Hl as [Hdoc Hday].
    apply Z.eqb_eq in Hdoc, Hday. apply negb_true_iff in Hfree.
    repeat split; try assumption.
    intros ->. rewrite Z.eqb_refl in Htime. apply Z.ltb_lt, Htime. }
  eexists. split; [reflexivity|].
  destruct (truthy_string time_preference) eqn:Ht.
  - split; [apply time_preference_sorted, Hsorted|].
    split.
    + intros s Hs. apply Hin.
      exact (filter_slots_by_time_preference_incl _ _ _ Hs).
    + intros ->. discriminate.
  - split; [exact Hsorted|]. split; [exact Hin|]. intros _. exact Hperm.
Qed.

Lemma get_doctor_slots_lists_free_slots_witness :
  exists listing,
    get_doctor_slots (Scenario.clinic 1000) 10 Scenario.day (Some "morning")
      (Scenario.minutes_before 2880) = Ok listing /\
    StronglySorted starts_no_later listing.
Proof.
  destruct (get_doctor_slots_lists_free_slots (Scenario.clinic 1000) 10
              Scenario.day (Some "morning") (Scenario.minutes_before 2880) _
              eq_refl)
    as (listing & Hl & Hs & _).
  exists listing. split; assumption.
Defined.

(* ------------------------------------------------------------------ *)
(** *** The next available slot *)

Lemma earlier_slot_false a b :
  earlier_slot a b = false <->
  slot_date b < slot_date a \/
  (slot_date b = slot_date a /\ start_time b <= start_time a).
Proof.
  unfold earlier_slot.
  destruct (Z.ltb_spec (slot_date a) (slot_date b));
    destruct (Z.eqb_spec (slot_date a) (slot_date b));
    destruct (Z.ltb_spec (start_time a) (start_time b)); cbn; split;
      intros; try discriminate; try reflexivity; lia.
Qed.

Lemma earliest_slot_from rows :
  forall acc,
    match fold_left
            (fun best s =>
               match best with
               | None => Some s
               | Some b => if earlier_slot s b then Some s else Some b
               end)
            rows acc with
    | Some s =>
        (acc = Some s \/ In s rows) /\
        (forall t, acc = Some t \/ In t rows -> earlier_slot t s = false)
    | None => acc = None /\ rows = []
    end.
Proof.
  induction rows as [|r rest IH]; intros acc; cbn [fold_left].
  - destruct acc as [b|]; [|split; reflexivity].
    split; [left; reflexivity|].
    intros t [[= ->] | []]. apply earlier_slot_false. lia.
  - specialize (IH (match acc with
                    | None => Some r
                    | Some b => if earlier_slot r b then Some r else Some b
                    end)).
    destruct (fold_left _ rest _) as [s|].
    + destruct IH as [Hin Hmin]. split.
      * destruct Hin as [Hin | Hin]; [|right; right; exact Hin].
        destruct acc as [b|]; [destruct (earlier_slot r b)|];
          injection Hin as <-; [right; left; reflexivity | left; reflexivity
                               | right; left; reflexivity].
      * intros t [Ht | [<- | Ht]].
        -- subst acc. destruct (earlier_slot r t) eqn:Hrt.
           ++ pose proof (Hmin r (or_introl eq_refl)) as Hr.
              apply earlier_slot_false in Hr. apply earlier_slot_false.
              unfold earlier_slot in Hrt.
              destruct (Z.ltb_spec (slot_date r) (slot_date t));
                destruct (Z.eqb_spec (slot_date r) (slot_date t));
                destruct (Z.ltb_spec (start_time r) (start_time t));
                cbn in Hrt; try discriminate; lia.
           ++ exact (Hmin t (or_introl eq_refl)).
        -- destruct acc as [b|].
           ++ destruct (earlier_slot r b) eqn:Hrb.
              ** exact (Hmin r (or_introl eq_refl)).
              ** pose proof (Hmin b (or_introl eq_refl)) as Hb.
                 apply earlier_slot_false in Hb, Hrb. apply earlier_slot_false. lia.
           ++ exact (Hmin r (or_introl eq_refl)).
        -- exact (Hmin t (or_intror Ht)).
    + destruct IH as [Hacc _]. destruct acc as [b|];
        [destruct (earlier_slot r b)|]; discriminate.
Qed.

Lemma earliest_slot_spec rows :
  match earliest_slot rows with
  | Some s => In s rows /\ forall t, In t rows -> earlier_slot t s = false
  | None => rows = []
  end.
Proof.
  unfold earliest_slot. pose proof (earliest_slot_from rows None) as H.
  destruct (fold_left _ rows None) as [s|].
  - destruct H as [[Hs | Hs] Hmin]; [discriminate|].
    split; [exact Hs|]. intros t Ht. apply Hmin. right. exact Ht.
  - apply H.
Qed.

(** X4. The doctor's next available slot is set to the start of the earliest
    slot, by date and then by start time, among the doctor's unbooked slots
    from today on that the query sees, and to NULL when there is none. *)
Theorem next_available_slot_is_earliest_free visible db doctor now d :
  first (fun d => doctor_id d =? doctor) (doctors db) = Some d ->
  let db' := update_doctor_next_available_slot visible db doctor now in
  exists d',
    first (fun d => doctor_id d =? doctor) (doctors db') = Some d' /\
    match next_available_slot d' with
    | Some at_ =>
        exists s,
          free_from visible doctor (datetime_date now) s /\
          at_ = datetime_combine (slot_date s) (start_time s) /\
          forall t, free_from visible doctor (datetime_date now) t ->
            slot_date s < slot_date t \/
            (slot_date s = slot_date t /\ start_time s <= start_time t)
    | None => forall s, ~ free_from visible doctor (datetime_date now) s
    end.
Proof.
  intros Hd db'. subst db'. unfold update_doctor_next_available_slot, next_free_slot.
  pose proof (first_some _ _ _ Hd) as [_ Hkd].
  cbn [set_doctors doctors].
  rewrite (first_update_first _ _ _ _ Hd) by exact Hkd.
  eexists. split; [reflexivity|]. cbn [set_next_available next_available_slot].
  match goal with |- context [earliest_slot ?rows] =>
    pose proof (earliest_slot_spec rows) as H; destruct (earliest_slot rows) as [s|]
  end.
  - destruct H as [Hs Hmin]. apply filter_In in Hs as [Hs Hc].
    apply andb_prop in Hc as [Hc Hfree]. apply andb_prop in Hc as [Hdoc Hday].
    exists s. split; [|split; [reflexivity|]].
    + unfold free_from. split; [exact Hs|]. split; [lia|]. split; [lia|].
      destruct (is_booked s); [discriminate | reflexivity].
    + intros t (Ht & Htd & Htday & Htfree).
      apply earlier_slot_false. apply Hmin. apply filter_In. split; [exact Ht|].
      rewrite Htfree. cbn [negb]. rewrite !andb_true_r.
      apply andb_true_intro. split; lia.
  - intros s (Hs & Hsd & Hsday & Hsfree).
    assert (Hin : In s (filter (fun s => (slot_doctor_id s =? doctor)
                                          && (datetime_date now <=? slot_date s)
                                          && negb (is_booked s)) visible)).
    { apply filter_In. split; [exact Hs|]. rewrite Hsfree. cbn [negb].
      rewrite !andb_true_r. apply andb_true_intro. split; lia. }
    rewrite H in Hin. exact Hin.
Qed.

Lemma next_available_slot_is_earliest_free_witness :
  exists d',
    first (fun d => doctor_id d =? 10)
      (doctors (update_doctor_next_available_slot
                  (slots (Scenario.clinic 1000)) (Scenario.clinic 1000) 10
                  Scenario.two_days_before)) = Some d' /\
    match next_available_slot d' with
    | Some at_ =>
        exists s,
          free_from (slots (Scenario.clinic 1000)) 10
            (datetime_date Scenario.two_days_before) s /\
          at_ = datetime_combine (slot_date s) (start_time s) /\
          forall t,
            free_from (slots (Scenario.clinic 1000)) 10
              (datetime_date Scenario.two_days_before) t ->
            slot_date s < slot_date t \/
            (slot_date s = slot_date t /\ start_time s <= start_time t)
    | None =>
        forall s,
          ~ free_from (slots (Scenario.clinic 1000)) 10
              (datetime_date Scenario.two_days_before) s
    end.
Proof.
  exact (next_available_slot_is_earliest_free
           (slots (Scenario.clinic 1000)) (Scenario.clinic 1000) 10
           Scenario.two_days_before (Scenario.rao 1000) eq_refl).
Defined.

(* ------------------------------------------------------------------ *)
(** *** Booking identifiers and the fee split *)

Lemma to_int_not_nil z : Z.to_int z <> Decimal.Pos Decimal.Nil /\
                         Z.to_int z <> Decimal.Neg Decimal.Nil.
Proof.
  destruct z as [|p|p]; cbn.
  - split; discriminate.
  - split; [|discriminate]. intros H. injection H as H.
    pose proof (DecimalPos.Unsigned.to_uint_nonnil p) as Hn. contradiction.
  - split; [discriminate|]. intros H. injection H as H.
    pose proof (DecimalPos.Unsigned.to_uint_nonnil p) as Hn. contradiction.
Qed.

Lemma decimal_injective a b : decimal a = decimal b -> a = b.
Proof.
  unfold decimal. intros H.
  destruct (to_int_not_nil a) as [Ha1 Ha2]. destruct (to_int_not_nil b) as [Hb1 Hb2].
  pose proof (NilZero.isi _ Ha1 Ha2) as Ia. pose proof (NilZero.isi _ Hb1 Hb2) as Ib.
  rewrite H in Ia. rewrite Ia in Ib. injection Ib as Ib.
  apply DecimalZ.to_int_inj. exact Ib.
Qed.

(** X5. Two booking ids are equal exactly when the random draws behind them
    are: distinct draws give distinct ids. *)
Theorem generate_booking_id_injective rand rand' :
  generate_booking_id rand = generate_booking_id rand' <-> rand = rand'.
Proof.
  split; [|intros ->; reflexivity].
  unfold generate_booking_id. cbn [String.append].
  intros H. injection H as H. apply decimal_injective in H. lia.
Qed.

(** X6. The booking-time breakdown of a fee below [2^50]: the platform fee
    is the integer fifth of the total (the floor of 20 percent), the
    doctor's share is the rest, and the two add up to the total. *)
Theorem booking_breakdown_is_exact total :
  0 <= total < 2 ^ 50 ->
  bd_total_amount (calculate_payment_breakdown total) = total /\
  bd_platform_fee (calculate_payment_breakdown total) = total / 5 /\
  bd_doctor_share (calculate_payment_breakdown total) = total - total / 5 /\
  bd_platform_fee (calculate_payment_breakdown total)
    + bd_doctor_share (calculate_payment_breakdown total) = total.
Proof.
  intros H. split; [reflexivity|]. apply calculate_payment_breakdown_exact, H.
Qed.

Lemma booking_breakdown_is_exact_witness :
  bd_platform_fee (calculate_payment_breakdown 999) = 199 /\
  bd_doctor_share (calculate_payment_breakdown 999) = 800.
Proof.
  destruct (booking_breakdown_is_exact 999) as (_ & Hp & Hd & _); [lia|].
  rewrite Hp, Hd. split; reflexivity.
Defined.

(** X7. The split computed by payment-order creation for an amount below
    [2^50]: both parts are rounded down separately, so they add up to the
    amount when it is a multiple of five and fall one rupee short of it
    otherwise. *)
Theorem payment_order_split_shortfall amount :
  0 <= amount < 2 ^ 50 ->
  bd_platform_fee (payment_order_split amount) = amount / 5 /\
  bd_doctor_share (payment_order_split amount) = (4 * amount) / 5 /\
  bd_platform_fee (payment_order_split amount)
    + bd_doctor_share (payment_order_split amount)
  = if amount mod 5 =? 0 then amount else amount - 1.
Proof.
  intros H. destruct (payment_order_split_value amount H) as [Hp Hd].
  split; [exact Hp|]. split; [exact Hd|]. apply payment_order_split_sum, H.
Qed.

Lemma payment_order_split_shortfall_witness :
  bd_platform_fee (payment_order_split 999)
    + bd_doctor_share (payment_order_split 999) = 998.
Proof.
  destruct (payment_order_split_shortfall 999) as (_ & _ & Hs); [lia|].
  rewrite Hs. reflexivity.
Defined.

(* ------------------------------------------------------------------ *)
(** *** The handlers, one by one *)

(** X8. No booking request is answered with success and none changes the
    store: the store after the request and its background tasks is the
    store before it, and no task is enqueued. *)
Theorem book_appointment_writes_nothing db request now rand gateway :
  let r := book_appointment db request now rand gateway in
  serve r = db /\ store r = db /\ tasks r = [] /\
  forall resp, outcome r <> Ok resp.
Proof.
  intros r. subst r. rewrite book_appointment_serve, book_appointment_reply.
  repeat split. intros resp H. discriminate.
Qed.

(** X9. The wallet credit and the refund debit, run as background tasks,
    never commit: the credit is refused at its commit, the debit raises for
    a missing wallet or a balance below the amount and is refused at its
    commit otherwise; the store stays as it was. *)
Theorem ledger_tasks_never_commit db doctor amount appointment reason :
  run_background db [Task_credit_doctor_wallet doctor amount appointment]
    = (db, Some (Py SQLError)) /\
  run_background db [Task_debit_doctor_wallet doctor amount appointment reason]
    = (db,
       Some
         match first (wallet_of_doctor doctor) (wallets db) with
         | None => HTTP Doctor_wallet_not_found
         | Some wallet =>
           if current_balance wallet <? amount
           then HTTP (Insufficient_wallet_balance (current_balance wallet))
           else Py SQLError
         end).
Proof.
  cbn [run_background run_task].
  rewrite credit_doctor_wallet_raises, debit_doctor_wallet_reply.
  split; reflexivity.
Qed.

(** X10. A withdrawal is never paid out.  Below 500 rupees it is refused with
    the minimum-amount error, above the balance with the insufficient-balance
    error that quotes the balance, and a withdrawal that passes both checks
    is refused at the commit, because its transaction has no [doctor_id];
    the store stays as it was in each case. *)
Theorem withdraw_earnings_is_refused
    db current_user amount bank_account doctor wallet :
  100 <= amount ->
  first (fun d => doctor_user_id d =? current_user) (doctors db) = Some doctor ->
  first (wallet_of_doctor (doctor_id doctor)) (wallets db) = Some wallet ->
  withdraw_earnings db current_user amount bank_account =
  abort db
    (if amount <? 500 then HTTP Minimum_withdrawal_amount
     else if current_balance wallet <? amount
     then HTTP (Insufficient_balance (current_balance wallet))
     else Py SQLError).
Proof.
  intros Hmin Hd Hw. rewrite withdraw_earnings_reply, Hd, Hw.
  apply Z.ltb_ge in Hmin. rewrite Hmin. reflexivity.
Qed.

Lemma withdraw_earnings_is_refused_witness :
  withdraw_earnings (Scenario.settled "paid") 2 500 "000123456789"
  = abort (Scenario.settled "paid") (Py SQLError).
Proof.
  exact (withdraw_earnings_is_refused (Scenario.settled "paid") 2 500
           "000123456789" (Scenario.rao 1000) (Scenario.wallet 800)
           ltac:(lia) eq_refl eq_refl).
Defined.

(** X11. A verification whose signature does not match: when the signature
    sent is ASCII the handler commits an audit row and answers 400; when it
    is not, the comparison raises [TypeError], which escapes the handler
    before anything is written. *)
Theorem verify_payment_checks_the_signature
    hmac key_secret db request current_user now :
  let expected :=
    hmac key_secret
      (vr_razorpay_order_id request ++ "|" ++ vr_razorpay_payment_id request)%string in
  let r := verify_payment hmac key_secret db request current_user now in
  isascii expected = true ->
  (isascii (vr_razorpay_signature request) = false ->
   r = abort db (Py TypeError)) /\
  (isascii (vr_razorpay_signature request) = true ->
   expected <> vr_razorpay_signature request ->
   varchar_ok 50 (vr_razorpay_payment_id request) = true ->
   text_ok (vr_order_id request) = true ->
   r = reply
         (add_audit db current_user "PAYMENT_VERIFICATION_FAILED"
            (vr_razorpay_payment_id request))
         (Raise (HTTP Invalid_payment_signature)) []).
Proof.
  intros expected r Hexp. subst expected r.
  unfold verify_payment, verify_razorpay_signature, compare_digest.
  rewrite Hexp. split.
  - intros Hsig. rewrite Hsig. reflexivity.
  - intros Hsig Hne Hid Horder. rewrite Hsig. cbn [andb].
    apply String.eqb_neq in Hne. rewrite Hne, Hid, Horder. reflexivity.
Qed.

Lemma verify_payment_checks_the_signature_witness :
  verify_payment Scenario.hmac Scenario.key_secret (Scenario.clinic 1000)
    {| vr_razorpay_order_id := "order_N1"; vr_razorpay_payment_id := "pay_N1";
       vr_razorpay_signature := "forged"; vr_order_id := "APT482913" |}
    1 Scenario.two_days_before
  = reply
      (add_audit (Scenario.clinic 1000) 1 "PAYMENT_VERIFICATION_FAILED" "pay_N1")
      (Raise (HTTP Invalid_payment_signature)) [].
Proof.
  refine (proj2 (verify_payment_checks_the_signature
                   Scenario.hmac Scenario.key_secret (Scenario.clinic 1000)
                   {| vr_razorpay_order_id := "order_N1";
                      vr_razorpay_payment_id := "pay_N1";
                      vr_razorpay_signature := "forged";
                      vr_order_id := "APT482913" |}
                   1 Scenario.two_days_before eq_refl)
            eq_refl _ eq_refl eq_refl).
  vm_compute. discriminate.
Defined.

(** X12. The webhook refuses a request without signature header with
    [TypeError] (answered 500) and a request whose signature does not match
    with 400; in both cases nothing is written. *)
Theorem razorpay_webhook_checks_the_signature
    hmac webhook_secret db request now :
  let r := razorpay_webhook hmac webhook_secret db request now in
  (wh_signature request = None -> r = abort db (Py TypeError)) /\
  (forall signature,
     wh_signature request = Some signature ->
     compare_digest (hmac webhook_secret (wh_body request)) signature = Ok false ->
     r = abort db (HTTP Invalid_signature)).
Proof.
  intros r. subst r. unfold razorpay_webhook. split.
  - intros H. rewrite H. reflexivity.
  - intros signature H Hc. rewrite H, Hc. reflexivity.
Qed.

Lemma razorpay_webhook_checks_the_signature_witness :
  razorpay_webhook Scenario.hmac Scenario.webhook_secret (Scenario.clinic 1000)
    {| wh_body := Scenario.event_text "payment.captured"; wh_signature := None;
       wh_data := Some (Scenario.event_document "payment.captured") |}
    Scenario.two_days_before
  = abort (Scenario.clinic 1000) (Py TypeError) /\
  razorpay_webhook Scenario.hmac Scenario.webhook_secret (Scenario.clinic 1000)
    {| wh_body := Scenario.event_text "payment.captured";
       wh_signature := Some "forged";
       wh_data := Some (Scenario.event_document "payment.captured") |}
    Scenario.two_days_before
  = abort (Scenario.clinic 1000) (HTTP Invalid_signature).
Proof.
  split.
  - exact (proj1 (razorpay_webhook_checks_the_signature
                    Scenario.hmac Scenario.webhook_secret (Scenario.clinic 1000)
                    {| wh_body := Scenario.event_text "payment.captured";
                       wh_signature := None;
                       wh_data := Some (Scenario.event_document "payment.captured") |}
                    Scenario.two_days_before) eq_refl).
  - refine (proj2 (razorpay_webhook_checks_the_signature
                     Scenario.hmac Scenario.webhook_secret (Scenario.clinic 1000)
                     {| wh_body := Scenario.event_text "payment.captured";
                        wh_signature := Some "forged";
                        wh_data := Some (Scenario.event_document "payment.captured") |}
                     Scenario.two_days_before) "forged" eq_refl _).
    vm_compute. reflexivity.
Defined.



(** X14. Blocking: a booked slot is not blocked (400, nothing written); an
    unbooked slot of the doctor gets the requested flag ([True] when none is
    given) and the reason, and keeps its [is_booked] flag. *)
Theorem block_slot_sets_the_flag db current_user slot blocked reason doctor found :
  first (fun d => doctor_user_id d =? current_user) (doctors db) = Some doctor ->
  first (fun s => (slot_id s =? slot) && (slot_doctor_id s =? doctor_id doctor))
    (slots db) = Some found ->
  let r := block_slot db current_user slot blocked reason in
  (is_booked found = true -> r = abort db (HTTP Cannot_block_booked_slot)) /\
  (is_booked found = false ->
   match reason with Some text => text_ok text | None => true end = true ->
   outcome r = Ok (match blocked with Some b => b | None => true end) /\
   exists found',
     first (fun s => (slot_id s =? slot) && (slot_doctor_id s =? doctor_id doctor))
       (slots (store r)) = Some found' /\
     is_blocked found' = match blocked with Some b => b | None => true end /\
     block_reason found' = reason /\
     is_booked found' = false).
Proof.
  intros Hd Hs r. subst r. unfold block_slot. rewrite Hd, Hs. split.
  - intros Hb. rewrite Hb. reflexivity.
  - intros Hb Hr. rewrite Hb, Hr. cbn [outcome store reply set_slots slots].
    split; [reflexivity|].
    eexists. split.
    + apply (first_update_first _ _ _ _ Hs). cbn [slot_id slot_doctor_id].
      exact (proj2 (first_some _ _ _ Hs)).
    + cbn. repeat split. exact Hb.
Qed.

Lemma block_slot_sets_the_flag_witness :
  block_slot (Scenario.settled "paid") 2 100 (Some true) (Some "Break")
    = abort (Scenario.settled "paid") (HTTP Cannot_block_booked_slot) /\
  outcome (block_slot (Scenario.clinic 1000) 2 100 None (Some "Break")) = Ok true.
Proof.
  split.
  - exact (proj1 (block_slot_sets_the_flag (Scenario.settled "paid") 2 100
                    (Some true) (Some "Break") (Scenario.rao 1000)
                    (set_is_booked true Scenario.free_slot) eq_refl eq_refl)
             eq_refl).
  - exact (proj1 (proj2 (block_slot_sets_the_flag (Scenario.clinic 1000) 2 100
                           None (Some "Break") (Scenario.rao 1000)
                           Scenario.free_slot eq_refl eq_refl)
                    eq_refl eq_refl)).
Defined.

(* ------------------------------------------------------------------ *)
(** *** Rescheduling, cancelling and leave *)

Lemma first_after_update {A} (p q : A -> bool) f rows y :
  (forall z, q (f z) = q z) ->
  first q rows = Some y ->
  first q (update_first p f rows) = Some y \/
  first q (update_first p f rows) = Some (f y).
Proof.
  unfold first. intros Hq. induction rows as [|r rest IH]; cbn; [discriminate|].
  destruct (p r) eqn:Hp; cbn.
  - rewrite Hq. destruct (q r); [|tauto].
    intros [= <-]. right. reflexivity.
  - destruct (q r); [tauto | exact IH].
Qed.

(** X15. Rescheduling reads [is_booked] of the new slot but never
    [is_blocked]: for tables that hold an appointment of the user, moving it
    to a blocked, unbooked slot of the same doctor succeeds and leaves that
    slot booked and blocked at once. *)
Theorem reschedule_books_a_blocked_slot
    db appointment_id new_slot_id new_date user appointment new_slot :
  has_nul appointment_id = false ->
  first (appointment_with_id appointment_id) (appointments db) = Some appointment ->
  apt_user_id appointment = user ->
  first (fun s => slot_id s =? new_slot_id) (slots db) = Some new_slot ->
  is_booked new_slot = false ->
  is_blocked new_slot = true ->
  slot_doctor_id new_slot = apt_doctor_id appointment ->
  let r := reschedule_appointment db appointment_id new_slot_id new_date user in
  outcome r = Ok appointment_id /\
  exists s,
    first (fun s => slot_id s =? new_slot_id) (slots (serve r)) = Some s /\
    is_booked s = true /\ is_blocked s = true /\
    ~ booked_xor_blocked (serve r).
Proof.
  intros Hn Ha Hu Hs Hfree Hblocked Hdoc r. subst r.
  unfold reschedule_appointment.
  rewrite (bound_ok _ Hn), Ha, Hu, Z.eqb_refl, Hs, Hfree, Hdoc, Z.eqb_refl.
  cbn [negb outcome reply]. split; [reflexivity|].
  cbn [serve run_background store tasks reply fst add_audit set_audit_logs
       add_notification set_notifications set_appointments set_slots slots].
  set (slots1 := update_first _ (set_is_booked false) (slots db)).
  assert (H1 : exists y, first (fun s => slot_id s =? new_slot_id) slots1 = Some y
                         /\ is_blocked y = true).
  { destruct (first_after_update
                (fun s => slot_id s =? apt_slot_id appointment)
                (fun s => slot_id s =? new_slot_id) (set_is_booked false)
                (slots db) new_slot (fun z => eq_refl) Hs) as [H | H];
      fold slots1 in H; eexists; (split; [exact H|]); [exact Hblocked|].
    cbn. exact Hblocked. }
  destruct H1 as (y & Hy & Hyb).
  exists (set_is_booked true y).
  assert (Hfirst : first (fun s => slot_id s =? new_slot_id)
                     (update_first (fun s => slot_id s =? new_slot_id)
                        (set_is_booked true) slots1)
                   = Some (set_is_booked true y)).
  { apply (first_update_first _ _ _ _ Hy). cbn [set_is_booked slot_id].
    exact (proj2 (first_some _ _ _ Hy)). }
  split; [exact Hfirst|]. split; [reflexivity|]. split; [exact Hyb|].
  intros Hinv. apply first_some in Hfirst as [Hin _].
  specialize (Hinv _ Hin eq_refl). cbn in Hinv. congruence.
Qed.

Lemma reschedule_books_a_blocked_slot_witness :
  outcome (reschedule_appointment (Scenario.settled "paid") "APT482913" 101
             Scenario.day 1) = Ok "APT482913" /\
  exists s,
    first (fun s => slot_id s =? 101)
      (slots (serve (reschedule_appointment (Scenario.settled "paid")
                       "APT482913" 101 Scenario.day 1))) = Some s /\
    is_booked s = true /\ is_blocked s = true /\
    ~ booked_xor_blocked
        (serve (reschedule_appointment (Scenario.settled "paid") "APT482913" 101
                  Scenario.day 1)).
Proof.
  exact (reschedule_books_a_blocked_slot (Scenario.settled "paid") "APT482913"
           101 Scenario.day 1 (Scenario.appointment "confirmed")
           Scenario.blocked_slot eq_refl eq_refl eq_refl eq_refl eq_refl eq_refl
           eq_refl).
Defined.

(** X16. Cancelling an appointment of the user that is not yet cancelled
    and not on a past date: less than two hours before the appointment the
    request is refused with 400 and nothing is written; and whether it is
    refused or accepted, the payment records, the wallets and the wallet
    transactions stay as they were (nothing is refunded) and no task is
    enqueued. *)
Theorem cancel_appointment_two_hour_window db request now appointment :
  has_nul (cancel_appointment_id request) = false ->
  first (appointment_with_id (cancel_appointment_id request)) (appointments db)
    = Some appointment ->
  apt_user_id appointment = cancel_user_id request ->
  apt_status appointment <> "cancelled" ->
  datetime_date (now 0%nat) <= apt_date appointment ->
  let r := cancel_appointment db request now in
  (datetime_combine (apt_date appointment) (apt_time appointment) - now 1%nat
     < timedelta_hours 2 ->
   r = abort db (HTTP Cannot_cancel_within_two_hours)) /\
  payments (serve r) = payments db /\
  wallets (serve r) = wallets db /\
  wallet_transactions (serve r) = wallet_transactions db /\
  tasks r = [].
Proof.
  intros Hn Ha Hu Hst Hdate r. subst r. unfold cancel_appointment.
  rewrite (bound_ok _ Hn), Ha, Hu, Z.eqb_refl. cbn [negb].
  apply String.eqb_neq in Hst. rewrite Hst.
  replace (apt_date appointment <? datetime_date (now 0%nat)) with false
    by (symmetry; apply Z.ltb_ge; exact Hdate).
  destruct (Z.ltb_spec
              (datetime_combine (apt_date appointment) (apt_time appointment)
                 - now 1%nat) (timedelta_hours 2)) as [Hlate | Hearly].
  - split; [reflexivity|]. cbn. tauto.
  - split; [intros H; lia|].
    destruct (next_free_slot _ _ _); destruct (first _ (doctors db));
      destruct (cancel_reason request) as [text|];
      try destruct (varchar_ok 100 text); cbn; tauto.
Qed.

Lemma cancel_appointment_two_hour_window_witness :
  cancel_appointment (Scenario.settled "paid")
    {| cancel_appointment_id := "APT482913"; cancel_user_id := 1;
       cancel_reason := None |} (Scenario.minutes_before 119)
  = abort (Scenario.settled "paid") (HTTP Cannot_cancel_within_two_hours).
Proof.
  refine (proj1 (cancel_appointment_two_hour_window (Scenario.settled "paid")
                   {| cancel_appointment_id := "APT482913"; cancel_user_id := 1;
                      cancel_reason := None |} (Scenario.minutes_before 119)
                   (Scenario.appointment "confirmed") eq_refl eq_refl eq_refl
                   _ _) _).
  - discriminate.
  - vm_compute. discriminate.
  - vm_compute. reflexivity.
Defined.

(** X17. A cancellation that is accepted marks the appointment cancelled
    with the reason given, frees its slot, and answers with the
    appointment's id. *)
Theorem cancel_appointment_frees_the_slot db request now appointment doctor slot :
  has_nul (cancel_appointment_id request) = false ->
  first (appointment_with_id (cancel_appointment_id request)) (appointments db)
    = Some appointment ->
  apt_user_id appointment = cancel_user_id request ->
  apt_status appointment <> "cancelled" ->
  datetime_date (now 0%nat) <= apt_date appointment ->
  timedelta_hours 2
    <= datetime_combine (apt_date appointment) (apt_time appointment) - now 1%nat ->
  first (fun d => doctor_id d =? apt_doctor_id appointment) (doctors db)
    = Some doctor ->
  first (fun s => slot_id s =? apt_slot_id appointment) (slots db) = Some slot ->
  match cancel_reason request with Some text => varchar_ok 100 text | None => true end
    = true ->
  let r := cancel_appointment db request now in
  outcome r = Ok (cancel_appointment_id request) /\
  (exists a,
     first (appointment_with_id (cancel_appointment_id request))
       (appointments (serve r)) = Some a /\
     apt_status a = "cancelled" /\
     cancellation_reason a = cancel_reason request /\
     cancelled_at a = Some (now 2%nat)) /\
  first (fun s => slot_id s =? apt_slot_id appointment) (slots (serve r))
    = Some (set_is_booked false slot).
Proof.
  intros Hn Ha Hu Hst Hdate Hearly Hd Hs Hr r. subst r. unfold cancel_appointment.
  rewrite (bound_ok _ Hn), Ha, Hu, Z.eqb_refl. cbn [negb].
  apply String.eqb_neq in Hst. rewrite Hst.
  replace (apt_date appointment <? datetime_date (now 0%nat)) with false
    by (symmetry; apply Z.ltb_ge; exact Hdate).
  replace (datetime_combine (apt_date appointment) (apt_time appointment)
             - now 1%nat <? timedelta_hours 2) with false
    by (symmetry; apply Z.ltb_ge; exact Hearly).
  rewrite Hd, Hr. cbn [negb].
  assert (Hfreed : first (fun s => slot_id s =? apt_slot_id appointment)
                     (update_first (fun s => slot_id s =? apt_slot_id appointment)
                        (set_is_booked false) (slots db))
                   = Some (set_is_booked false slot)).
  { apply (first_update_first _ _ _ _ Hs). cbn [set_is_booked slot_id].
    exact (proj2 (first_some _ _ _ Hs)). }
  destruct (next_free_slot _ _ _);
    cbn [serve run_background outcome store tasks reply fst add_audit
         set_audit_logs add_notification set_notifications set_doctors
         set_appointments set_slots slots appointments].
  all: split; [reflexivity|]; split; [|exact Hfreed].
  all: eexists; split;
    [apply (first_update_first _ _ _ _ Ha); unfold appointment_with_id;
     cbn [apt_id]; exact (proj2 (first_some _ _ _ Ha))|].
  all: cbn; repeat split.
Qed.

Lemma cancel_appointment_frees_the_slot_witness :
  outcome (cancel_appointment (Scenario.settled "paid")
             {| cancel_appointment_id := "APT482913"; cancel_user_id := 1;
                cancel_reason := Some "Travelling" |}
             (Scenario.minutes_before 2880)) = Ok "APT482913" /\
  first (fun s => slot_id s =? 100)
    (slots (serve (cancel_appointment (Scenario.settled "paid")
                     {| cancel_appointment_id := "APT482913"; cancel_user_id := 1;
                        cancel_reason := Some "Travelling" |}
                     (Scenario.minutes_before 2880))))
  = Some Scenario.free_slot.
Proof.
  pose proof (cancel_appointment_frees_the_slot (Scenario.settled "paid")
                {| cancel_appointment_id := "APT482913"; cancel_user_id := 1;
                   cancel_reason := Some "Travelling" |}
                (Scenario.minutes_before 2880)
                (Scenario.appointment "confirmed") (Scenario.rao 1000)
                (set_is_booked true Scenario.free_slot)
                eq_refl eq_refl eq_refl) as H.
  cbv zeta in H. destruct H as (Ho & _ & Hs).
  - discriminate.
  - vm_compute. discriminate.
  - vm_compute. discriminate.
  - reflexivity.
  - reflexivity.
  - reflexivity.
  - split; [exact Ho | exact Hs].
Defined.

(** X18. Leave: every unbooked slot of the doctor in the date range ends
    blocked with the reason prefixed by [Leave: ], booked slots stay as they
    are, the doctor becomes unavailable, and the response counts the slots
    blocked and the confirmed appointments in the range. *)
Theorem apply_leave_blocks_the_free_slots db request current_user doctor :
  first (fun d => doctor_user_id d =? current_user) (doctors db) = Some doctor ->
  text_ok (leave_reason request) = true ->
  let r := apply_leave db request current_user in
  let in_range (d : date) :=
    leave_start_date request <= d <= leave_end_date request in
  (exists response,
     outcome r = Ok response /\
     slots_blocked response
       = count (fun s => (slot_doctor_id s =? doctor_id doctor)
                         && ((leave_start_date request <=? slot_date s)
                             && (slot_date s <=? leave_end_date request))
                         && negb (is_booked s)) (slots db) /\
     patients_notified response
       = count (fun a => (apt_doctor_id a =? doctor_id doctor)
                         && ((leave_start_date request <=? apt_date a)
                             && (apt_date a <=? leave_end_date request))
                         && String.eqb (apt_status a) "confirmed")
           (appointments db)) /\
  (forall s, In s (slots (serve r)) ->
     slot_doctor_id s = doctor_id doctor -> in_range (slot_date s) ->
     is_booked s = false ->
     is_blocked s = true /\
     block_reason s = Some ("Leave: " ++ leave_reason request)%string) /\
  (forall s, In s (slots db) -> is_booked s = true -> In s (slots (serve r))) /\
  (exists d,
     first (fun d => doctor_user_id d =? current_user) (doctors (serve r)) = Some d /\
     is_available d = false) /\
  appointments (serve r) = appointments db.
Proof.
  intros Hd Hr r in_range. subst r in_range. unfold apply_leave.
  rewrite Hd, Hr. cbn [negb]. rewrite andb_false_r.
  cbn [serve run_background outcome store tasks reply fst set_doctors set_slots
       slots doctors appointments].
  match goal with
  | |- context [fold_left ?f ?rows db] =>
      destruct (fold_add_notification_frame apt_user_id "appointment"
                  "Doctor Leave Notice" rows db) as (Ha & Hs & Hdocs)
  end.
  cbv zeta in Ha, Hs, Hdocs. rewrite Ha, Hs, Hdocs.
  split; [|split; [|split; [|split]]].
  - eexists. split; [reflexivity|]. cbn [slots_blocked patients_notified].
    split; reflexivity.
  - intros s Hin Hdoc [Hlo Hhi] Hfree.
    apply in_map_iff in Hin as (x & Hx & _).
    destruct (_ && negb (is_booked x)) eqn:Hon.
    + subst s. cbn. split; reflexivity.
    + subst s. exfalso. rewrite Hfree, Hdoc, Z.eqb_refl in Hon.
      cbn [negb andb] in Hon. rewrite andb_true_r in Hon.
      apply andb_false_iff in Hon as [Hon | Hon];
        [apply Z.leb_gt in Hon | apply Z.leb_gt in Hon]; lia.
  - intros s Hin Hb. apply in_map_iff. exists s. split; [|exact Hin].
    rewrite Hb. cbn [negb]. rewrite andb_false_r. reflexivity.
  - eexists. split.
    + apply (first_update_first _ _ _ _ Hd). cbn [doctor_user_id].
      exact (proj2 (first_some _ _ _ Hd)).
    + reflexivity.
  - reflexivity.
Qed.

Lemma apply_leave_blocks_the_free_slots_witness :
  exists response,
    outcome (apply_leave (Scenario.settled "paid")
               {| leave_start_date := Scenario.day;
                  leave_end_date := Scenario.day + 1;
                  leave_reason := "Conference" |} 2) = Ok response /\
    slots_blocked response = 1 /\ patients_notified response = 1.
Proof.
  destruct (proj1 (apply_leave_blocks_the_free_slots (Scenario.settled "paid")
                     {| leave_start_date := Scenario.day;
                        leave_end_date := Scenario.day + 1;
                        leave_reason := "Conference" |} 2 (Scenario.rao 1000)
                     eq_refl eq_refl))
    as (response & Ho & Hb & Hp).
  exists response. split; [exact Ho|]. rewrite Hb, Hp. split; reflexivity.
Defined.

(* ------------------------------------------------------------------ *)
(** *** Bulk slot creation *)

Lemma slot_exists_app rows more doctor day start :
  slot_exists (rows ++ more) doctor day start
  = slot_exists rows doctor day start || slot_exists more doctor day start.
Proof. unfold slot_exists. apply existsb_app. Qed.

Lemma in_date_range start_date end_date d :
  In d (date_range start_date end_date) <-> start_date <= d <= end_date.
Proof.
  unfold date_range. rewrite in_map_iff. split.
  - intros (i & <- & Hi). apply in_seq in Hi. lia.
  - intros H. exists (Z.to_nat (d - start_date)). split; [lia|].
    apply in_seq. lia.
Qed.

Section SlotCreationRows.

Variable strptime_HM : string -> option time.
Variable weekday_name : date -> string.

Lemma create_slots_for_day_spec committed doctor day time_slots :
  forall pending created pending' created',
  create_slots_for_day strptime_HM committed doctor day time_slots pending created
    = Ok (pending', created') ->
  exists extra,
    pending' = pending ++ extra /\
    created' = created + Z.of_nat (List.length extra) /\
    (forall s, In s extra ->
       slot_doctor_id s = doctor /\ is_booked s = false /\ is_blocked s = false /\
       slot_exists committed doctor (slot_date s) (start_time s) = false /\
       slot_date s = day) /\
    (forall slot, In slot time_slots ->
       exists start finish,
         slot_time strptime_HM slot "start" = Ok start /\
         slot_time strptime_HM slot "end" = Ok finish /\
         slot_exists (committed ++ pending') doctor day start = true).
Proof.
  induction time_slots as [|slot rest IH]; intros pending created pending' created'.
  - cbn. intros [= <- <-]. exists []. rewrite app_nil_r. cbn.
    split; [reflexivity|]. split; [lia|]. split; intros ? [].
  - cbn [create_slots_for_day].
    destruct (slot_time strptime_HM slot "start") as [st|] eqn:E1; [|discriminate].
    destruct (slot_time strptime_HM slot "end") as [fin|] eqn:E2; [|discriminate].
    destruct (slot_exists committed doctor day st) eqn:Hex.
    + intros H. destruct (IH _ _ _ _ H) as (extra & -> & -> & Hfresh & Hcov).
      exists extra. split; [reflexivity|]. split; [reflexivity|].
      split; [exact Hfresh|].
      intros slot' [<- | Hin].
      * exists st, fin. split; [exact E1|]. split; [exact E2|].
        rewrite slot_exists_app, Hex. reflexivity.
      * exact (Hcov slot' Hin).
    + intros H. destruct (IH _ _ _ _ H) as (extra & -> & -> & Hfresh & Hcov).
      eexists (_ :: extra). split; [rewrite <- app_assoc; reflexivity|].
      split; [cbn [List.length]; lia|]. split.
      * intros s [<- | Hs]; [|exact (Hfresh s Hs)].
        cbn. repeat split. exact Hex.
      * intros slot' [<- | Hin]; [|exact (Hcov slot' Hin)].
        exists st, fin. split; [exact E1|]. split; [exact E2|].
        rewrite <- app_assoc, !slot_exists_app. cbn.
        rewrite !Z.eqb_refl. cbn. rewrite !orb_true_r. reflexivity.
Qed.

Lemma create_slots_for_day_covered committed doctor day time_slots :
  (forall slot, In slot time_slots ->
     exists start finish,
       slot_time strptime_HM slot "start" = Ok start /\
       slot_time strptime_HM slot "end" = Ok finish /\
       slot_exists committed doctor day start = true) ->
  forall pending created,
  create_slots_for_day strptime_HM committed doctor day time_slots pending created
    = Ok (pending, created).
Proof.
  induction time_slots as [|slot rest IH]; intros Hcov pending created;
    [reflexivity|].
  destruct (Hcov slot (or_introl eq_refl)) as (st & fin & E1 & E2 & Hex).
  cbn [create_slots_for_day]. rewrite E1, E2, Hex.
  apply IH. intros slot' Hin. apply Hcov. right. exact Hin.
Qed.

Lemma create_slots_over_spec committed doctor time_slots days skip :
  forall dates pending created pending' created',
  create_slots_over strptime_HM weekday_name committed doctor dates time_slots
    days skip pending created = Ok (pending', created') ->
  exists extra,
    pending' = pending ++ extra /\
    created' = created + Z.of_nat (List.length extra) /\
    (forall s, In s extra ->
       slot_doctor_id s = doctor /\ is_booked s = false /\ is_blocked s = false /\
       slot_exists committed doctor (slot_date s) (start_time s) = false /\
       In (slot_date s) dates /\
       active_date weekday_name days skip (slot_date s) = true) /\
    (forall day slot, In day dates ->
       active_date weekday_name days skip day = true ->
       In slot time_slots ->
       exists start finish,
         slot_time strptime_HM slot "start" = Ok start /\
         slot_time strptime_HM slot "end" = Ok finish /\
         slot_exists (committed ++ pending') doctor day start = true).
Proof.
  induction dates as [|day later IH]; intros pending created pending' created'.
  - cbn. intros [= <- <-]. exists []. rewrite app_nil_r. cbn.
    split; [reflexivity|]. split; [lia|]. split; [intros ? []|].
    intros ? ? [].
  - cbn [create_slots_over]. fold (active_date weekday_name days skip day).
    destruct (active_date weekday_name days skip day) eqn:Hact.
    + destruct (create_slots_for_day strptime_HM committed doctor day time_slots
                  pending created) as [[p1 c1]|] eqn:Hday; [|discriminate].
      intros H.
      destruct (create_slots_for_day_spec _ _ _ _ _ _ _ _ Hday)
        as (e1 & -> & -> & Hf1 & Hc1).
      destruct (IH _ _ _ _ H) as (e2 & -> & -> & Hf2 & Hc2).
      exists (e1 ++ e2). split; [rewrite app_assoc; reflexivity|].
      split; [rewrite length_app; lia|]. split.
      * intros s Hs. apply in_app_iff in Hs as [Hs | Hs].
        -- destruct (Hf1 s Hs) as (H1 & H2 & H3 & H4 & H5). subst day.
           repeat split; try assumption. left. reflexivity.
        -- destruct (Hf2 s Hs) as (H1 & H2 & H3 & H4 & H5 & H6).
           repeat split; try assumption. right. exact H5.
      * intros day' slot [<- | Hin] Ha Hslot.
        -- destruct (Hc1 slot Hslot) as (st & fin & E1 & E2 & Hex).
           exists st, fin. split; [exact E1|]. split; [exact E2|].
           rewrite app_assoc, slot_exists_app, Hex. reflexivity.
        -- exact (Hc2 day' slot Hin Ha Hslot).
    + intros H. destruct (IH _ _ _ _ H) as (e2 & -> & -> & Hf2 & Hc2).
      exists e2. split; [reflexivity|]. split; [reflexivity|]. split.
      * intros s Hs. destruct (Hf2 s Hs) as (H1 & H2 & H3 & H4 & H5 & H6).
        repeat split; try assumption. right. exact H5.
      * intros day' slot [<- | Hin] Ha Hslot; [congruence|].
        exact (Hc2 day' slot Hin Ha Hslot).
Qed.

Lemma create_slots_over_covered committed doctor time_slots days skip :
  forall dates,
  (forall day slot, In day dates ->
     active_date weekday_name days skip day = true ->
     In slot time_slots ->
     exists start finish,
       slot_time strptime_HM slot "start" = Ok start /\
       slot_time strptime_HM slot "end" = Ok finish /\
       slot_exists committed doctor day start = true) ->
  forall pending created,
  create_slots_over strptime_HM weekday_name committed doctor dates time_slots
    days skip pending created = Ok (pending, created).
Proof.
  induction dates as [|day later IH]; intros Hcov pending created; [reflexivity|].
  cbn [create_slots_over]. fold (active_date weekday_name days skip day).
  destruct (active_date weekday_name days skip day) eqn:Hact.
  - rewrite create_slots_for_day_covered.
    + apply IH. intros day' slot Hin. apply Hcov. right. exact Hin.
    + intros slot Hslot. exact (Hcov day slot (or_introl eq_refl) Hact Hslot).
  - apply IH. intros day' slot Hin. apply Hcov. right. exact Hin.
Qed.

(** X19. The slots that bulk creation adds: their number is the number
    returned; each belongs to the doctor, is neither booked nor blocked,
    lies on a date of the range whose weekday is among the requested days
    and that is not skipped, and starts at a time at which the doctor had no
    slot on that date. *)
Theorem create_time_slots_rows
    committed doctor start_date end_date time_slots days skip pending created :
  create_time_slots strptime_HM weekday_name committed doctor start_date end_date
    time_slots days skip = Ok (pending, created) ->
  created = Z.of_nat (List.length pending) /\
  forall s, In s pending ->
    slot_doctor_id s = doctor /\ is_booked s = false /\ is_blocked s = false /\
    start_date <= slot_date s <= end_date /\
    In (weekday_name (slot_date s)) days /\ ~ In (slot_date s) skip /\
    slot_exists committed doctor (slot_date s) (start_time s) = false.
Proof.
  unfold create_time_slots.
  destruct (create_slots_over _ _ _ _ _ _ _ _ _ _) as [[p c]|e] eqn:H;
    [|discriminate].
  destruct (_ && _); [discriminate|]. intros [= <- <-].
  destruct (create_slots_over_spec _ _ _ _ _ _ _ _ _ _ H)
    as (extra & Hp & Hc & Hfresh & _).
  cbn in Hp. subst p. split; [lia|].
  intros s Hs. destruct (Hfresh s Hs) as (Hd & Hb & Hbl & Hex & Hin & Hact).
  apply in_date_range in Hin. unfold active_date in Hact.
  apply andb_true_iff in Hact as [Hday Hskip].
  repeat split; try assumption; try lia.
  - apply existsb_exists in Hday as (x & Hx & Heq).
    apply String.eqb_eq in Heq. rewrite Heq. exact Hx.
  - intros Hin'. apply negb_true_iff in Hskip.
    assert (existsb (Z.eqb (slot_date s)) skip = true); [|congruence].
    apply existsb_exists. exists (slot_date s). split; [exact Hin' | apply Z.eqb_refl].
Qed.

(** X20. Bulk creation is idempotent: the same request sent again after a
    successful one creates no slot and leaves the slots as they are. *)
Theorem create_slots_batch_idempotent db request current_user created :
  outcome (create_slots_batch strptime_HM weekday_name db request current_user)
    = Ok created ->
  let db' := serve (create_slots_batch strptime_HM weekday_name db request
                      current_user) in
  let again := create_slots_batch strptime_HM weekday_name db' request
                 current_user in
  outcome again = Ok 0 /\ slots (serve again) = slots db'.
Proof.
  unfold create_slots_batch.
  destruct (first _ (doctors db)) as [doctor|] eqn:Hd; [|discriminate].
  unfold create_time_slots.
  destruct (create_slots_over strptime_HM weekday_name (slots db) _ _ _ _ _ _ _)
    as [[pending n]|e] eqn:Hrun; [|discriminate].
  destruct (_ && _); [discriminate|].
  intros _.
  cbn [serve run_background store tasks reply fst set_slots doctors slots].
  rewrite Hd.
  destruct (create_slots_over_spec _ _ _ _ _ _ _ _ _ _ Hrun)
    as (extra & Hp & _ & _ & Hcov).
  rewrite (create_slots_over_covered (slots db ++ pending)) by exact Hcov.
  cbn. split; [reflexivity | apply app_nil_r].
Qed.

End SlotCreationRows.

Lemma create_time_slots_rows_witness :
  exists pending,
    create_time_slots Scenario.strptime_HM Scenario.weekday_name
      (slots (Scenario.clinic 1000)) 10 Scenario.day (Scenario.day + 6)
      (batch_time_slots Scenario.batch_request) ["monday"; "wednesday"]
      [Scenario.day + 3] = Ok (pending, 2) /\
    forall s, In s pending ->
      slot_doctor_id s = 10 /\ is_booked s = false /\ is_blocked s = false.
Proof.
  eexists. split; [vm_compute; reflexivity|].
  intros s Hs.
  destruct (proj2 (create_time_slots_rows Scenario.strptime_HM
                     Scenario.weekday_name (slots (Scenario.clinic 1000)) 10
                     Scenario.day (Scenario.day + 6)
                     (batch_time_slots Scenario.batch_request)
                     ["monday"; "wednesday"] [Scenario.day + 3] _ 2
                     ltac:(vm_compute; reflexivity)) s Hs)
    as (H1 & H2 & H3 & _).
  repeat split; assumption.
Defined.

Lemma create_slots_batch_idempotent_witness :
  outcome
    (create_slots_batch Scenario.strptime_HM Scenario.weekday_name
       (serve (create_slots_batch Scenario.strptime_HM Scenario.weekday_name
                 (Scenario.clinic 1000) Scenario.batch_request 2))
       Scenario.batch_request 2) = Ok 0.
Proof.
  exact (proj1 (create_slots_batch_idempotent Scenario.strptime_HM
                  Scenario.weekday_name (Scenario.clinic 1000)
                  Scenario.batch_request 2 2 ltac:(vm_compute; reflexivity))).
Defined.

(* ------------------------------------------------------------------ *)
(** *** The ledger under every request *)

Lemma cancel_appointment_ledger db request now :
  let r := cancel_appointment db request now in
  tasks r = [] /\ wallets (store r) = wallets db /\
  wallet_transactions (store r) = wallet_transactions db.
Proof.
  intros r. subst r. unfold cancel_appointment.
  destruct (bound _); [|cbn; tauto].
  destruct (first _ (appointments db)) as [appointment|]; [|cbn; tauto].
  destruct (negb _); [cbn; tauto|].
  destruct (String.eqb _ _); [cbn; tauto|].
  destruct (_ <? datetime_date _); [cbn; tauto|].
  destruct (_ <? timedelta_hours 2); [cbn; tauto|].
  destruct (next_free_slot _ _ _); destruct (first _ (doctors db));
    destruct (cancel_reason request) as [text|];
    try destruct (varchar_ok 100 text); cbn; tauto.
Qed.

Lemma reschedule_appointment_ledger db appointment_id new_slot_id new_date user :
  let r := reschedule_appointment db appointment_id new_slot_id new_date user in
  tasks r = [] /\ wallets (store r) = wallets db /\
  wallet_transactions (store r) = wallet_transactions db.
Proof.
  intros r. subst r. unfold reschedule_appointment.
  destruct (bound _); [|cbn; tauto].
  destruct (first _ (appointments db)) as [appointment|]; [|cbn; tauto].
  destruct (negb _); [cbn; tauto|].
  destruct (first _ (slots db)) as [new_slot|]; [|cbn; tauto].
  destruct (is_booked new_slot); [cbn; tauto|].
  destruct (negb _); cbn; tauto.
Qed.

Lemma block_slot_ledger db current_user slot blocked reason :
  let r := block_slot db current_user slot blocked reason in
  tasks r = [] /\ wallets (store r) = wallets db /\
  wallet_transactions (store r) = wallet_transactions db.
Proof.
  intros r. subst r. unfold block_slot.
  destruct (first _ (doctors db)) as [doctor|]; [|cbn; tauto].
  destruct (first _ (slots db)) as [found|]; [|cbn; tauto].
  destruct (is_booked found); [cbn; tauto|].
  destruct (match reason with Some r => text_ok r | None => true end);
    cbn; tauto.
Qed.

Lemma fold_add_notification_ledger {A} (f : A -> Z) type_ title rows : forall db,
  let db' := fold_left (fun acc a => add_notification acc (f a) type_ title)
               rows db in
  wallets db' = wallets db /\ wallet_transactions db' = wallet_transactions db.
Proof.
  induction rows as [|a rows IH]; intros db; cbn; [tauto|].
  destruct (IH (add_notification db (f a) type_ title)) as (H1 & H2).
  cbn in *. tauto.
Qed.

Lemma apply_leave_ledger db request current_user :
  let r := apply_leave db request current_user in
  tasks r = [] /\ wallets (store r) = wallets db /\
  wallet_transactions (store r) = wallet_transactions db.
Proof.
  intros r. subst r. unfold apply_leave.
  destruct (first _ (doctors db)) as [doctor|]; [|cbn; tauto].
  destruct (_ && _); [cbn; tauto|].
  cbn [store tasks reply set_doctors set_slots wallets wallet_transactions].
  match goal with
  | |- context [fold_left ?f ?rows db] =>
      destruct (fold_add_notification_ledger apt_user_id "appointment"
                  "Doctor Leave Notice" rows db) as (Hw & Ht)
  end.
  cbv zeta in Hw, Ht. tauto.
Qed.

Lemma create_slots_batch_ledger strptime_HM weekday_name db request current_user :
  let r := create_slots_batch strptime_HM weekday_name db request current_user in
  tasks r = [] /\ wallets (store r) = wallets db /\
  wallet_transactions (store r) = wallet_transactions db.
Proof.
  intros r. subst r. unfold create_slots_batch.
  destruct (first _ (doctors db)) as [doctor|]; [|cbn; tauto].
  destruct (create_time_slots _ _ _ _ _ _ _ _ _) as [[pending n]|e];
    cbn; tauto.
Qed.

Lemma handle_ledger
    hmac key_secret webhook_secret strptime_HM weekday_name db request :
  let db' := handle hmac key_secret webhook_secret strptime_HM weekday_name db
               request in
  wallets db' = wallets db /\ wallet_transactions db' = wallet_transactions db.
Proof.
  intros db'. subst db'.
  destruct request as
    [ request now rand gateway | request now
    | appointment_id new_slot_id new_date user
    | current_user appointment_id diagnosis prescription
    | order_id current_user gateway | request current_user now | request now
    | request current_user now gateway | current_user amount bank_account
    | current_user slot blocked reason | request current_user
    | request current_user ];
    cbn [handle].
  - rewrite book_appointment_serve. tauto.
  - destruct (cancel_appointment_ledger db request now) as (Ht & H);
      cbv zeta in Ht, H. rewrite (serve_no_tasks _ Ht). exact H.
  - destruct (reschedule_appointment_ledger db appointment_id new_slot_id
                new_date user) as (Ht & H); cbv zeta in Ht, H.
    rewrite (serve_no_tasks _ Ht). exact H.
  - destruct (complete_appointment_ledger db current_user appointment_id
                diagnosis prescription) as (Hw & Hx & _ & Ht);
      cbv zeta in Hw, Hx, Ht. rewrite (serve_no_tasks _ Ht). tauto.
  - destruct (create_payment_order_stores_nothing db order_id current_user
                gateway) as (Hs & Ht & _); cbv zeta in Hs, Ht.
    rewrite (serve_no_tasks _ Ht), Hs. tauto.
  - destruct (verify_payment_frame hmac key_secret db request current_user now)
      as [Ht [Hs | Hs]]; cbv zeta in Ht, Hs;
      rewrite (serve_no_tasks _ Ht), Hs; cbn; tauto.
  - destruct (razorpay_webhook_frame hmac webhook_secret db request now)
      as (Ht & _ & _ & Hw & Hx); cbv zeta in Ht, Hw, Hx.
    rewrite (serve_no_tasks _ Ht). tauto.
  - rewrite initiate_refund_reply. cbn. tauto.
  - rewrite withdraw_earnings_reply. cbn. tauto.
  - destruct (block_slot_ledger db current_user slot blocked reason) as (Ht & H);
      cbv zeta in Ht, H. rewrite (serve_no_tasks _ Ht). exact H.
  - destruct (apply_leave_ledger db request current_user) as (Ht & H);
      cbv zeta in Ht, H. rewrite (serve_no_tasks _ Ht). exact H.
  - destruct (create_slots_batch_ledger strptime_HM weekday_name db request
                current_user) as (Ht & H); cbv zeta in Ht, H.
    rewrite (serve_no_tasks _ Ht). exact H.
Qed.

(** X21. No sequence of requests to the handlers changes a wallet or writes a
    wallet transaction: whatever the tables hold, after the requests and
    their background tasks the wallets and the transaction log are as they
    were.  No doctor is ever credited, debited or paid out. *)
Theorem no_wallet_is_ever_written
    hmac key_secret webhook_secret strptime_HM weekday_name requests : forall db,
  let db' := run hmac key_secret webhook_secret strptime_HM weekday_name db
               requests in
  wallets db' = wallets db /\ wallet_transactions db' = wallet_transactions db.
Proof.
  induction requests as [|request requests IH]; intros db; [cbn; tauto|].
  cbn [run fold_left].
  destruct (IH (handle hmac key_secret webhook_secret strptime_HM weekday_name
                  db request)) as [Hw Ht]; cbv zeta in Hw, Ht.
  destruct (handle_ledger hmac key_secret webhook_secret strptime_HM
              weekday_name db request) as [Hw' Ht']; cbv zeta in Hw', Ht'.
  unfold run in Hw, Ht. split; congruence.
Qed.

(* ------------------------------------------------------------------ *)
(** *** The appointments and payment records under every request *)

Lemma update_first_keys {A B} (key : A -> B) p f rows :
  (forall x, key (f x) = key x) ->
  map key (update_first p f rows) = map key rows.
Proof.
  intros Hk. induction rows as [|r rest IH]; cbn; [reflexivity|].
  destruct (p r); cbn; [rewrite Hk; reflexivity | f_equal; exact IH].
Qed.

Lemma cancel_appointment_rows db request now :
  let r := cancel_appointment db request now in
  tasks r = [] /\
  map apt_id (appointments (store r)) = map apt_id (appointments db) /\
  payments (store r) = payments db.
Proof.
  intros r. subst r. unfold cancel_appointment.
  destruct (bound _); [|cbn; tauto].
  destruct (first _ (appointments db)) as [appointment|]; [|cbn; tauto].
  destruct (negb _); [cbn; tauto|].
  destruct (String.eqb _ _); [cbn; tauto|].
  destruct (_ <? datetime_date _); [cbn; tauto|].
  destruct (_ <? timedelta_hours 2); [cbn; tauto|].
  destruct (next_free_slot _ _ _); destruct (first _ (doctors db));
    destruct (cancel_reason request) as [text|];
    try destruct (varchar_ok 100 text);
    cbn [negb store tasks reply add_audit set_audit_logs add_notification
         set_notifications set_doctors set_slots set_appointments appointments
         payments];
    repeat split; try reflexivity;
    apply update_first_keys; reflexivity.
Qed.

Lemma reschedule_appointment_rows db appointment_id new_slot_id new_date user :
  let r := reschedule_appointment db appointment_id new_slot_id new_date user in
  tasks r = [] /\
  map apt_id (appointments (store r)) = map apt_id (appointments db) /\
  payments (store r) = payments db.
Proof.
  intros r. subst r. unfold reschedule_appointment.
  destruct (bound _); [|cbn; tauto].
  destruct (first _ (appointments db)) as [appointment|]; [|cbn; tauto].
  destruct (negb _); [cbn; tauto|].
  destruct (first _ (slots db)) as [new_slot|]; [|cbn; tauto].
  destruct (is_booked new_slot); [cbn; tauto|].
  destruct (negb _); [cbn; tauto|].
  cbn [store tasks reply add_audit set_audit_logs add_notification
       set_notifications set_slots set_appointments appointments payments].
  repeat split. apply update_first_keys. reflexivity.
Qed.

Lemma complete_appointment_rows
    db current_user appointment_id diagnosis prescription :
  let r := complete_appointment db current_user appointment_id diagnosis
             prescription in
  map apt_id (appointments (store r)) = map apt_id (appointments db).
Proof.
  intros r. subst r. unfold complete_appointment.
  destruct (first _ (doctors db)) as [doctor|]; [|reflexivity].
  destruct (bound _); [|reflexivity].
  destruct (first _ (appointments db)) as [appointment|]; [|reflexivity].
  rewrite doctor_transaction_constructor.
  set (db2 := set_doctors _ _).
  assert (H2 : map apt_id (appointments db2) = map apt_id (appointments db)).
  { subst db2. cbn [set_doctors set_appointments appointments].
    apply update_first_keys. reflexivity. }
  destruct (first (wallet_of_doctor (doctor_id doctor)) (wallets db)) as [wallet|].
  - destruct (truthy_string diagnosis || truthy_dict prescription).
    + destruct (insert_prescription _ _ _ _); [|reflexivity].
      rewrite insert_wallet_transaction_without_doctor by reflexivity.
      reflexivity.
    + rewrite insert_wallet_transaction_without_doctor by reflexivity.
      reflexivity.
  - destruct (truthy_string diagnosis || truthy_dict prescription).
    + destruct (insert_prescription _ _ _ _); [|reflexivity].
      destruct (int4 _); [|reflexivity]. exact H2.
    + destruct (int4 _); [|reflexivity]. exact H2.
Qed.

Lemma razorpay_webhook_rows hmac webhook_secret db request now :
  let r := razorpay_webhook hmac webhook_secret db request now in
  map pay_appointment_id (payments (store r))
  = map pay_appointment_id (payments db).
Proof.
  intros r. subst r. unfold razorpay_webhook.
  rewrite PaymentStatus_has_no_PAID, PaymentStatus_FAILED.
  destruct (wh_signature request) as [signature|]; [|reflexivity].
  destruct (compare_digest _ signature) as [[|]|e];
    [|reflexivity|reflexivity].
  destruct (wh_data request) as [data|]; [|reflexivity].
  repeat match goal with
         | |- context [match py_get ?d ?k ?v with _ => _ end] =>
             destruct (py_get d k v) as [?|?]; [|reflexivity]
         end.
  repeat match goal with
         | |- context [if json_is ?e ?s then _ else _] => destruct (json_is e s)
         | |- context [match payment_of_order ?o with _ => _ end] =>
             destruct (payment_of_order o) as [?|?]
         | |- context [match first ?p ?rows with _ => _ end] =>
             destruct (first p rows)
         end; try reflexivity.
  cbn [store reply set_payments payments].
  apply update_first_keys. reflexivity.
Qed.

Lemma fold_add_notification_rows {A} (f : A -> Z) type_ title rows : forall db,
  let db' := fold_left (fun acc a => add_notification acc (f a) type_ title)
               rows db in
  payments db' = payments db.
Proof.
  induction rows as [|a rows IH]; intros db; cbn; [reflexivity|].
  rewrite (IH (add_notification db (f a) type_ title)). reflexivity.
Qed.

Lemma handle_rows
    hmac key_secret webhook_secret strptime_HM weekday_name db request :
  let db' := handle hmac key_secret webhook_secret strptime_HM weekday_name db
               request in
  map apt_id (appointments db') = map apt_id (appointments db) /\
  map pay_appointment_id (payments db') = map pay_appointment_id (payments db).
Proof.
  intros db'. subst db'.
  destruct request as
    [ request now rand gateway | request now
    | appointment_id new_slot_id new_date user
    | current_user appointment_id diagnosis prescription
    | order_id current_user gateway | request current_user now | request now
    | request current_user now gateway | current_user amount bank_account
    | current_user slot blocked reason | request current_user
    | request current_user ];
    cbn [handle].
  - rewrite book_appointment_serve. tauto.
  - destruct (cancel_appointment_rows db request now) as (Ht & Ha & Hp);
      cbv zeta in Ht, Ha, Hp. rewrite (serve_no_tasks _ Ht), Hp. tauto.
  - destruct (reschedule_appointment_rows db appointment_id new_slot_id
                new_date user) as (Ht & Ha & Hp); cbv zeta in Ht, Ha, Hp.
    rewrite (serve_no_tasks _ Ht), Hp. tauto.
  - destruct (complete_appointment_ledger db current_user appointment_id
                diagnosis prescription) as (_ & _ & Hp & Ht);
      cbv zeta in Hp, Ht. rewrite (serve_no_tasks _ Ht), Hp.
    split; [apply complete_appointment_rows | reflexivity].
  - destruct (create_payment_order_stores_nothing db order_id current_user
                gateway) as (Hs & Ht & _); cbv zeta in Hs, Ht.
    rewrite (serve_no_tasks _ Ht), Hs. tauto.
  - destruct (verify_payment_frame hmac key_secret db request current_user now)
      as [Ht [Hs | Hs]]; cbv zeta in Ht, Hs;
      rewrite (serve_no_tasks _ Ht), Hs; cbn; tauto.
  - destruct (razorpay_webhook_frame hmac webhook_secret db request now)
      as (Ht & Ha & _); cbv zeta in Ht, Ha.
    rewrite (serve_no_tasks _ Ht), Ha.
    split; [reflexivity | apply razorpay_webhook_rows].
  - rewrite initiate_refund_reply. cbn. tauto.
  - rewrite withdraw_earnings_reply. cbn. tauto.
  - destruct (block_slot_frame db current_user slot blocked reason)
      as (Ht & Ha & _); cbv zeta in Ht, Ha.
    rewrite (serve_no_tasks _ Ht), Ha. split; [reflexivity|].
    unfold block_slot.
    destruct (first _ (doctors db)) as [doctor|]; [|reflexivity].
    destruct (first _ (slots db)) as [found|]; [|reflexivity].
    destruct (is_booked found); [reflexivity|].
    destruct (match reason with Some r => text_ok r | None => true end);
      reflexivity.
  - destruct (apply_leave_frame db request current_user)
      as (Ht & Ha & _); cbv zeta in Ht, Ha.
    rewrite (serve_no_tasks _ Ht), Ha. split; [reflexivity|].
    unfold apply_leave.
    destruct (first _ (doctors db)) as [doctor|]; [|reflexivity].
    destruct (_ && _); [reflexivity|].
    cbn [store reply set_doctors set_slots payments].
    rewrite fold_add_notification_rows. reflexivity.
  - destruct (create_slots_batch_frame strptime_HM weekday_name db request
                current_user) as (Ht & Ha & _); cbv zeta in Ht, Ha.
    rewrite (serve_no_tasks _ Ht), Ha. split; [reflexivity|].
    unfold create_slots_batch.
    destruct (first _ (doctors db)) as [doctor|]; [|reflexivity].
    destruct (create_time_slots _ _ _ _ _ _ _ _ _) as [[pending n]|e];
      reflexivity.
Qed.

(** X22. No sequence of requests to the handlers creates or deletes an
    appointment or a payment record: whatever the tables hold, the ids of
    the appointments and the appointment ids of the payment records are
    afterwards what they were before, row by row. *)
Theorem no_appointment_is_ever_created
    hmac key_secret webhook_secret strptime_HM weekday_name requests : forall db,
  let db' := run hmac key_secret webhook_secret strptime_HM weekday_name db
               requests in
  map apt_id (appointments db') = map apt_id (appointments db) /\
  map pay_appointment_id (payments db') = map pay_appointment_id (payments db).
Proof.
  induction requests as [|request requests IH]; intros db; [cbn; tauto|].
  cbn [run fold_left].
  destruct (IH (handle hmac key_secret webhook_secret strptime_HM weekday_name
                  db request)) as [Ha Hp]; cbv zeta in Ha, Hp.
  destruct (handle_rows hmac key_secret webhook_secret strptime_HM
              weekday_name db request) as [Ha' Hp']; cbv zeta in Ha', Hp'.
  unfold run in Ha, Hp. split; congruence.
Qed.
